(** * ezdxf: entity database and linear dimension renderer

  A shallow embedding of [ezdxf/database.py] and
  [ezdxf/render/dimension.py], with the properties of the written
  specification stated and settled against it.

  Conventions.
  - Python [float] values are idealised as real numbers ([R]); the
    one place where the binary64 value itself matters (the fixed-point
    formatting of [format_text]) works on the exact binary64 value.
  - A Python exception is a value of [exn]; a call that may raise
    returns [result].
  - Objects mutated in place (the DIMENSION entity, the block layout,
    the database) are threaded explicitly.
  - A Python [str] is held as the bytes of its UTF-8 form; [len]
    counts its characters. *)

From Stdlib Require Import ZArith QArith Reals Lra Lia.
From Stdlib Require Import String Ascii List DecimalString Sorted.
From Stdlib Require PrimFloat FloatOps SpecFloat.
From stdpp Require Import gmap strings list fin_maps fin_sets.



(** ** The entity database ([ezdxf/database.py]) *)

Module Database.

Local Open Scope string_scope.

(** [DXFTag(code, value)]: a group code and its value. *)
Record DXFTag := mkDXFTag { code : Z; value : string }.

(** The part of [ExtendedTags] the database touches: the tag list
  [noclass] and the handle of the linked entity. *)
Record ExtendedTags := mkExtendedTags {
noclass : list DXFTag;
link : option string
}.

(** The handle of a tag list is the value of its first handle tag; the
  database keys are "the 'handle' tag (code == 5 or 105)" (class
  docstring of [EntityDB]).  [None] stands for the [DXFValueError] that
  [add_tags] catches. *)
Definition is_handle_tag (t : DXFTag) : bool :=
((code t =? 5) || (code t =? 105))%Z.

Definition get_handle (tags : ExtendedTags) : option string :=
value <$> List.find is_handle_tag (noclass tags).

(** Python's [list.insert(1, x)]: [x] becomes the second element, or the
  only one of an empty list. *)
Definition insert_at_1 {A} (x : A) (l : list A) : list A :=
match l with
| [] => [x]
| a :: l' => a :: x :: l'
end.

Section WithHandleGenerator.

(** [ezdxf.tools.handle.HandleGenerator] is not part of the sources at
    hand: it is an object with a state and a [next()] method that
    returns a handle and advances the state. *)
Variable HandleGenerator : Type.
Variable next : HandleGenerator -> string * HandleGenerator.

(** [ExtendedTags.dxftype] ([ezdxf.lldxf.extendedtags]) is not part of
    the sources at hand either: a method that gives the DXF type of a
    tag list as a string.  Which string it gives for which list is left
    open. *)
Variable dxftype : ExtendedTags -> string.

Record EntityDB := mkEntityDB {
  _database : gmap string ExtendedTags;
  handles : HandleGenerator
}.

Definition contains (db : EntityDB) (handle : string) : bool :=
  bool_decide (is_Some (_database db !! handle)).

Definition get (db : EntityDB) (handle : string) : option ExtendedTags :=
  _database db !! handle.

Definition setitem (db : EntityDB) (handle : string) (tags : ExtendedTags)
  : EntityDB :=
  {| _database := <[handle := tags]> (_database db); handles := handles db |}.

Definition delete_handle (db : EntityDB) (handle : string) : option EntityDB :=
  match _database db !! handle with
  | None => None (* KeyError *)
  | Some _ =>
      Some {| _database := delete handle (_database db);
              handles := handles db |}
  end.

(** [__len__]: the count of database items. *)
Definition len (db : EntityDB) : nat := size (_database db).

(** [get_unique_handle]: the [while True] loop, one iteration per unit
    of fuel; [None] only when the fuel is used up. *)
Fixpoint get_unique_handle (fuel : nat) (db : EntityDB)
  : option (string * EntityDB) :=
  match fuel with
  | O => None
  | S fuel' =>
      let '(handle, g) := next (handles db) in
      let db' := {| _database := _database db; handles := g |} in
      if contains db handle
      then get_unique_handle fuel' db'
      else Some (handle, db')
  end.

(** [add_tags]: the handle of the tag list, or a fresh one that is
    inserted as second tag (code 105 for DIMSTYLE, else 5). *)
Definition add_tags (fuel : nat) (db : EntityDB) (tags : ExtendedTags)
  : option (string * EntityDB) :=
  match get_handle tags with
  | Some handle => Some (handle, setitem db handle tags)
  | None =>
      match get_unique_handle fuel db with
      | None => None
      | Some (handle, db') =>
          let handle_code := if String.eqb (dxftype tags) "DIMSTYLE"
                             then 105%Z else 5%Z in
          let tags' :=
            {| noclass := insert_at_1 (mkDXFTag handle_code handle)
                                      (noclass tags);
               link := link tags |} in
          Some (handle, setitem db' handle tags')
      end
  end.

(** The generator state after [i] calls of [next], and the handle the
    next call returns. *)
Fixpoint advance (i : nat) (g : HandleGenerator) : HandleGenerator :=
  match i with
  | O => g
  | S i' => advance i' (snd (next g))
  end.

Definition nth_handle (g : HandleGenerator) (i : nat) : string :=
  fst (next (advance i g)).

(** A generator never hands out the same handle twice. *)
Definition never_repeats : Prop :=
  forall g i j, nth_handle g i = nth_handle g j -> i = j.

End WithHandleGenerator.

Arguments _database {_} _.
Arguments handles {_} _.
Arguments mkEntityDB {_} _ _.
Arguments contains {_} _ _.
Arguments setitem {_} _ _ _.
Arguments len {_} _.
Arguments get {_} _ _.
Arguments delete_handle {_} _ _.

(** A handle generator that counts upwards and renders the counter in
  upper-case hexadecimal, as DXF handles are written. *)
Module CounterHandles.

Definition hex_digit (d : N) : ascii :=
  match d with
  | 0 => "0" | 1 => "1" | 2 => "2" | 3 => "3" | 4 => "4" | 5 => "5"
  | 6 => "6" | 7 => "7" | 8 => "8" | 9 => "9" | 10 => "A" | 11 => "B"
  | 12 => "C" | 13 => "D" | 14 => "E" | _ => "F"
  end%N%char.

Definition digit_value (c : ascii) : N :=
  (if (c =? "0")%char then 0 else if (c =? "1")%char then 1
   else if (c =? "2")%char then 2 else if (c =? "3")%char then 3
   else if (c =? "4")%char then 4 else if (c =? "5")%char then 5
   else if (c =? "6")%char then 6 else if (c =? "7")%char then 7
   else if (c =? "8")%char then 8 else if (c =? "9")%char then 9
   else if (c =? "A")%char then 10 else if (c =? "B")%char then 11
   else if (c =? "C")%char then 12 else if (c =? "D")%char then 13
   else if (c =? "E")%char then 14 else 15)%N.

Fixpoint hex_digits (fuel : nat) (n : N) (acc : string) : string :=
  match fuel with
  | O => acc
  | S fuel' =>
      let acc' := String (hex_digit (n mod 16)) acc in
      if (n / 16 =? 0)%N then acc' else hex_digits fuel' (n / 16) acc'
  end.

(** ["%X" % n] *)
Definition to_hex (n : N) : string := hex_digits (S (N.to_nat (N.log2 n))) n "".

Fixpoint parse_hex (s : string) (a : N) : N :=
  match s with
  | EmptyString => a
  | String c s' => parse_hex s' (16 * a + digit_value c)
  end.

Definition next (counter : N) : string * N := (to_hex counter, N.succ counter).

End CounterHandles.

End Database.


(** ** Python values and built-ins used by the renderer *)

Module Py.

Local Open Scope string_scope.

(** The exceptions that the modelled code can raise. *)
Inductive exn : Type :=
| DXFValueError (msg : string)
| DXFUndefinedBlockError (msg : string)
| TypeError (msg : string)
| ValueError (msg : string)
| FormatError            (* ValueError, IndexError or KeyError of [str.format] *)
| ZeroDivisionError
| ParallelRaysError.

(** The outcome of a call: a value, or a raised exception. *)
Inductive result (A : Type) : Type :=
| Ok (a : A)
| Raise (e : exn).

Arguments Ok {A} a.
Arguments Raise {A} e.

Definition bind {A B} (r : result A) (k : A -> result B) : result B :=
match r with
| Ok a => k a
| Raise e => Raise e
end.

(** The operand of a [raise] statement.  [NotImplemented] is the
    built-in constant, which is no exception; [NotImplementedError] is
    the exception class. *)
Inductive raise_operand : Type :=
| ExceptionObject (e : exn)
| NotImplemented.

(** [raise o]: an operand that is neither an exception class nor an
    instance makes the statement itself fail with a [TypeError]. *)
Definition py_raise (o : raise_operand) : exn :=
match o with
| ExceptionObject e => e
| NotImplemented => TypeError "exceptions must derive from BaseException"
end.

(** Truth value of a number: [bool(x)]. *)
Definition bool_of_R (x : R) : bool := if Req_dec_T x 0 then false else true.

(** A [bool] used as a number. *)
Definition R_of_bool (b : bool) : R := if b then 1%R else 0%R.

Definition Rgtb (x y : R) : bool := if Rgt_dec x y then true else false.
Definition Rltb (x y : R) : bool := if Rlt_dec x y then true else false.

(** A [str] is held as the bytes of its UTF-8 form, which for ASCII
    text are its characters.  In a character of several bytes every
    byte after the first is a continuation byte, [10xxxxxx]. *)
Definition is_continuation_byte (c : ascii) : bool :=
match c with
| Ascii _ _ _ _ _ _ false true => true
| _ => false
end.

(** [len(s)] for a string: the number of its characters. *)
Fixpoint str_len (s : string) : nat :=
match s with
| EmptyString => O
| String c s' => if is_continuation_byte c then str_len s' else S (str_len s')
end.

(** [sub in s] for strings. *)
Fixpoint contains_str (sub s : string) : bool :=
String.prefix sub s ||
match s with
| EmptyString => false
| String _ s' => contains_str sub s'
end.

(** [s.replace(old, new)] and [s.replace(old, new, count)] for a
    non-empty [old]: [skip] counts the characters of a replaced
    occurrence that are still to be dropped. *)
Fixpoint replace_from (old new : string) (count : option nat) (skip : nat)
  (s : string) : string :=
match s with
| EmptyString => EmptyString
| String c s' =>
    match skip with
    | S k => replace_from old new count k s'
    | O =>
        let allowed := match count with Some O => false | _ => true end in
        if allowed && String.prefix old s
        then new ++ replace_from old new (Nat.pred <$> count)
                     (Nat.pred (String.length old)) s'
        else String c (replace_from old new count O s')
    end
end.

Definition replace (s old new : string) (count : option nat) : string :=
replace_from old new count O s.

(** [fmt.format(arg)] with one positional argument.  Two braces of the
    same kind stand for one; ["{}"] is a replacement field; the first
    one takes [arg] and a second one finds no argument.  Any other field
    (a name, a number next to the automatic field, a conversion or a
    format specification in front of the automatic field) also ends in
    an exception, as does a single closing brace. *)
Fixpoint format_from (arg : string) (used : bool) (skip : bool) (fmt : string)
  : result string :=
match fmt with
| EmptyString => Ok EmptyString
| String c rest =>
    if skip then format_from arg used false rest
    else if (c =? "{")%char then
      match rest with
      | String "{" _ =>
          bind (format_from arg used true rest) (fun t => Ok (String "{" t))
      | String "}" _ =>
          if used then Raise FormatError
          else bind (format_from arg true true rest) (fun t => Ok (arg ++ t))
      | _ => Raise FormatError
      end
    else if (c =? "}")%char then
      match rest with
      | String "}" _ =>
          bind (format_from arg used true rest) (fun t => Ok (String "}" t))
      | _ => Raise FormatError
      end
    else bind (format_from arg used false rest) (fun t => Ok (String c t))
end.

Definition format1 (fmt arg : string) : result string :=
format_from arg false false fmt.

(** [s] between double quotes, as in an error message. *)
Definition quoted (s : string) : string :=
let q := String (ascii_of_nat 34) EmptyString in q ++ s ++ q.

(** Decimal digits of a natural number, and the same padded with zeros
    on the left to a given width. *)
Definition digits (n : N) : string := NilZero.string_of_uint (N.to_uint n).

Fixpoint zeros (k : nat) : string :=
match k with
| O => EmptyString
| S k' => String "0" (zeros k')
end.

Definition digits_padded (width : nat) (n : N) : string :=
let d := digits n in zeros (width - String.length d) ++ d.

(** Nearest integer to [num / den], ties to the even one ([den > 0]). *)
Definition round_half_even (num den : Z) : Z :=
let q := (num / den)%Z in
let r := (num mod den)%Z in
match (2 * r ?= den)%Z with
| Lt => q
| Gt => (q + 1)%Z
| Eq => if Z.even q then q else (q + 1)%Z
end.

(** The digits of [magnitude * 10^prec], an integer, as a fixed-point
    number. *)
Definition fixed_point (negative : bool) (prec : nat) (scaled : Z) : string :=
let p10 := (10 ^ Z.of_nat prec)%Z in
(if negative then "-" else "") ++
digits (Z.to_N (scaled / p10)) ++
match prec with
| O => ""
| _ => "." ++ digits_padded prec (Z.to_N (scaled mod p10))
end.

(** ["{:.<prec>f}".format(x)] for a binary64 float: the exact value
    [m * 2^e] of the float, rounded to [prec] decimals, ties to even. *)
Definition format_f (prec : nat) (x : PrimFloat.float) : string :=
match FloatOps.Prim2SF x with
| SpecFloat.S754_nan => "nan"
| SpecFloat.S754_infinity s => if s then "-inf" else "inf"
| SpecFloat.S754_zero s => fixed_point s prec 0
| SpecFloat.S754_finite s m e =>
    let p10 := (10 ^ Z.of_nat prec)%Z in
    let scaled :=
      match e with
      | Zneg k => round_half_even (Zpos m * p10) (2 ^ Zpos k)
      | _ => (Zpos m * 2 ^ e * p10)%Z
      end in
    fixed_point s prec scaled
end.

End Py.

(** ** [ezdxf.render.dimension.format_text] *)

Module FormatText.

Import Py.
Local Open Scope string_scope.

(** Modelled from the spec: [ezdxf.tools.suppress_zeros], which is not
    among the sources; the spec has the removal of leading and of
    trailing zeros as options of the formatting, so nothing is removed
    when neither is asked for.  A fraction that loses all its digits
    loses its decimal point too. *)
Fixpoint lstrip_zeros (s : string) : string :=
match s with
| String "0" s' => lstrip_zeros s'
| _ => s
end.

Fixpoint rstrip_zeros (s : string) : string :=
match s with
| EmptyString => EmptyString
| String c s' =>
    match rstrip_zeros s' with
    | EmptyString => if (c =? "0")%char then EmptyString else String c EmptyString
    | t => String c t
    end
end.

Fixpoint drop_last_point (s : string) : string :=
match s with
| EmptyString => EmptyString
| String c EmptyString => if (c =? ".")%char then EmptyString else s
| String c s' => String c (drop_last_point s')
end.

Definition suppress_zeros (s : string) (leading trailing : bool) : string :=
let s1 := if leading then lstrip_zeros s else s in
if trailing && contains_str "." s1 then drop_last_point (rstrip_zeros s1) else s1.

Section Generic.

(** The number type of the values to format, with Python's fixed-point
    formatting of it. *)
Context {num : Type}.
Variable format_f : nat -> num -> string.

(** [ezdxf.algebra.xround], [ezdxf.tools.suppress_zeros] and
    [ezdxf.tools.raise_decimals] are not among the sources. *)
Variable xround : num -> num -> num.
Variable suppress_zeros : string -> bool -> bool -> string.
Variable raise_decimals : string -> string.

Definition format_text (value : num) (dimrnd : option num) (dimdec : option Z)
  (dimzin : Z) (dimdsep : string) (dimpost : string) (raisedec : bool)
  : result string :=
let value := match dimrnd with Some r => xround value r | None => value end in
let '(prec, dimzin) :=
  match dimdec with
  | None => (Ok 6%nat, Z.lor dimzin 8)
  | Some d =>
      ((if (d <? 0)%Z
        then Raise (ValueError "Format specifier missing precision")
        else Ok (Z.to_nat d)), dimzin)
  end in
bind prec (fun prec =>
let text := format_f prec value in
let leading := negb (Z.land dimzin 4 =? 0)%Z in
let pending := negb (Z.land dimzin 8 =? 0)%Z in
let text := suppress_zeros text leading pending in
let text := if raisedec then raise_decimals text else text in
let text := if String.eqb dimdsep "." then text
            else replace text "." dimdsep None in
if String.eqb dimpost "" then Ok text
else if contains_str "<>" dimpost
     then format1 (replace dimpost "<>" "{}" (Some 1%nat)) text
     else Raise (DXFValueError ("Invalid dimpost string: " ++ quoted dimpost))).

End Generic.

End FormatText.


(** ** Vectors, rays and lines ([ezdxf.algebra]) *)

Module Algebra.

Import Py.
Local Open Scope R_scope.

(** Modelled from the spec: [ezdxf.algebra.Vector], which is not among
    the sources: "3-component floating point, supports
    add/subtract/scale/normalize/magnitude/orthogonal/lerp/angle-construction". *)
Record Vector : Type := mkVector { vx : R; vy : R; vz : R }.


Definition vadd (a b : Vector) : Vector :=
mkVector (vx a + vx b) (vy a + vy b) (vz a + vz b).

Definition vsub (a b : Vector) : Vector :=
mkVector (vx a - vx b) (vy a - vy b) (vz a - vz b).

Definition vscale (a : Vector) (s : R) : Vector :=
mkVector (vx a * s) (vy a * s) (vz a * s).

Definition magnitude (a : Vector) : R :=
sqrt (vx a * vx a + vy a * vy a + vz a * vz a).

(** Modelled from the spec: [Vector.normalize(length)] is the vector
    scaled by [length / magnitude]; it "fails (or is undefined) for a
    zero-length vector". *)
Definition normalize (a : Vector) (length : R) : result Vector :=
if Req_dec_T (magnitude a) 0 then Raise ZeroDivisionError
else Ok (vscale a (length / magnitude a)).

(** Modelled from the spec: [Vector.orthogonal()], the vector turned by
    a quarter counter-clockwise in the drawing plane. *)
Definition orthogonal (a : Vector) : Vector := mkVector (- vy a) (vx a) (vz a).

(** Modelled from the spec: [Vector.lerp(other, factor)], with the
    midpoint as default. *)
Definition lerp (a b : Vector) (factor : R) : Vector :=
vadd a (vscale (vsub b a) factor).

Definition radians (deg : R) : R := deg * PI / 180.

(** Modelled from the spec: [Vector.from_deg_angle(angle, length)]. *)
Definition from_deg_angle (angle length : R) : Vector :=
mkVector (cos (radians angle) * length) (sin (radians angle) * length) 0.

Definition cross2 (a b : Vector) : R := vx a * vy b - vy a * vx b.

(** Modelled from the spec: [ConstructionRay(point, angle=...)]: "point +
    direction, represents an infinite line". *)
Record ConstructionRay : Type := mkRay {
  ray_location : Vector;
  ray_direction : Vector
}.

Definition ray_from_angle (p : Vector) (angle : R) : ConstructionRay :=
mkRay p (mkVector (cos angle) (sin angle) 0).

(** Modelled from the spec: [ConstructionRay.intersect]: "solve two
    parametric line equations; if direction vectors are parallel (cross
    product = 0) intersection is undefined - fails". *)
Definition ray_intersect (r1 r2 : ConstructionRay) : result Vector :=
let d1 := ray_direction r1 in
let d2 := ray_direction r2 in
let c := cross2 d1 d2 in
if Req_dec_T c 0 then Raise ParallelRaysError
else
  let t := cross2 (vsub (ray_location r2) (ray_location r1)) d2 / c in
  Ok (mkVector (vx (ray_location r1) + t * vx d1)
               (vy (ray_location r1) + t * vy d1) 0).

(** Modelled from the spec: [ConstructionLine(start, end)]: "two finite
    endpoints". *)
Record ConstructionLine : Type := mkLine {
  line_start : Vector;
  line_end : Vector
}.

Definition in_unit (t : R) : bool :=
(if Rle_dec 0 t then true else false) && (if Rle_dec t 1 then true else false).

(** Modelled from the spec: [ConstructionLine.intersect]: "point-or-none,
    only accepting intersections that fall within both segments'
    extents"; parallel lines have none. *)
Definition line_intersect (l1 l2 : ConstructionLine) : option Vector :=
let d1 := vsub (line_end l1) (line_start l1) in
let d2 := vsub (line_end l2) (line_start l2) in
let c := cross2 d1 d2 in
if Req_dec_T c 0 then None
else
  let w := vsub (line_start l2) (line_start l1) in
  let t := cross2 w d2 / c in
  let u := cross2 w d1 / c in
  if in_unit t && in_unit u
  then Some (mkVector (vx (line_start l1) + t * vx d1)
                      (vy (line_start l1) + t * vy d1) 0)
  else None.

(** Modelled from the spec: equality and order of vectors, as [set] and
    [sorted] use them: equal components, and the order "lexicographic by
    x, then y, then z". *)
Definition vector_eqb (a b : Vector) : bool :=
(if Req_dec_T (vx a) (vx b) then true else false) &&
(if Req_dec_T (vy a) (vy b) then true else false) &&
(if Req_dec_T (vz a) (vz b) then true else false).

Definition vector_ltb (a b : Vector) : bool :=
if Rlt_dec (vx a) (vx b) then true
else if Rlt_dec (vx b) (vx a) then false
else if Rlt_dec (vy a) (vy b) then true
else if Rlt_dec (vy b) (vy a) then false
else if Rlt_dec (vz a) (vz b) then true else false.

(** [set.add]: nothing happens when an equal element is in the set. *)
Definition set_add (p : Vector) (s : list Vector) : list Vector :=
if existsb (vector_eqb p) s then s else s ++ [p].

(** [sorted]: a stable insertion sort on [<]. *)
Fixpoint insert_sorted (p : Vector) (l : list Vector) : list Vector :=
match l with
| [] => [p]
| q :: l' => if vector_ltb p q then p :: l else q :: insert_sorted p l'
end.

Definition sorted (l : list Vector) : list Vector :=
fold_right insert_sorted [] l.



(** The point of a line at the parameter [t], from the start at 0 to
    the end at 1, in the drawing plane. *)
Definition point_at (l : ConstructionLine) (t : R) : Vector :=
mkVector (vx (line_start l) + t * (vx (line_end l) - vx (line_start l)))
         (vy (line_start l) + t * (vy (line_end l) - vy (line_start l)))
         0.

(** Modelled from the spec: [UCS.to_wcs], [UCS.to_ocs] and [UCS.uz];
    [PassTroughUCS] is the "identity transform". *)
Record UCS : Type := mkUCS {
  to_wcs : Vector -> Vector;
  to_ocs : Vector -> Vector;
  uz : Vector
}.

Definition PassTroughUCS : UCS :=
mkUCS (fun p => p) (fun p => p) (mkVector 0 0 1).

End Algebra.


(** ** The dimension renderer ([ezdxf/render/dimension.py]) *)

Module Dimension.

Import Py Algebra.
Local Open Scope string_scope.

(** *** Entities, styles and the block layout *)

(** Values of DXF attributes, and the [dxfattribs] dictionaries. *)
Inductive attr_value : Type :=
| AInt (z : Z)
| AReal (r : R)
| AStr (s : string)
| AVec (v : Vector).

Abbreviation attribs := (gmap string attr_value).

(** [d.update(other)] where [other] may be [None]. *)
Definition update (d : attribs) (other : option attribs) : attribs :=
match other with
| Some o => o ∪ d
| None => d
end.

(** [attribs[key] = value] when [value] is not [None]. *)
Definition set_some (key : string) (value : option attr_value) (d : attribs)
  : attribs :=
match value with
| Some v => <[key := v]> d
| None => d
end.

(** The entities a block layout receives, one constructor per [add_...]
    method that the renderer calls. *)
Inductive primitive : Type :=
| Line (start end_ : Vector) (dxfattribs : attribs)
| MText (text : string) (dxfattribs : attribs)
| Text (text : string) (pos : Vector) (align : string) (dxfattribs : attribs)
| Point (location : Vector) (dxfattribs : attribs)
| BlockRef (name : string) (insert : Vector) (dxfattribs : attribs)
| Arrow (name : string) (insert : Vector) (rotation size : R)
    (dxfattribs : attribs)
| ArrowBlockRef (name : string) (insert : Vector) (size rotation : R)
    (dxfattribs : option attribs).

(** A text style of the drawing. *)
Record Style : Type := mkStyle {
  style_height : option R;
  style_width : option R
}.

(** The drawing as the renderer sees it: the DXF version, the text
    styles and the names of the defined blocks. *)
Record Drawing : Type := mkDrawing {
  dxfversion : string;
  styles : string -> Style;
  blocks : gset string
}.

(** The dimension style with its overrides: [None] is a variable for
    which [get(name, default)] returns the default.  [dimtsz] and
    [dimasz] are read without default and are resolved by the style. *)
Record DimStyle : Type := mkDimStyle {
  dimscale : option R;
  dimlfac : option R;
  dimtxsty : option string;
  dimtxt : option R;
  dimgap : option R;
  dimclrt : option Z;
  dimjust : option Z;
  dimtad : option Z;
  dimtmove : option Z;
  dimtih : option Z;
  dimtoh : option Z;
  dimtix : option R;
  dimtsz : R;
  arrow_names : string * string;
  dimasz : R;
  dimclrd : option Z;
  dimdle : option R;
  dimltype : option string;
  dimlwd : option Z;
  dimsd1 : option R;
  dimsd2 : option R;
  dimclre : option Z;
  dimltex1 : option string;
  dimltex2 : option string;
  dimlwe : option Z;
  dimse1 : option R;
  dimse2 : option R;
  dimexe : option R;
  dimexo : option R;
  dimexfix : option R;
  dimexlen : option R;
  dimrnd : option R;
  dimdec : option Z;
  dimzin : option Z;
  dimdsep : option string;
  dimpost : option string
}.

(** The DIMENSION entity: its type code, the user-location flag of
    [dimtype], its own style overrides and its DXF attributes. *)
Record DimensionEntity : Type := mkDimension {
  dim_type : Z;
  USER_LOCATION_OVERRIDE : bool;
  dimstyle_override : DimStyle;
  dxf_color : Z;
  dxf_layer : string;
  dxf_text : string;
  dxf_angle : option R;
  dxf_text_rotation : option R;
  dxf_align : option Z;
  dxf_defpoint : Vector;
  dxf_defpoint2 : Vector;
  dxf_defpoint3 : Vector;
  dxf_text_midpoint : option Vector;
  dxf_extrusion : option Vector;
  dxf_geometry : option string
}.

Definition set_defpoint (p : Vector) (d : DimensionEntity) : DimensionEntity :=
mkDimension (dim_type d) (USER_LOCATION_OVERRIDE d) (dimstyle_override d)
  (dxf_color d) (dxf_layer d) (dxf_text d) (dxf_angle d) (dxf_text_rotation d)
  (dxf_align d) p (dxf_defpoint2 d) (dxf_defpoint3 d) (dxf_text_midpoint d)
  (dxf_extrusion d) (dxf_geometry d).

Definition set_defpoint2 (p : Vector) (d : DimensionEntity) : DimensionEntity :=
mkDimension (dim_type d) (USER_LOCATION_OVERRIDE d) (dimstyle_override d)
  (dxf_color d) (dxf_layer d) (dxf_text d) (dxf_angle d) (dxf_text_rotation d)
  (dxf_align d) (dxf_defpoint d) p (dxf_defpoint3 d) (dxf_text_midpoint d)
  (dxf_extrusion d) (dxf_geometry d).

Definition set_defpoint3 (p : Vector) (d : DimensionEntity) : DimensionEntity :=
mkDimension (dim_type d) (USER_LOCATION_OVERRIDE d) (dimstyle_override d)
  (dxf_color d) (dxf_layer d) (dxf_text d) (dxf_angle d) (dxf_text_rotation d)
  (dxf_align d) (dxf_defpoint d) (dxf_defpoint2 d) p (dxf_text_midpoint d)
  (dxf_extrusion d) (dxf_geometry d).

Definition set_text_midpoint (p : Vector) (d : DimensionEntity)
  : DimensionEntity :=
mkDimension (dim_type d) (USER_LOCATION_OVERRIDE d) (dimstyle_override d)
  (dxf_color d) (dxf_layer d) (dxf_text d) (dxf_angle d) (dxf_text_rotation d)
  (dxf_align d) (dxf_defpoint d) (dxf_defpoint2 d) (dxf_defpoint3 d) (Some p)
  (dxf_extrusion d) (dxf_geometry d).

Definition set_extrusion (p : Vector) (d : DimensionEntity) : DimensionEntity :=
mkDimension (dim_type d) (USER_LOCATION_OVERRIDE d) (dimstyle_override d)
  (dxf_color d) (dxf_layer d) (dxf_text d) (dxf_angle d) (dxf_text_rotation d)
  (dxf_align d) (dxf_defpoint d) (dxf_defpoint2 d) (dxf_defpoint3 d)
  (dxf_text_midpoint d) (Some p) (dxf_geometry d).

Definition set_geometry (name : string) (d : DimensionEntity)
  : DimensionEntity :=
mkDimension (dim_type d) (USER_LOCATION_OVERRIDE d) (dimstyle_override d)
  (dxf_color d) (dxf_layer d) (dxf_text d) (dxf_angle d) (dxf_text_rotation d)
  (dxf_align d) (dxf_defpoint d) (dxf_defpoint2 d) (dxf_defpoint3 d)
  (dxf_text_midpoint d) (dxf_extrusion d) (Some name).

(** What a render call mutates: the DIMENSION entity and the entities of
    the block it draws into. *)
Record State : Type := mkState {
  dimension : DimensionEntity;
  block : list primitive
}.

(** A computation on the state that may raise; what it has changed stays
    changed when it raises. *)
Definition M (A : Type) : Type := State -> result A * State.

Definition ret {A} (a : A) : M A := fun s => (Ok a, s).

Definition raise {A} (e : exn) : M A := fun s => (Raise e, s).

Definition mbind' {A B} (m : M A) (k : A -> M B) : M B :=
fun s =>
  match m s with
  | (Ok a, s') => k a s'
  | (Raise e, s') => (Raise e, s')
  end.

Definition lift {A} (r : result A) : M A := fun s => (r, s).

Definition get_dimension : M DimensionEntity := fun s => (Ok (dimension s), s).

Definition modify_dimension (f : DimensionEntity -> DimensionEntity) : M unit :=
fun s => (Ok tt, mkState (f (dimension s)) (block s)).

(** [self.block.add_...]: one more entity in the block. *)
Definition add_entity (p : primitive) : M unit :=
fun s => (Ok tt, mkState (dimension s) (block s ++ [p])).

(** [if cond: body] *)
Definition when (cond : bool) (body : M unit) : M unit :=
if cond then body else ret tt.

Declare Scope m_scope.
Delimit Scope m_scope with M.
Notation "x <- m ;; k" := (mbind' m (fun x => k))
  (at level 100, m at next level, right associativity) : m_scope.
Notation "m ;;; k" := (mbind' m (fun _ => k))
  (at level 100, right associativity) : m_scope.

(** [get_dxf_attrib('text_midpoint')] and [dxf.text_midpoint]: the
    attribute has no default and reading it fails when it is absent. *)
Definition get_text_midpoint : M Vector :=
fun s =>
  match dxf_text_midpoint (dimension s) with
  | Some p => (Ok p, s)
  | None => (Raise (DXFValueError "DXFAttrib text_midpoint does not exist."), s)
  end.

(** *** [TextBox] *)

Record TextBox : Type := mkTextBox {
  center : Vector;
  corners : Vector * Vector * Vector * Vector
}.

Definition TextBox_init (center : Vector) (width height angle gap : R)
  : TextBox :=
let w2 := from_deg_angle angle (width / 2 + gap) in
let h2 := from_deg_angle (angle + 90) (height / 2 + gap) in
mkTextBox center
  (vsub (vsub center w2) h2,   (* lower left *)
   vsub (vadd center w2) h2,   (* lower right *)
   vadd (vadd center w2) h2,   (* upper right *)
   vadd (vsub center w2) h2).  (* upper left *)

Definition border_lines (tb : TextBox) : list ConstructionLine :=
let '(p1, p2, p3, p4) := corners tb in
[mkLine p1 p2; mkLine p2 p3; mkLine p3 p4; mkLine p4 p1].

(** [TextBox.intersect]: the intersection points of [line] with the four
    border lines, collected in a set and returned sorted. *)
Definition intersect (tb : TextBox) (line : ConstructionLine) : list Vector :=
sorted
  (fold_left
     (fun result border_line =>
        match line_intersect line border_line with
        | Some p => set_add p result
        | None => result
        end)
     (border_lines tb) []).

(** The region of a box in the drawing plane: from the lower left
    corner, [u] of the way to the lower right and [v] of the way to the
    upper left corner. *)
Definition spans (tb : TextBox) (u v : R) (X : Vector) : Prop :=
let '(p1, p2, _, p4) := corners tb in
(vx X = vx p1 + u * (vx p2 - vx p1) + v * (vx p4 - vx p1) /\
 vy X = vy p1 + u * (vy p2 - vy p1) + v * (vy p4 - vy p1))%R.

Definition in_box (tb : TextBox) (X : Vector) : Prop :=
exists u v, (0 <= u <= 1 /\ 0 <= v <= 1)%R /\ spans tb u v X.

Definition has_area (tb : TextBox) : Prop :=
let '(p1, p2, _, p4) := corners tb in
cross2 (vsub p2 p1) (vsub p4 p1) <> 0%R.

(** The interior of a box; a box without area has none. *)
Definition in_interior (tb : TextBox) (X : Vector) : Prop :=
has_area tb /\
exists u v, (0 < u < 1 /\ 0 < v < 1)%R /\ spans tb u v X.

(** A line entirely outside of a box, and a line that passes through it:
    from outside, through the interior, to outside. *)
Definition outside (tb : TextBox) (line : ConstructionLine) : Prop :=
forall t, (0 <= t <= 1)%R -> ~ in_box tb (point_at line t).


(** *** [DimensionBase] *)

(** The attributes that [DimensionBase.__init__] sets on [self]. *)
Record DimensionBase : Type := mkDimensionBase {
  supports_dxf_r2000 : bool;
  dim_style : DimStyle;
  ucs : UCS;
  requires_extrusion : bool;
  user_location_override : bool;
  default_color : Z;
  dim_scale : R;
  dim_measurement_factor : R;
  text_style_name : string;
  text_style : Style;
  text_height : R;
  text_width_factor : R;
  text_gap : R;
  text_rotation : option R;
  text_color : Z;
  text_halign : Z;
  text_valign : Z;
  text_movement_rule : Z;
  text_inside_horizontal : Z;
  text_outside_horizontal : Z;
  force_text_inside : bool;
  tick_size : R;
  arrow1_name : option string;
  arrow2_name : option string;
  arrow_size : R;
  dim_line_color : Z;
  dim_line_extension : bool;
  dim_linetype : option string;
  dim_lineweight : Z;
  suppress_dim1_line : bool;
  suppress_dim2_line : bool;
  ext_line_color : Z;
  ext1_linetype_name : option string;
  ext2_linetype_name : option string;
  ext_lineweight : Z;
  suppress_ext1_line : bool;
  suppress_ext2_line : bool;
  ext_line_extension : R;
  ext_line_offset : R;
  ext_line_fixed : bool;
  ext_line_length : bool
}.

(** The property [char_height]: the fixed height of the text style, or
    [dimtxt] when the style has a variable height. *)
Definition char_height (ts : Style) (ds : DimStyle) : R :=
let height := default 0%R (style_height ts) in
if Req_dec_T height 0 then default 1%R (dimtxt ds) else height.

Section Externals.

Local Open Scope m_scope.

(** Constants and helpers of ezdxf that are defined outside the
    renderer: [options.default_dimension_text_style],
    [const.LINEWEIGHT_BYBLOCK], [const.MTEXT_ALIGN_FLAGS], the arrow
    registry [ARROWS] with [connection_point], and the number formatting
    helpers of [format_text]. *)
Variable default_dimension_text_style : string.
Variable LINEWEIGHT_BYBLOCK : Z.
Variable MTEXT_ALIGN_FLAGS : string -> option Z.
Variable ARROWS_contains : string -> bool.
Variable ARROWS_has_extension_line : string -> bool.
Variable ARROWS_ORIGIN_ZERO : string -> bool.
Variable ARROWS_oblique : string.
Variable connection_point : string -> Vector -> R -> R -> Vector.
Variable format_f : nat -> R -> string.
Variable xround : R -> R -> R.
Variable suppress_zeros : string -> bool -> bool -> string.
Variable raise_decimals : string -> string.

(** Modelled from the spec: [blocks.new_anonymous_block], which
    "allocates a fresh anonymous container"; only the name of the new
    block matters here. *)
Variable new_anonymous_block_name : Drawing -> string.

Section Renderer.

(** The drawing that owns the dimension. *)
Variable drawing : Drawing.

(** The attributes of [self] as [DimensionBase.__init__] computes them
    from the entity [d], the style and the drawing. *)
Definition DimensionBase_attributes (ucs : option UCS)
  (override : option DimStyle) (d : DimensionEntity) : DimensionBase :=
let supports_dxf_r2000 := String.leb "AC1015" (dxfversion drawing) in
let dim_style := match override with
                 | Some o => o
                 | None => dimstyle_override d
                 end in
let ucs := default PassTroughUCS ucs in
let requires_extrusion := negb (vector_eqb (uz ucs) (mkVector 0 0 1)) in
let user_location_override := USER_LOCATION_OVERRIDE d in
let default_color := dxf_color d in
let text_style_name := default default_dimension_text_style (dimtxsty dim_style) in
let text_style := styles drawing text_style_name in
let tick_size := dimtsz dim_style in
let arrow1_name := if Rgtb tick_size 0 then None
                   else Some (fst (arrow_names dim_style)) in
let arrow2_name := if Rgtb tick_size 0 then None
                   else Some (snd (arrow_names dim_style)) in
let ext_line_extension := default 0%R (dimexe dim_style) in
{|
  supports_dxf_r2000 := supports_dxf_r2000;
  dim_style := dim_style;
  ucs := ucs;
  requires_extrusion := requires_extrusion;
  user_location_override := user_location_override;
  default_color := default_color;
  dim_scale := default 1%R (dimscale dim_style);
  dim_measurement_factor := default 1%R (dimlfac dim_style);
  text_style_name := text_style_name;
  text_style := text_style;
  text_height := char_height text_style dim_style;
  text_width_factor := default 1%R (style_width text_style);
  text_gap := default 0.625%R (dimgap dim_style);
  text_rotation := dxf_text_rotation d;
  text_color := default default_color (dimclrt dim_style);
  text_halign := default 0%Z (dimjust dim_style);
  text_valign := default 0%Z (dimtad dim_style);
  text_movement_rule := default 0%Z (dimtmove dim_style);
  text_inside_horizontal := default 0%Z (dimtih dim_style);
  text_outside_horizontal := default 0%Z (dimtoh dim_style);
  force_text_inside := bool_of_R (default 0%R (dimtix dim_style));
  tick_size := tick_size;
  arrow1_name := arrow1_name;
  arrow2_name := arrow2_name;
  arrow_size := dimasz dim_style;
  dim_line_color := default default_color (dimclrd dim_style);
  dim_line_extension := bool_of_R (default 0%R (dimdle dim_style));
  dim_linetype := dimltype dim_style;
  dim_lineweight := default LINEWEIGHT_BYBLOCK (dimlwd dim_style);
  suppress_dim1_line := bool_of_R (default 0%R (dimsd1 dim_style));
  suppress_dim2_line := bool_of_R (default 0%R (dimsd2 dim_style));
  ext_line_color := default default_color (dimclre dim_style);
  ext1_linetype_name := dimltex1 dim_style;
  ext2_linetype_name := dimltex2 dim_style;
  ext_lineweight := default LINEWEIGHT_BYBLOCK (dimlwe dim_style);
  suppress_ext1_line := bool_of_R (default 0%R (dimse1 dim_style));
  suppress_ext2_line := bool_of_R (default 0%R (dimse2 dim_style));
  ext_line_extension := ext_line_extension;
  ext_line_offset := default 0%R (dimexo dim_style);
  ext_line_fixed := bool_of_R (default 0%R (dimexfix dim_style));
  ext_line_length := bool_of_R (default ext_line_extension (dimexlen dim_style))
|}.

(** [DimensionBase.__init__]: the attributes, and the extrusion vector
    stored in the entity when the UCS needs one (the constructor does
    not read it back). *)
Definition DimensionBase_init (ucs : option UCS) (override : option DimStyle)
  : M DimensionBase :=
d <- get_dimension ;;
let self := DimensionBase_attributes ucs override d in
when (requires_extrusion self)
  (modify_dimension (set_extrusion (uz (Dimension.ucs self)))) ;;;
ret self.

Definition text_width (self : DimensionBase) (text : string) : R :=
let char_width := (text_height self * text_width_factor self)%R in
(INR (str_len text) * char_width)%R.

Definition default_attributes : M attribs :=
d <- get_dimension ;;
ret (<["layer" := AStr (dxf_layer d)]> (<["color" := AInt (dxf_color d)]> ∅)).

Definition wcs (self : DimensionBase) (point : Vector) : Vector :=
to_wcs (ucs self) point.

Definition ocs (self : DimensionBase) (point : Vector) : Vector :=
to_ocs (ucs self) point.

(** The method [format_text]: the module-level function with the
    variables of the dimension style. *)
Definition format_text (self : DimensionBase) (value : R) : result string :=
let ds := dim_style self in
FormatText.format_text format_f xround suppress_zeros raise_decimals
  value (dimrnd ds) (dimdec ds) (default 0%Z (dimzin ds))
  (default "." (dimdsep ds)) (default "<>" (dimpost ds)) false.

Definition text_override (self : DimensionBase) (measurement : R) : M string :=
d <- get_dimension ;;
let text := dxf_text d in
if String.eqb text " " then ret EmptyString
else if String.eqb text EmptyString || String.eqb text "<>"
     then lift (format_text self measurement)
     else ret text.

Definition add_line (self : DimensionBase) (start end_ : Vector)
  (dxfattribs : option attribs) : M unit :=
attribs <- default_attributes ;;
let attribs := update attribs dxfattribs in
add_entity (Line (wcs self start) (wcs self end_) attribs).

Definition add_blockref (self : DimensionBase) (name : string) (insert : Vector)
  (rotation scale : R) (dxfattribs : option attribs) : M unit :=
if ARROWS_contains name
then add_entity (ArrowBlockRef name insert scale rotation dxfattribs)
else
  if negb (bool_decide (name ∈ blocks drawing))
  then raise (DXFUndefinedBlockError ("Undefined block: " ++ quoted name))
  else
    attribs <- default_attributes ;;
    let attribs := <["rotation" := AReal rotation]> attribs in
    let attribs := if Req_dec_T scale 1 then attribs
                   else <["yscale" := AReal scale]>
                          (<["xscale" := AReal scale]> attribs) in
    let attribs := if requires_extrusion self
                   then <["extrusion" := AVec (uz (ucs self))]> attribs
                   else attribs in
    let attribs := update attribs dxfattribs in
    add_entity (BlockRef name (ocs self insert) attribs).

Definition add_text (self : DimensionBase) (text : string) (pos : Vector)
  (rotation : R) (align : string) (dxfattribs : option attribs) : M unit :=
attribs <- default_attributes ;;
let attribs := <["rotation" := AReal rotation]> attribs in
let attribs := <["style" := AStr (text_style_name self)]> attribs in
let height := char_height (text_style self) (dim_style self) in
if String.ltb "AC1009" (dxfversion drawing)
then
  d <- get_dimension ;;
  let attribs := <["char_height" := AReal height]> attribs in
  let attribs := <["insert" := AVec pos]> attribs in
  let attachment_point :=
    default (default 5%Z (MTEXT_ALIGN_FLAGS align)) (dxf_align d) in
  let attribs := <["attachment_point" := AInt attachment_point]> attribs in
  let attribs := update attribs dxfattribs in
  add_entity (MText text attribs)
else
  let attribs := <["height" := AReal height]> attribs in
  let attribs := update attribs dxfattribs in
  add_entity (Text text (ocs self pos) align attribs).

Fixpoint add_defpoints (self : DimensionBase) (points : list Vector) : M unit :=
match points with
| [] => ret tt
| point :: rest =>
    add_entity (Point (wcs self point) (<["layer" := AStr "DEFPOINTS"]> ∅)) ;;;
    add_defpoints self rest
end.

Definition add_leader (self : DimensionBase) (p1 p2 p3 : Vector)
  (dxfattribs : option attribs) : M unit :=
add_line self p1 p2 dxfattribs ;;;
add_line self p2 p3 dxfattribs.

(** *** [LinearDimension] *)

(** The attributes that [LinearDimension.__init__] adds;
    [text_rotation_deg] is [self.text_rotation] once it is a number. *)
Record LinearDimension : Type := mkLinearDimension {
  base : DimensionBase;
  dim_line_angle : R;
  dim_line_angle_rad : R;
  ext_line_angle : R;
  ext_line_angle_rad : R;
  text_rotation_deg : R;
  ext1_line_start : Vector;
  ext2_line_start : Vector;
  dim_line_start : Vector;
  dim_line_end : Vector;
  measurement : R;
  text : string;
  text_location : option Vector;
  text_box : option TextBox;
  text_outside : bool;
  required_text_space : option R;
  dim_text_width : option R;
  required_arrows_space : R;
  arrows_outside : bool
}.

(** The property [vertical_factor]: 1 above, 0 centred, -1 below the
    dimension line. *)
Definition vertical_factor (self : DimensionBase) : R :=
if (text_valign self =? 0)%Z then 0%R
else if (text_valign self =? 4)%Z then (-1)%R
else 1%R.

Definition text_vertical_distance (self : DimensionBase) : R :=
((text_height self / 2 + text_gap self) * vertical_factor self)%R.

(** [get_text_location], with the [dim_line_start] and [dim_line_end] of
    [self] as [start] and [end_]. *)
Definition get_text_location (self : DimensionBase) (start end_ : Vector)
  (text_width : R) (text_outside : bool) : M Vector :=
let lift_text (text_location : Vector) (vdist : R) : M Vector :=
  ortho <- lift (normalize (orthogonal (vsub end_ start)) vdist) ;;
  ret (vadd text_location ortho) in
if user_location_override self
then
  text_location <- get_text_midpoint ;;
  if (text_movement_rule self =? 0)%Z
  then lift_text text_location (text_vertical_distance self)
  else ret text_location
else
  let halign := text_halign self in
  let offset := (text_gap self + arrow_size self + text_width / 2)%R in
  text_location <-
    (if (halign =? 1)%Z
     then n <- lift (normalize (vsub end_ start) offset) ;; ret (vadd start n)
     else if (halign =? 2)%Z
     then n <- lift (normalize (vsub start end_) offset) ;; ret (vadd end_ n)
     else if (halign =? 3)%Z || (halign =? 4)%Z
     then
       let dist := (text_gap self + text_height self / 2)%R in
       n <- lift (normalize (vsub start end_) dist) ;;
       let _offset := vscale n (vertical_factor self) in
       ret (if (halign =? 3)%Z then vadd start _offset else vadd end_ _offset)
     else ret (lerp start end_ 0.5)) ;;
  modify_dimension (set_text_midpoint text_location) ;;;
  let vdist := if (halign =? 0)%Z || (halign =? 1)%Z || (halign =? 2)%Z
               then text_vertical_distance self
               else offset in
  lift_text text_location vdist.

Definition LinearDimension_init (ucs : option UCS) (override : option DimStyle)
  : M LinearDimension :=
self <- DimensionBase_init ucs override ;;
d <- get_dimension ;;
let dim_line_angle := default 0%R (dxf_angle d) in
let dim_line_angle_rad := radians dim_line_angle in
let ext_line_angle := (dim_line_angle + 90)%R in
let ext_line_angle_rad := radians ext_line_angle in
let text_rotation :=
  match text_rotation self with
  | Some r => r
  | None =>
      if (text_halign self =? 3)%Z || (text_halign self =? 4)%Z
      then (dim_line_angle + 90)%R
      else dim_line_angle
  end in
let ext1_line_start := dxf_defpoint2 d in
let ext2_line_start := dxf_defpoint3 d in
let ext1_ray := ray_from_angle ext1_line_start ext_line_angle_rad in
let ext2_ray := ray_from_angle ext2_line_start ext_line_angle_rad in
dim_line_ray <-
  (if user_location_override self && (text_movement_rule self =? 0)%Z
   then p <- get_text_midpoint ;; ret (ray_from_angle p dim_line_angle_rad)
   else ret (ray_from_angle (dxf_defpoint d) dim_line_angle_rad)) ;;
dim_line_start <- lift (ray_intersect dim_line_ray ext1_ray) ;;
dim_line_end <- lift (ray_intersect dim_line_ray ext2_ray) ;;
modify_dimension (set_defpoint dim_line_start) ;;;
let measurement := magnitude (vsub dim_line_end dim_line_start) in
text <- text_override self (measurement * dim_measurement_factor self)%R ;;
let required_arrows_space := (2 * arrow_size self + text_gap self)%R in
let arrows_outside := Rgtb required_arrows_space measurement in
let finish text_location text_box text_outside required_text_space
           dim_text_width :=
  mkLinearDimension self dim_line_angle dim_line_angle_rad ext_line_angle
    ext_line_angle_rad text_rotation ext1_line_start ext2_line_start
    dim_line_start dim_line_end measurement text text_location text_box
    text_outside required_text_space dim_text_width required_arrows_space
    arrows_outside in
if String.eqb text EmptyString
then ret (finish None None false None None)
else
  let dim_text_width := text_width self text in
  let required_text_space :=
    (dim_text_width + 2 * (arrow_size self + text_gap self))%R in
  let text_outside :=
    if force_text_inside self then false
    else Rgtb required_text_space measurement in
  text_location <-
    get_text_location self dim_line_start dim_line_end dim_text_width
      text_outside ;;
  let text_box :=
    TextBox_init text_location dim_text_width (text_height self)
      text_rotation (text_gap self * 0.99)%R in
  ret (finish (Some text_location) (Some text_box) text_outside
         (Some required_text_space) (Some dim_text_width)).

Definition add_measurement_text (self : DimensionBase) (dim_text : string)
  (pos : Vector) (rotation : R) : M unit :=
add_text self dim_text pos rotation "MIDDLE_CENTER"
  (Some (<["color" := AInt (text_color self)]> ∅)).

(** [arrow_name is None or ARROWS.has_extension_line(arrow_name)] *)
Definition extends_dimension_line (name : option string) : bool :=
match name with
| None => true
| Some n => ARROWS_has_extension_line n
end.

(** The local function [order] of [add_dimension_line]: the point nearer
    to [start] first, the second argument first on a tie. *)
Definition order (start a b : Vector) : Vector * Vector :=
if Rltb (magnitude (vsub start a)) (magnitude (vsub start b))
then (a, b) else (b, a).

Definition add_dimension_line (self : LinearDimension) (start end_ : Vector)
  : M unit :=
let b := base self in
direction <- lift (normalize (vsub end_ start) 1) ;;
let extension := vscale direction (R_of_bool (dim_line_extension b)) in
let start := if extends_dimension_line (arrow1_name b)
             then vsub start extension else start in
let end_ := if extends_dimension_line (arrow2_name b)
            then vadd end_ extension else end_ in
let attribs : attribs := <["color" := AInt (dim_line_color b)]> ∅ in
let attribs := set_some "linetype" (AStr <$> dim_linetype b) attribs in
let attribs := if supports_dxf_r2000 b
               then <["lineweight" := AInt (dim_lineweight b)]> attribs
               else attribs in
let intersection_points :=
  match text_box self with
  | Some tb => intersect tb (mkLine start end_)
  | None => []
  end in
match intersection_points with
| [i0; i1] =>
    let '(p1, p2) := order start i0 i1 in
    when (negb (suppress_dim1_line b)) (add_line b start p1 (Some attribs)) ;;;
    when (negb (suppress_dim2_line b)) (add_line b p2 end_ (Some attribs))
| _ => add_line b start end_ (Some attribs)
end.

Definition extension_line_points (self : DimensionBase) (start end_ : Vector)
  : result (Vector * Vector) :=
bind (normalize (vsub end_ start) 1) (fun direction =>
let start :=
  if ext_line_fixed self
  then vsub end_ (vscale direction (R_of_bool (ext_line_length self)))
  else vadd start (vscale direction (ext_line_offset self)) in
let end_ := vadd end_ (vscale direction (ext_line_extension self)) in
Ok (start, end_)).

Definition add_extension_line (self : DimensionBase) (start end_ : Vector)
  (linetype : option string) : M unit :=
let attribs : attribs := <["color" := AInt (ext_line_color self)]> ∅ in
let attribs := set_some "linetype" (AStr <$> linetype) attribs in
let attribs := if supports_dxf_r2000 self
               then <["lineweight" := AInt (ext_lineweight self)]> attribs
               else attribs in
add_line self start end_ (Some attribs).

(** [add_blockref] with an arrow name that may be [None]: no block has
    that name. *)
Definition add_arrow_blockref (self : DimensionBase) (name : option string)
  (insert : Vector) (scale rotation : R) (dxfattribs : option attribs) : M unit :=
match name with
| Some n => add_blockref self n insert rotation scale dxfattribs
| None => raise (DXFUndefinedBlockError "Undefined block: None")
end.

Definition has_arrow_extension (name : option string) : bool :=
match name with
| None => false
| Some n => ARROWS_contains n && negb (ARROWS_ORIGIN_ZERO n)
end.

Definition add_arrows (self : LinearDimension) (start end_ : Vector)
  (outside : bool) : M (Vector * Vector) :=
let b := base self in
let attribs : attribs := <["color" := AInt (dim_line_color b)]> ∅ in
ends <-
  (if Rgtb (tick_size b) 0
   then
     add_entity (Arrow ARROWS_oblique start (dim_line_angle self)
                   (tick_size b * 2)%R attribs) ;;;
     add_entity (Arrow ARROWS_oblique end_ (dim_line_angle self)
                   (tick_size b * 2)%R attribs) ;;;
     ret (start, end_)
   else
     let scale := arrow_size b in
     let start_angle := (dim_line_angle self + 180)%R in
     let end_angle := dim_line_angle self in
     let '(start_angle, end_angle) :=
       if outside then (end_angle, start_angle) else (start_angle, end_angle) in
     add_arrow_blockref b (arrow1_name b) start scale start_angle
       (Some attribs) ;;;
     add_arrow_blockref b (arrow2_name b) end_ scale end_angle
       (Some attribs) ;;;
     if outside then ret (start, end_)
     else
       ret (connection_point (default EmptyString (arrow1_name b)) start scale
              start_angle,
            connection_point (default EmptyString (arrow2_name b)) end_ scale
              end_angle)) ;;
let '(start, end_) := ends in
(if outside
 then
   arrow_vector <- lift (normalize (vsub end_ start) (arrow_size b)) ;;
   when (has_arrow_extension (arrow1_name b))
     (let start_ := vsub start arrow_vector in
      let end__ := vsub start_ arrow_vector in
      add_entity (Line start_ end__ attribs)) ;;;
   when (has_arrow_extension (arrow2_name b))
     (let start_ := vadd end_ arrow_vector in
      let end__ := vadd start_ arrow_vector in
      add_entity (Line start_ end__ attribs))
 else ret tt) ;;;
ret (start, end_).

(** [defpoints_to_wcs]: the defining points go from the UCS to world
    coordinates, the text midpoint to object coordinates. *)
Definition defpoints_to_wcs (self : DimensionBase) : M unit :=
d <- get_dimension ;;
modify_dimension (set_defpoint (wcs self (dxf_defpoint d))) ;;;
d <- get_dimension ;;
modify_dimension (set_defpoint2 (wcs self (dxf_defpoint2 d))) ;;;
d <- get_dimension ;;
modify_dimension (set_defpoint3 (wcs self (dxf_defpoint3 d))) ;;;
point <- get_text_midpoint ;;
modify_dimension (set_text_midpoint (ocs self point)).

Definition render (self : LinearDimension) : M unit :=
let b := base self in
(if String.eqb (text self) EmptyString then ret tt
 else
   match text_location self, text_box self with
   | Some loc, Some tb =>
       add_measurement_text b (text self) loc (text_rotation_deg self) ;;;
       when (user_location_override b && (text_movement_rule b =? 1)%Z)
         (let target_point := lerp (dim_line_start self) (dim_line_end self) 0.5 in
          let '(c0, c1, _, _) := corners tb in
          add_leader b target_point c0 c1 None)
   | _, _ => raise (TypeError "text location is None")
   end) ;;;
(if suppress_ext1_line b then ret tt
 else
   ends <- lift (extension_line_points b (ext1_line_start self)
                   (dim_line_start self)) ;;
   let '(start, end_) := ends in
   add_extension_line b start end_ (ext1_linetype_name b)) ;;;
(if suppress_ext2_line b then ret tt
 else
   ends <- lift (extension_line_points b (ext2_line_start self)
                   (dim_line_end self)) ;;
   let '(start, end_) := ends in
   add_extension_line b start end_ (ext2_linetype_name b)) ;;;
ends <- add_arrows self (dim_line_start self) (dim_line_end self)
          (arrows_outside self) ;;
let '(dim_line_start', dim_line_end') := ends in
add_dimension_line self dim_line_start' dim_line_end' ;;;
add_defpoints b [dim_line_start self; ext1_line_start self;
                 ext2_line_start self] ;;;
defpoints_to_wcs b.

(** *** [DimensionRenderer] *)

(** [linear]: build the renderer object and run it. *)
Definition linear (ucs : option UCS) (override : option DimStyle) : M unit :=
self <- LinearDimension_init ucs override ;;
render self.

Definition angular : M unit := raise (py_raise NotImplemented).
Definition diameter : M unit := raise (py_raise NotImplemented).
Definition radius : M unit := raise (py_raise NotImplemented).
Definition angular3p : M unit := raise (py_raise NotImplemented).
Definition ordinate : M unit := raise (py_raise NotImplemented).

End Renderer.

(** Decimal digits of an integer, as [str.format] writes it. *)
Definition str_of_Z (z : Z) : string := NilZero.string_of_int (Z.to_int z).

(** [dispatch]: a new anonymous block is added to the drawing and its
    name stored in the [geometry] attribute of the dimension, then the
    renderer for the dimension type runs on the new, empty block.  The
    result has the name of the block, the outcome and the final state of
    the dimension and of the block. *)
Definition dispatch (drawing : Drawing) (dimension : DimensionEntity)
  (ucs : option UCS) (override : option DimStyle)
  : string * (result unit * State) :=
let name := new_anonymous_block_name drawing in
let dwg := mkDrawing (dxfversion drawing) (styles drawing)
             ({[name]} ∪ blocks drawing) in
let s := mkState (set_geometry name dimension) [] in
let dim_type := dim_type dimension in
(name,
 (if (dim_type =? 0)%Z || (dim_type =? 1)%Z then linear dwg ucs override
  else if (dim_type =? 2)%Z then angular
  else if (dim_type =? 3)%Z then diameter
  else if (dim_type =? 4)%Z then radius
  else if (dim_type =? 5)%Z then angular3p
  else if (dim_type =? 6)%Z then ordinate
  else raise (DXFValueError ("Unknown DIMENSION type: " ++ str_of_Z dim_type)))
   s).

End Externals.


End Dimension.

(** * Properties *)

(** ** The entity database *)

Module DatabaseProps.

Import Database.

Section WithHandleGenerator.

Context {HandleGenerator : Type}.
Variable next : HandleGenerator -> string * HandleGenerator.
Variable dxftype : ExtendedTags -> string.

Local Abbreviation get_unique_handle := (Database.get_unique_handle HandleGenerator next).
Local Abbreviation add_tags := (Database.add_tags HandleGenerator next dxftype).
Local Abbreviation nth_handle := (Database.nth_handle HandleGenerator next).
Local Abbreviation advance := (Database.advance HandleGenerator next).

Lemma contains_false (db : EntityDB HandleGenerator) h :
  contains db h = false <-> _database db !! h = None.
Proof.
  unfold contains. rewrite bool_decide_eq_false, <- eq_None_not_Some. tauto.
Qed.

Lemma contains_true (db : EntityDB HandleGenerator) h :
  contains db h = true <-> is_Some (_database db !! h).
Proof. unfold contains. apply bool_decide_eq_true. Qed.

(** What the loop returns is no key, and the loop only moves the
    generator. *)
Lemma get_unique_handle_Some fuel (db db' : EntityDB HandleGenerator) h :
  get_unique_handle fuel db = Some (h, db') ->
  _database db !! h = None /\ _database db' = _database db.
Proof.
  revert db. induction fuel as [|fuel IH]; intros db; simpl; [discriminate|].
  destruct (next (handles db)) as [h0 g] eqn:Hn.
  destruct (contains db h0) eqn:Hc.
  - intros H. apply IH in H. simpl in H. exact H.
  - intros [= <- <-]. split; [by apply contains_false | reflexivity].
Qed.

(** When the fuel runs out, every handle tried was a key. *)
Lemma get_unique_handle_None fuel (db : EntityDB HandleGenerator) :
  get_unique_handle fuel db = None ->
  forall i, (i < fuel)%nat ->
    is_Some (_database db !! nth_handle (handles db) i).
Proof.
  revert db. induction fuel as [|fuel IH]; intros db; simpl; [lia|].
  destruct (next (handles db)) as [h0 g] eqn:Hn.
  destruct (contains db h0) eqn:Hc; [|discriminate].
  intros H [|i] Hi.
  - unfold Database.nth_handle. simpl. rewrite Hn. simpl.
    by apply contains_true.
  - specialize (IH _ H i ltac:(lia)). simpl in IH.
    unfold Database.nth_handle in *. simpl. rewrite Hn. simpl. exact IH.
Qed.

Hypothesis fresh : never_repeats HandleGenerator next.

Lemma first_handles_NoDup g n :
  NoDup (nth_handle g <$> seq 0 n).
Proof.
  apply NoDup_fmap_2_strong; [|apply NoDup_seq].
  intros i j _ _ Hij. by apply (fresh g).
Qed.

(** The loop ends: among [size + 1] different handles one is no key. *)
Lemma get_unique_handle_terminates fuel (db : EntityDB HandleGenerator) :
  (size (_database db) < fuel)%nat ->
  exists h db', get_unique_handle fuel db = Some (h, db').
Proof.
  intros Hfuel.
  destruct (get_unique_handle fuel db) as [[h db']|] eqn:Hrun; [eauto|].
  exfalso.
  pose proof (get_unique_handle_None _ _ Hrun) as Hall.
  set (l := nth_handle (handles db) <$> seq 0 fuel).
  assert (Hsub : (list_to_set l : gset string) ⊆ dom (_database db)).
  { intros x Hx. apply elem_of_list_to_set in Hx.
    unfold l in Hx. apply list_elem_of_fmap in Hx as (i & -> & Hi).
    apply elem_of_seq in Hi. apply elem_of_dom. apply Hall. lia. }
  apply subseteq_size in Hsub.
  rewrite size_list_to_set in Hsub by apply first_handles_NoDup.
  unfold l in Hsub. rewrite length_fmap, length_seq, size_dom in Hsub. lia.
Qed.

(** C10. For every database state, [get_unique_handle] returns, with
    enough fuel for the loop, a handle that is not a key of the database
    and leaves the stored entities alone; hence [add_tags] on a tag list
    without a handle stores it under a new key: every entry that was in
    the database is still there, unchanged, and the database has grown
    by one.  The handle generator is assumed never to repeat a handle. *)
Theorem get_unique_handle_fresh (db : EntityDB HandleGenerator) fuel :
  (size (_database db) < fuel)%nat ->
  (exists h db',
      get_unique_handle fuel db = Some (h, db') /\
      _database db !! h = None /\
      _database db' = _database db) /\
  (forall tags, get_handle tags = None ->
    exists h db',
      add_tags fuel db tags = Some (h, db') /\
      _database db !! h = None /\
      is_Some (_database db' !! h) /\
      (forall k, is_Some (_database db !! k) ->
                 _database db' !! k = _database db !! k) /\
      size (_database db') = S (size (_database db))).
Proof.
  intros Hfuel.
  destruct (get_unique_handle_terminates fuel db Hfuel) as (h & db1 & Hrun).
  destruct (get_unique_handle_Some _ _ _ _ Hrun) as [Hnew Hsame].
  split; [by exists h, db1|].
  intros tags Hnone. unfold Database.add_tags. rewrite Hnone, Hrun.
  eexists _, _. split; [reflexivity|]. simpl. rewrite Hsame.
  split; [exact Hnew|]. split; [|split].
  - rewrite lookup_insert_eq. eauto.
  - intros k [v Hk]. rewrite lookup_insert_ne; [reflexivity|].
    intros ->. congruence.
  - by apply map_size_insert_None.
Qed.

End WithHandleGenerator.

(** *** More of the database *)

Section Operations.

Context {HandleGenerator : Type}.
Variable next : HandleGenerator -> string * HandleGenerator.
Variable dxftype : ExtendedTags -> string.

Local Abbreviation get_unique_handle := (Database.get_unique_handle HandleGenerator next).
Local Abbreviation add_tags := (Database.add_tags HandleGenerator next dxftype).
Local Abbreviation nth_handle := (Database.nth_handle HandleGenerator next).
Local Abbreviation advance := (Database.advance HandleGenerator next).

(** X1. [get_unique_handle] returns the first handle of the generator
    that is no key of the database: the handles before it are all keys,
    the generator has moved just past it, and the stored entities are
    as they were. *)
Theorem get_unique_handle_first fuel (db db' : EntityDB HandleGenerator) h :
  get_unique_handle fuel db = Some (h, db') ->
  exists i,
    (i < fuel)%nat /\
    h = nth_handle (handles db) i /\
    contains db h = false /\
    (forall j, (j < i)%nat -> contains db (nth_handle (handles db) j) = true) /\
    handles db' = advance (S i) (handles db) /\
    _database db' = _database db.
Proof.
  revert db. induction fuel as [|fuel IH]; intros db; simpl; [discriminate|].
  destruct (next (handles db)) as [h0 g] eqn:Hn.
  destruct (contains db h0) eqn:Hc.
  - intros H. apply IH in H as (i & Hi & Hh & Hnew & Hold & Hg & Hdb).
    simpl in *. exists (S i).
    split; [lia|].
    split; [unfold Database.nth_handle in *; simpl; rewrite Hn; exact Hh|].
    split; [exact Hnew|].
    split; [|split; [|exact Hdb]].
    + intros [|j] Hj.
      * unfold Database.nth_handle. simpl. rewrite Hn. exact Hc.
      * specialize (Hold j ltac:(lia)).
        unfold Database.nth_handle in *. simpl. rewrite Hn. exact Hold.
    + rewrite Hg. simpl. reflexivity.
  - intros [= <- <-]. exists 0%nat.
    split; [lia|].
    split; [unfold Database.nth_handle; simpl; rewrite Hn; reflexivity|].
    split; [exact Hc|].
    split; [intros j Hj; lia|].
    split; reflexivity.
Qed.

(** X2. [add_tags] on a tag list that has a handle stores the list as it
    is under that handle, without asking the generator and whatever was
    stored there: an entry of the same handle is replaced, and the
    database grows only when the handle was no key. *)
Theorem add_tags_with_handle fuel (db : EntityDB HandleGenerator) tags h :
  get_handle tags = Some h ->
  exists db',
    add_tags fuel db tags = Some (h, db') /\
    get db' h = Some tags /\
    handles db' = handles db /\
    (forall k, k <> h -> get db' k = get db k) /\
    len db' = if contains db h then len db else S (len db).
Proof.
  intros Hh. unfold Database.add_tags. rewrite Hh.
  eexists. split; [reflexivity|]. unfold get, len, setitem. simpl.
  split; [apply lookup_insert_eq|]. split; [reflexivity|].
  split; [intros k Hk; apply lookup_insert_ne; congruence|].
  destruct (contains db h) eqn:Hc.
  - apply contains_true in Hc as [t Ht].
    rewrite map_size_insert_Some; eauto.
  - apply contains_false in Hc. by apply map_size_insert_None.
Qed.

(** X3. [delete_handle] fails on a handle that is no key ([None] is the
    [KeyError]); on a key it removes that entry and no other, and the
    database shrinks by one. *)
Theorem delete_handle_cases (db : EntityDB HandleGenerator) h :
  (contains db h = false -> delete_handle db h = None) /\
  (contains db h = true ->
   exists db',
     delete_handle db h = Some db' /\
     contains db' h = false /\
     (forall k, k <> h -> get db' k = get db k) /\
     S (len db') = len db /\
     handles db' = handles db).
Proof.
  unfold delete_handle. split.
  - intros Hc. apply contains_false in Hc. rewrite Hc. reflexivity.
  - intros Hc. apply contains_true in Hc as [t Ht]. rewrite Ht.
    eexists. split; [reflexivity|]. unfold get, len. simpl.
    split; [apply contains_false; apply lookup_delete_eq|].
    split; [intros k Hk; apply lookup_delete_ne; congruence|].
    split; [|reflexivity].
    rewrite map_size_delete, Ht.
    assert (size (_database db) <> 0%nat); [|lia].
    intros H0. apply map_size_empty_inv in H0. rewrite H0 in Ht.
    rewrite lookup_empty in Ht. discriminate.
Qed.

(** X4. Deleting the handle that [add_tags] has made for a tag list
    without one takes the database back to the entities it had. *)
Theorem add_tags_delete_handle fuel (db db1 : EntityDB HandleGenerator) tags h :
  get_handle tags = None ->
  add_tags fuel db tags = Some (h, db1) ->
  exists db2,
    delete_handle db1 h = Some db2 /\ _database db2 = _database db.
Proof.
  intros Hnone. unfold Database.add_tags. rewrite Hnone.
  destruct (get_unique_handle fuel db) as [[h' db']|] eqn:Hrun; [|discriminate].
  intros [= <- <-].
  destruct (get_unique_handle_Some _ _ _ _ _ Hrun) as [Hnew Hsame].
  unfold delete_handle, setitem. simpl. rewrite lookup_insert_eq.
  eexists. split; [reflexivity|]. simpl.
  rewrite delete_insert_eq, Hsame. apply delete_id. exact Hnew.
Qed.

Hypothesis fresh : never_repeats HandleGenerator next.

(** X6. Two tag lists without handles that are added one after the
    other get two different handles, and both are in the database
    afterwards, which has grown by two.  The handle generator is assumed
    never to repeat a handle. *)
Theorem add_tags_twice fuel (db : EntityDB HandleGenerator) tags1 tags2 :
  (S (size (_database db)) < fuel)%nat ->
  get_handle tags1 = None -> get_handle tags2 = None ->
  exists h1 db1 h2 db2,
    add_tags fuel db tags1 = Some (h1, db1) /\
    add_tags fuel db1 tags2 = Some (h2, db2) /\
    h1 <> h2 /\
    contains db2 h1 = true /\ contains db2 h2 = true /\
    len db2 = S (S (len db)).
Proof.
  intros Hfuel Hn1 Hn2. unfold Database.add_tags. rewrite Hn1, Hn2.
  destruct (get_unique_handle_terminates next fresh fuel db ltac:(lia))
    as (h1 & d1 & Hrun1).
  destruct (get_unique_handle_Some _ _ _ _ _ Hrun1) as [Hnew1 Hsame1].
  rewrite Hrun1.
  set (db1 := setitem d1 h1 _).
  assert (Hsize1 : size (_database db1) = S (size (_database db))).
  { unfold db1, setitem. simpl. rewrite Hsame1. by apply map_size_insert_None. }
  destruct (get_unique_handle_terminates next fresh fuel db1 ltac:(lia))
    as (h2 & d2 & Hrun2).
  destruct (get_unique_handle_Some _ _ _ _ _ Hrun2) as [Hnew2 Hsame2].
  exists h1, db1, h2. rewrite Hrun2. eexists. split; [reflexivity|].
  split; [reflexivity|].
  assert (Hne : h1 <> h2).
  { intros <-. unfold db1, setitem in Hnew2. simpl in Hnew2.
    rewrite lookup_insert_eq in Hnew2. discriminate. }
  split; [exact Hne|]. unfold len, setitem. simpl. rewrite Hsame2.
  split; [|split].
  - apply contains_true. simpl. rewrite lookup_insert_ne by congruence.
    unfold db1, setitem. simpl. rewrite lookup_insert_eq. eauto.
  - apply contains_true. simpl. rewrite lookup_insert_eq. eauto.
  - rewrite map_size_insert_None by exact Hnew2. rewrite Hsize1. reflexivity.
Qed.

End Operations.

(** The counting generator never repeats a handle: its handles can be
    read back. *)
Module CounterHandlesProps.

Import CounterHandles.

Lemma digit_value_hex_digit d : (d < 16)%N -> digit_value (hex_digit d) = d.
Proof.
  intros Hd.
  destruct d as [|p]; [reflexivity|].
  do 4 (destruct p as [p|p|]; try reflexivity); lia.
Qed.

Lemma parse_hex_digits fuel n acc :
  (n < 16 ^ N.of_nat fuel)%N -> (0 < fuel)%nat ->
  exists k, forall a,
    parse_hex (hex_digits fuel n acc) a = parse_hex acc (a * 16 ^ k + n)%N.
Proof.
  revert n acc. induction fuel as [|fuel IH]; intros n acc Hn Hf; [lia|].
  simpl hex_digits.
  pose proof (N.mod_lt n 16 ltac:(lia)) as Hmod.
  pose proof (N.div_mod n 16 ltac:(lia)) as Hdm.
  destruct (n / 16 =? 0)%N eqn:Hq.
  - apply N.eqb_eq in Hq. exists 1%N. intros a. simpl.
    rewrite digit_value_hex_digit by exact Hmod. f_equal. lia.
  - apply N.eqb_neq in Hq.
    assert (Hlt : (n / 16 < 16 ^ N.of_nat fuel)%N).
    { apply N.Div0.div_lt_upper_bound.
      replace (16 * 16 ^ N.of_nat fuel)%N with (16 ^ N.of_nat (S fuel))%N; [exact Hn|].
      rewrite Nat2N.inj_succ, N.pow_succ_r'. reflexivity. }
    assert (Hpos : (0 < fuel)%nat).
    { destruct fuel; [|lia]. simpl in Hlt. lia. }
    destruct (IH (n / 16)%N (String (hex_digit (n mod 16)) acc) Hlt Hpos)
      as [k Hk].
    exists (N.succ k). intros a. rewrite Hk. simpl.
    rewrite digit_value_hex_digit by exact Hmod. f_equal.
    rewrite N.pow_succ_r'. lia.
Qed.

Lemma parse_to_hex n : parse_hex (to_hex n) 0%N = n.
Proof.
  unfold to_hex.
  destruct (parse_hex_digits (S (N.to_nat (N.log2 n))) n ""%string) as [k Hk].
  - destruct (N.eq_dec n 0%N) as [->|Hn0]; [reflexivity|].
    rewrite Nat2N.inj_succ, N2Nat.id.
    apply N.lt_le_trans with (2 ^ N.succ (N.log2 n))%N.
    + apply N.log2_spec. lia.
    + apply N.pow_le_mono_l. lia.
  - lia.
  - rewrite Hk. simpl. lia.
Qed.

Lemma advance_counter i g :
  Database.advance N next i g = (g + N.of_nat i)%N.
Proof.
  revert g. induction i as [|i IH]; intros g; simpl; [lia|].
  rewrite IH. lia.
Qed.

Lemma counter_never_repeats : never_repeats N next.
Proof.
  intros g i j. unfold Database.nth_handle. rewrite !advance_counter. simpl.
  intros H. apply (f_equal (fun s => parse_hex s 0%N)) in H.
  rewrite !parse_to_hex in H. lia.
Qed.

End CounterHandlesProps.

(** For the sample runs the DXF type of a tag list is read as DXF files
    give it, from the value of the first tag; the sample lists all have
    one. *)
Definition first_tag_value (tags : ExtendedTags) : string :=
  match noclass tags with
  | [] => ""
  | t :: _ => value t
  end.

(** A database with the handles 1, 2 and 3 taken and the counter back at
    1: the tag list without handle is stored under handle 4. *)
Definition line_tags : ExtendedTags :=
  mkExtendedTags [mkDXFTag 0 "LINE"; mkDXFTag 8 "0"] None.

Definition sample_db : EntityDB N :=
  mkEntityDB (<["1" := line_tags]> (<["2" := line_tags]>
               (<["3" := line_tags]> ∅))) 1%N.

Lemma get_unique_handle_fresh_witness :
  (size (_database sample_db) < 4)%nat /\
  (exists h db',
      Database.get_unique_handle N CounterHandles.next 4 sample_db
        = Some (h, db') /\
      _database sample_db !! h = None /\
      _database db' = _database sample_db) /\
  (forall tags, get_handle tags = None ->
    exists h db',
      Database.add_tags N CounterHandles.next first_tag_value 4 sample_db tags
        = Some (h, db') /\
      _database sample_db !! h = None /\
      is_Some (_database db' !! h) /\
      (forall k, is_Some (_database sample_db !! k) ->
                 _database db' !! k = _database sample_db !! k) /\
      size (_database db') = S (size (_database sample_db))).
Proof.
  assert (Hsize : (size (_database sample_db) < 4)%nat)
    by (vm_compute; lia).
  split; [exact Hsize|].
  exact (get_unique_handle_fresh CounterHandles.next first_tag_value
           CounterHandlesProps.counter_never_repeats sample_db 4 Hsize).
Defined.

Example get_unique_handle_sample :
  fst <$> Database.get_unique_handle N CounterHandles.next 4 sample_db
  = Some "4"%string.
Proof. vm_compute. reflexivity. Qed.

(** *** The operations on the sample database *)

Definition dimstyle_tags : ExtendedTags :=
  mkExtendedTags [mkDXFTag 0 "DIMSTYLE"; mkDXFTag 2 "Standard"] None.

Definition line_tags_2 : ExtendedTags :=
  mkExtendedTags [mkDXFTag 0 "LINE"; mkDXFTag 5 "2"; mkDXFTag 8 "1"] None.

Lemma get_unique_handle_first_witness :
  exists db',
    Database.get_unique_handle N CounterHandles.next 4 sample_db
      = Some ("4"%string, db') /\
    exists i,
      (i < 4)%nat /\
      "4"%string = Database.nth_handle N CounterHandles.next (handles sample_db) i /\
      contains sample_db "4" = false /\
      (forall j, (j < i)%nat ->
         contains sample_db
           (Database.nth_handle N CounterHandles.next (handles sample_db) j)
         = true) /\
      handles db' = Database.advance N CounterHandles.next (S i) (handles sample_db) /\
      _database db' = _database sample_db.
Proof.
  assert (E : Database.get_unique_handle N CounterHandles.next 4 sample_db
              = Some ("4"%string, mkEntityDB (_database sample_db) 5%N))
    by (vm_compute; reflexivity).
  eexists. split; [exact E|].
  exact (get_unique_handle_first CounterHandles.next 4 sample_db _ _ E).
Defined.

Lemma add_tags_with_handle_witness :
  get_handle line_tags_2 = Some "2"%string /\
  exists db',
    Database.add_tags N CounterHandles.next first_tag_value 0 sample_db line_tags_2
      = Some ("2"%string, db') /\
    get db' "2" = Some line_tags_2 /\
    handles db' = handles sample_db /\
    (forall k, k <> "2"%string -> get db' k = get sample_db k) /\
    len db' = if contains sample_db "2" then len sample_db else S (len sample_db).
Proof.
  split; [reflexivity|].
  exact (add_tags_with_handle CounterHandles.next first_tag_value 0 sample_db line_tags_2 "2"
           eq_refl).
Defined.

Lemma delete_handle_cases_witness :
  (contains sample_db "9" = false /\ delete_handle sample_db "9" = None) /\
  (contains sample_db "2" = true /\
   exists db',
     delete_handle sample_db "2" = Some db' /\
     contains db' "2" = false /\
     (forall k, k <> "2"%string -> get db' k = get sample_db k) /\
     S (len db') = len sample_db /\
     handles db' = handles sample_db).
Proof.
  assert (H9 : contains sample_db "9" = false) by (vm_compute; reflexivity).
  assert (H2 : contains sample_db "2" = true) by (vm_compute; reflexivity).
  split; (split; [assumption|]).
  - exact (proj1 (delete_handle_cases sample_db "9") H9).
  - exact (proj2 (delete_handle_cases sample_db "2") H2).
Defined.

Lemma add_tags_delete_handle_witness :
  exists h db1 db2,
    get_handle line_tags = None /\
    Database.add_tags N CounterHandles.next first_tag_value 4 sample_db line_tags
      = Some (h, db1) /\
    delete_handle db1 h = Some db2 /\
    _database db2 = _database sample_db.
Proof.
  destruct (Database.add_tags N CounterHandles.next first_tag_value 4 sample_db line_tags)
    as [[h db1]|] eqn:E.
  - destruct (add_tags_delete_handle CounterHandles.next first_tag_value 4 sample_db db1
                line_tags h eq_refl E) as (db2 & H1 & H2).
    exists h, db1, db2. repeat split; assumption.
  - vm_compute in E. discriminate.
Defined.

Lemma add_tags_twice_witness :
  (S (size (_database sample_db)) < 5)%nat /\
  exists h1 db1 h2 db2,
    Database.add_tags N CounterHandles.next first_tag_value 5 sample_db line_tags
      = Some (h1, db1) /\
    Database.add_tags N CounterHandles.next first_tag_value 5 db1 dimstyle_tags
      = Some (h2, db2) /\
    h1 <> h2 /\
    contains db2 h1 = true /\ contains db2 h2 = true /\
    len db2 = S (S (len sample_db)).
Proof.
  assert (Hsize : (S (size (_database sample_db)) < 5)%nat)
    by (vm_compute; lia).
  split; [exact Hsize|].
  exact (add_tags_twice CounterHandles.next first_tag_value
           CounterHandlesProps.counter_never_repeats 5 sample_db line_tags
           dimstyle_tags Hsize eq_refl eq_refl).
Defined.

End DatabaseProps.

(** ** Text of the measurement *)

Module FormatTextProps.

Import Py FormatText.
Import (notations) PrimFloat.
Local Open Scope string_scope.

Lemma suppress_zeros_off s : FormatText.suppress_zeros s false false = s.
Proof. reflexivity. Qed.

#[local] Set Warnings "-inexact-float".

(** The float that the literal [3.14159] denotes. *)
Definition value_3_14159 : PrimFloat.float :=
Eval cbv in (3.14159)%float.

#[local] Set Warnings "inexact-float".

(** C7. [format_text] on 3.14159 with [dimdec=2], [dimdsep=','] and the
    defaults for the other parameters gives "3,14", and with
    [dimpost="<>mm"] it gives "3,14mm".  The helper [suppress_zeros],
    which is not among the sources, is any function that returns its
    text when no suppression is asked for. *)
Theorem format_text_3_14159
  (xround : PrimFloat.float -> PrimFloat.float -> PrimFloat.float)
  (suppress_zeros : string -> bool -> bool -> string)
  (raise_decimals : string -> string) :
  (forall s, suppress_zeros s false false = s) ->
  format_text format_f xround suppress_zeros raise_decimals
    value_3_14159 None (Some 2%Z) 0%Z "," "<>" false = Ok "3,14" /\
  format_text format_f xround suppress_zeros raise_decimals
    value_3_14159 None (Some 2%Z) 0%Z "," "<>mm" false = Ok "3,14mm".
Proof.
  intros Hoff. unfold format_text. cbn [Z.ltb Z.compare bind Z.to_nat Pos.to_nat
    Pos.iter_op Nat.add Z.land negb Z.eqb].
  rewrite Hoff.
  split; vm_compute; reflexivity.
Qed.

Lemma format_text_3_14159_witness :
  (forall s, FormatText.suppress_zeros s false false = s) /\
  format_text format_f (fun x _ => x) FormatText.suppress_zeros (fun s => s)
    value_3_14159 None (Some 2%Z) 0%Z "," "<>" false = Ok "3,14" /\
  format_text format_f (fun x _ => x) FormatText.suppress_zeros (fun s => s)
    value_3_14159 None (Some 2%Z) 0%Z "," "<>mm" false = Ok "3,14mm".
Proof.
  split; [exact suppress_zeros_off|].
  exact (format_text_3_14159 (fun x _ => x) FormatText.suppress_zeros
           (fun s => s) suppress_zeros_off).
Defined.

(** *** Strings: [in], [replace] and [format] *)

Lemma prefix_cons c s t :
  String.prefix (String c s) (String c t) = String.prefix s t.
Proof. simpl. destruct (Ascii.ascii_dec c c); [reflexivity|contradiction]. Qed.

Lemma prefix_cons_ne c d s t :
  c <> d -> String.prefix (String c s) (String d t) = false.
Proof. intros H. simpl. destruct (Ascii.ascii_dec c d); [contradiction|reflexivity]. Qed.

Lemma prefix_nil s : String.prefix "" s = true.
Proof. destruct s; reflexivity. Qed.

(** A text that has no placeholder in front of the first one. *)
Lemma contains_str_placeholder pre post :
  contains_str "<>" (pre ++ "<>" ++ post) = true.
Proof.
  induction pre as [|c pre IH].
  - simpl. destruct post; reflexivity.
  - change ((String c pre) ++ "<>" ++ post) with (String c (pre ++ "<>" ++ post)).
    cbn [contains_str]. rewrite IH. apply orb_true_r.
Qed.

Lemma prefix_placeholder_app c pre post :
  String.prefix "<>" (String c pre) = false ->
  String.prefix "<>" (String c (pre ++ "<>" ++ post)) = false.
Proof.
  destruct (Ascii.ascii_dec "<" c) as [<-|Hc].
  - rewrite !prefix_cons. destruct pre as [|d pre].
    + intros _. apply prefix_cons_ne. discriminate.
    + change ((String d pre) ++ "<>" ++ post) with (String d (pre ++ "<>" ++ post)).
      destruct (Ascii.ascii_dec ">" d) as [<-|Hd].
      * rewrite prefix_cons, prefix_nil. discriminate.
      * intros _. apply prefix_cons_ne. exact Hd.
  - intros _. apply prefix_cons_ne. exact Hc.
Qed.

(** Nothing is replaced once the count is used up. *)
Lemma replace_from_done old new s :
  replace_from old new (Some 0%nat) 0 s = s.
Proof.
  induction s as [|c s IH]; [reflexivity|].
  cbn [replace_from andb]. rewrite IH. reflexivity.
Qed.

(** [replace('<>', '{}', 1)] on a text whose first placeholder is known. *)
Lemma replace_first_placeholder pre post :
  contains_str "<>" pre = false ->
  replace (pre ++ "<>" ++ post) "<>" "{}" (Some 1%nat) = pre ++ "{}" ++ post.
Proof.
  unfold replace. induction pre as [|c pre IH]; intros Hpre.
  - change ("" ++ "<>" ++ post) with (String "<" (String ">" post)).
    cbn [replace_from andb].
    rewrite !prefix_cons, prefix_nil.
    cbn [fmap option_fmap option_map Nat.pred String.length replace_from].
    destruct post as [|d post]; [reflexivity|].
    rewrite (replace_from_done "<>" "{}" (String d post)). reflexivity.
  - cbn [contains_str] in Hpre. apply orb_false_elim in Hpre as [Hhead Hrest].
    change ((String c pre) ++ "<>" ++ post) with (String c (pre ++ "<>" ++ post)).
    cbn [replace_from andb].
    rewrite (prefix_placeholder_app _ _ post Hhead).
    rewrite (IH Hrest). reflexivity.
Qed.

(** A text without braces. *)
Definition no_braces (s : string) : Prop :=
  contains_str "{" s = false /\ contains_str "}" s = false.

Lemma no_braces_cons c s :
  no_braces (String c s) -> c <> "{"%char /\ c <> "}"%char /\ no_braces s.
Proof.
  unfold no_braces. cbn [contains_str]. intros [H1 H2].
  apply orb_false_elim in H1 as [H1 H1'], H2 as [H2 H2'].
  repeat split; try assumption.
  - intros ->. rewrite prefix_cons, prefix_nil in H1. discriminate.
  - intros ->. rewrite prefix_cons, prefix_nil in H2. discriminate.
Qed.

Lemma format_from_plain arg used s :
  no_braces s -> format_from arg used false s = Ok s.
Proof.
  induction s as [|c s IH]; intros Hs; [reflexivity|].
  apply no_braces_cons in Hs as (H1 & H2 & Hs).
  cbn [format_from].
  apply Ascii.eqb_neq in H1, H2. rewrite H1, H2, (IH Hs). reflexivity.
Qed.

(** [format] puts its argument in the place of the one field. *)
Lemma format1_field pre post arg :
  no_braces pre -> no_braces post ->
  format1 (pre ++ "{}" ++ post) arg = Ok (pre ++ arg ++ post).
Proof.
  unfold format1. intros Hpre Hpost. induction pre as [|c pre IH].
  - change ("" ++ "{}" ++ post) with (String "{" (String "}" post)).
    cbn [format_from Ascii.eqb Bool.eqb].
    rewrite (format_from_plain arg true post Hpost). reflexivity.
  - apply no_braces_cons in Hpre as (H1 & H2 & Hpre).
    change ((String c pre) ++ "{}" ++ post) with (String c (pre ++ "{}" ++ post)).
    cbn [format_from].
    apply Ascii.eqb_neq in H1, H2. rewrite H1, H2, (IH Hpre). reflexivity.
Qed.

(** The bits of [dimzin]. *)
Lemma land_bit z k :
  (0 <= k)%Z ->
  negb (Z.land z (2 ^ k) =? 0)%Z = Z.testbit z k.
Proof.
  intros Hk.
  assert (H : Z.land z (2 ^ k) = if Z.testbit z k then (2 ^ k)%Z else 0%Z).
  { apply Z.bits_inj'. intros n Hn.
    rewrite Z.land_spec, Z.pow2_bits_eqb by exact Hk.
    destruct (Z.eqb_spec k n) as [->|Hne].
    - destruct (Z.testbit z n).
      + rewrite Z.pow2_bits_eqb, Z.eqb_refl by exact Hn. reflexivity.
      + rewrite Z.bits_0. reflexivity.
    - rewrite andb_false_r. destruct (Z.testbit z k).
      + rewrite Z.pow2_bits_eqb by exact Hk.
        symmetry. apply Z.eqb_neq. exact Hne.
      + rewrite Z.bits_0. reflexivity. }
  rewrite H. destruct (Z.testbit z k); [|reflexivity].
  assert (0 < 2 ^ k)%Z by (apply Z.pow_pos_nonneg; lia).
  destruct (Z.eqb_spec (2 ^ k) 0); [lia|reflexivity].
Qed.

Section Generic.

Context {num : Type}.
Variable format_f : nat -> num -> string.
Variable xround : num -> num -> num.
Variable suppress_zeros : string -> bool -> bool -> string.
Variable raise_decimals : string -> string.

Local Abbreviation format_text :=
  (FormatText.format_text format_f xround suppress_zeros raise_decimals).

(** X7. A [dimpost] that is not empty and has no placeholder "<>" makes
    [format_text] raise [DXFValueError] with the offending text in the
    message, whatever the value and the other settings; the precision
    is one that Python accepts. *)
Theorem format_text_invalid_dimpost value dimrnd dimdec dimzin dimdsep dimpost
    raisedec :
  (forall d, dimdec = Some d -> (0 <= d)%Z) ->
  dimpost <> "" ->
  contains_str "<>" dimpost = false ->
  format_text value dimrnd dimdec dimzin dimdsep dimpost raisedec =
  Raise (DXFValueError ("Invalid dimpost string: " ++ quoted dimpost)).
Proof.
  intros Hdec Hne Hno. unfold FormatText.format_text.
  apply String.eqb_neq in Hne.
  destruct dimdec as [d|]; cbn [bind].
  - specialize (Hdec d eq_refl).
    destruct (Z.ltb_spec d 0); [lia|]. cbn [bind]. rewrite Hne, Hno. reflexivity.
  - rewrite Hne, Hno. reflexivity.
Qed.

(** X8. The text in front of and behind the placeholder of [dimpost]
    goes in front of and behind the number: when [format_text] with an
    empty [dimpost] gives [number], it gives [pre ++ number ++ post]
    with the [dimpost] [pre ++ "<>" ++ post], for a [pre] without
    placeholder and [pre] and [post] without braces.  Only the first
    placeholder is filled in. *)
Theorem format_text_prefix_suffix value dimrnd dimdec dimzin dimdsep pre post
    raisedec number :
  format_text value dimrnd dimdec dimzin dimdsep "" raisedec = Ok number ->
  contains_str "<>" pre = false -> no_braces pre -> no_braces post ->
  format_text value dimrnd dimdec dimzin dimdsep (pre ++ "<>" ++ post) raisedec
  = Ok (pre ++ number ++ post).
Proof.
  unfold FormatText.format_text. intros Hnum Hpre Hb1 Hb2.
  assert (Hne : ((pre ++ "<>" ++ post) =? "") = false).
  { apply String.eqb_neq. destruct pre; discriminate. }
  destruct dimdec as [d|]; cbn [bind] in *.
  - destruct (d <? 0)%Z; [discriminate|]. cbn [bind] in *.
    rewrite Hne, contains_str_placeholder, (replace_first_placeholder _ _ Hpre).
    cbn [String.eqb] in Hnum. injection Hnum as <-.
    apply format1_field; assumption.
  - rewrite Hne, contains_str_placeholder, (replace_first_placeholder _ _ Hpre).
    cbn [String.eqb] in Hnum. injection Hnum as <-.
    apply format1_field; assumption.
Qed.

(** X9. The digits of the number, before separator and [dimpost]: the
    value, rounded by [xround] when [dimrnd] is given, is written with
    [dimdec] decimals and loses its leading zeros with bit 2 and its
    trailing zeros with bit 3 of [dimzin]; without [dimdec] it is
    written with six decimals and always loses its trailing zeros. *)
Theorem format_text_digits value dimrnd dimzin :
  let v := match dimrnd with Some r => xround value r | None => value end in
  format_text value dimrnd None dimzin "." "" false =
    Ok (suppress_zeros (format_f 6 v) (Z.testbit dimzin 2) true) /\
  (forall d, (0 <= d)%Z ->
     format_text value dimrnd (Some d) dimzin "." "" false =
       Ok (suppress_zeros (format_f (Z.to_nat d) v)
             (Z.testbit dimzin 2) (Z.testbit dimzin 3))).
Proof.
  intros v. unfold FormatText.format_text. fold v. split.
  - cbn [bind String.eqb Ascii.eqb Bool.eqb].
    change 4%Z with (2 ^ 2)%Z. change 8%Z with (2 ^ 3)%Z.
    rewrite !land_bit by lia.
    rewrite Z.lor_spec, Z.pow2_bits_eqb by lia.
    rewrite Z.lor_spec, (Z.pow2_bits_eqb 3 3) by lia.
    cbn [Z.eqb Pos.eqb]. rewrite orb_false_r, orb_true_r. reflexivity.
  - intros d Hd. destruct (Z.ltb_spec d 0); [lia|].
    cbn [bind String.eqb Ascii.eqb Bool.eqb].
    change 4%Z with (2 ^ 2)%Z. change 8%Z with (2 ^ 3)%Z.
    rewrite !land_bit by lia. reflexivity.
Qed.

End Generic.

(** The three properties on the float 3.14159, with Python's
    fixed-point formatting and the zero suppression of the model. *)
Lemma format_text_invalid_dimpost_witness :
  format_text format_f (fun x _ => x) FormatText.suppress_zeros (fun s => s)
    value_3_14159 None (Some 2%Z) 0%Z "." "mm" false =
  Raise (DXFValueError ("Invalid dimpost string: " ++ quoted "mm")).
Proof.
  apply (format_text_invalid_dimpost format_f (fun x _ => x)
           FormatText.suppress_zeros (fun s => s)
           value_3_14159 None (Some 2%Z) 0%Z "." "mm" false).
  - intros d [= <-]. lia.
  - discriminate.
  - reflexivity.
Defined.

Lemma format_text_prefix_suffix_witness :
  format_text format_f (fun x _ => x) FormatText.suppress_zeros (fun s => s)
    value_3_14159 None (Some 2%Z) 0%Z "," "" false = Ok "3,14" /\
  format_text format_f (fun x _ => x) FormatText.suppress_zeros (fun s => s)
    value_3_14159 None (Some 2%Z) 0%Z "," ("ca. " ++ "<>" ++ " mm (<>)") false =
  Ok ("ca. " ++ "3,14" ++ " mm (<>)").
Proof.
  assert (H : format_text format_f (fun x _ => x) FormatText.suppress_zeros
                (fun s => s) value_3_14159 None (Some 2%Z) 0%Z "," "" false
              = Ok "3,14") by (vm_compute; reflexivity).
  split; [exact H|].
  apply (format_text_prefix_suffix format_f (fun x _ => x)
           FormatText.suppress_zeros (fun s => s)
           value_3_14159 None (Some 2%Z) 0%Z "," "ca. " " mm (<>)" false "3,14" H).
  - reflexivity.
  - split; reflexivity.
  - split; reflexivity.
Defined.

Lemma format_text_digits_witness :
  format_text format_f (fun x _ => x) FormatText.suppress_zeros (fun s => s)
    value_3_14159 None None 0%Z "." "" false = Ok "3.14159" /\
  (0 <= 3)%Z /\
  format_text format_f (fun x _ => x) FormatText.suppress_zeros (fun s => s)
    value_3_14159 None (Some 3%Z) 8%Z "." "" false = Ok "3.142".
Proof.
  destruct (format_text_digits format_f (fun x _ => x)
              FormatText.suppress_zeros (fun s => s) value_3_14159 None 0%Z)
    as [H1 _].
  destruct (format_text_digits format_f (fun x _ => x)
              FormatText.suppress_zeros (fun s => s) value_3_14159 None 8%Z)
    as [_ H2].
  split; [rewrite H1; vm_compute; reflexivity|].
  split; [lia|].
  rewrite (H2 3%Z ltac:(lia)). vm_compute. reflexivity.
Defined.

End FormatTextProps.

(** ** The dimension renderer *)

Module DimensionProps.

Import Py Algebra Dimension.
Local Open Scope string_scope.
Local Open Scope R_scope.

(** *** Sample entities *)

(** The dimension style without any override; [dimtsz] and [dimasz]
    have their DXF defaults. *)
Definition default_style : DimStyle :=
mkDimStyle None None None None None None None None None None None None
  0 (EmptyString, EmptyString) 0.18
  None None None None None None None None None None None None None None
  None None None None None None None.

Definition with_dimlfac (f : R) (ds : DimStyle) : DimStyle :=
mkDimStyle (dimscale ds) (Some f) (dimtxsty ds) (dimtxt ds) (dimgap ds)
  (dimclrt ds) (dimjust ds) (dimtad ds) (dimtmove ds) (dimtih ds) (dimtoh ds)
  (dimtix ds) (dimtsz ds) (arrow_names ds) (dimasz ds) (dimclrd ds) (dimdle ds)
  (dimltype ds) (dimlwd ds) (dimsd1 ds) (dimsd2 ds) (dimclre ds) (dimltex1 ds)
  (dimltex2 ds) (dimlwe ds) (dimse1 ds) (dimse2 ds) (dimexe ds) (dimexo ds)
  (dimexfix ds) (dimexlen ds) (dimrnd ds) (dimdec ds) (dimzin ds) (dimdsep ds)
  (dimpost ds).

Definition with_dimexfix (fixed len : R) (ds : DimStyle) : DimStyle :=
mkDimStyle (dimscale ds) (dimlfac ds) (dimtxsty ds) (dimtxt ds) (dimgap ds)
  (dimclrt ds) (dimjust ds) (dimtad ds) (dimtmove ds) (dimtih ds) (dimtoh ds)
  (dimtix ds) (dimtsz ds) (arrow_names ds) (dimasz ds) (dimclrd ds) (dimdle ds)
  (dimltype ds) (dimlwd ds) (dimsd1 ds) (dimsd2 ds) (dimclre ds) (dimltex1 ds)
  (dimltex2 ds) (dimlwe ds) (dimse1 ds) (dimse2 ds) (dimexe ds) (dimexo ds)
  (Some fixed) (Some len) (dimrnd ds) (dimdec ds) (dimzin ds) (dimdsep ds)
  (dimpost ds).

Definition with_dimse (flag1 flag2 : R) (ds : DimStyle) : DimStyle :=
mkDimStyle (dimscale ds) (dimlfac ds) (dimtxsty ds) (dimtxt ds) (dimgap ds)
  (dimclrt ds) (dimjust ds) (dimtad ds) (dimtmove ds) (dimtih ds) (dimtoh ds)
  (dimtix ds) (dimtsz ds) (arrow_names ds) (dimasz ds) (dimclrd ds) (dimdle ds)
  (dimltype ds) (dimlwd ds) (dimsd1 ds) (dimsd2 ds) (dimclre ds) (dimltex1 ds)
  (dimltex2 ds) (dimlwe ds) (Some flag1) (Some flag2) (dimexe ds) (dimexo ds)
  (dimexfix ds) (dimexlen ds) (dimrnd ds) (dimdec ds) (dimzin ds) (dimdsep ds)
  (dimpost ds).

Definition with_dimsd1 (flag : R) (ds : DimStyle) : DimStyle :=
mkDimStyle (dimscale ds) (dimlfac ds) (dimtxsty ds) (dimtxt ds) (dimgap ds)
  (dimclrt ds) (dimjust ds) (dimtad ds) (dimtmove ds) (dimtih ds) (dimtoh ds)
  (dimtix ds) (dimtsz ds) (arrow_names ds) (dimasz ds) (dimclrd ds) (dimdle ds)
  (dimltype ds) (dimlwd ds) (Some flag) (dimsd2 ds) (dimclre ds) (dimltex1 ds)
  (dimltex2 ds) (dimlwe ds) (dimse1 ds) (dimse2 ds) (dimexe ds) (dimexo ds)
  (dimexfix ds) (dimexlen ds) (dimrnd ds) (dimdec ds) (dimzin ds) (dimdsep ds)
  (dimpost ds).

(** A linear dimension of the given type code, text and style, measuring
    from [p2] to [p3] with the dimension line through [p1]. *)
Definition sample_dimension (type_code : Z) (text : string) (ds : DimStyle)
  (p1 p2 p3 : Vector) : DimensionEntity :=
mkDimension type_code false ds 256 "0" text None None None p1 p2 p3 None None
  None.

(** The scenario of the specification: all three points on the x axis,
    ten units from the first to the second measurement point. *)
Definition scenario (ds : DimStyle) : DimensionEntity :=
sample_dimension 0 EmptyString ds
  (mkVector 0 0 0) (mkVector 0 0 0) (mkVector 10 0 0).

(** *** Numbers *)

(** [len] counts characters, not the bytes of the UTF-8 form. *)
Example str_len_counts_characters :
  str_len "10 µm" = 5%nat /\ String.length "10 µm" = 6%nat.
Proof. split; reflexivity. Qed.

Lemma bool_of_R_true x : x <> 0 -> bool_of_R x = true.
Proof. intros H. unfold bool_of_R. destruct (Req_dec_T x 0); [contradiction|reflexivity]. Qed.

Lemma bool_of_R_0 : bool_of_R 0 = false.
Proof. unfold bool_of_R. destruct (Req_dec_T 0 0); [reflexivity|contradiction]. Qed.

Lemma Rgtb_true x y : Rgtb x y = true <-> x > y.
Proof. unfold Rgtb. destruct (Rgt_dec x y); split; intros; (assumption || reflexivity || discriminate || contradiction). Qed.

Lemma Rltb_true x y : Rltb x y = true <-> x < y.
Proof. unfold Rltb. destruct (Rlt_dec x y); split; intros; (assumption || reflexivity || discriminate || contradiction). Qed.

Lemma magnitude_nonneg v : 0 <= magnitude v.
Proof. apply sqrt_pos. Qed.

Lemma magnitude_y y : 0 <= y -> magnitude (mkVector 0 y 0) = y.
Proof.
  intros Hy. unfold magnitude. simpl.
  replace (0 * 0 + y * y + 0 * 0) with (y * y) by ring.
  by apply sqrt_square.
Qed.

Lemma magnitude_x x : 0 <= x -> magnitude (mkVector x 0 0) = x.
Proof.
  intros Hx. unfold magnitude. simpl.
  replace (x * x + 0 * 0 + 0 * 0) with (x * x) by ring.
  by apply sqrt_square.
Qed.

Lemma Vector_eq a b :
  vx a = vx b -> vy a = vy b -> vz a = vz b -> a = b.
Proof. destruct a, b. simpl. by intros -> -> ->. Qed.

(** *** The state monad *)

Lemma mbind_Ok {A B} (m : M A) (k : A -> M B) s b s' :
  mbind' m k s = (Ok b, s') ->
  exists a s1, m s = (Ok a, s1) /\ k a s1 = (Ok b, s').
Proof.
  unfold mbind'. destruct (m s) as [[a|e] s1]; [eauto|discriminate].
Qed.

Lemma mbind_eq {A B} (m : M A) (k : A -> M B) s a s1 :
  m s = (Ok a, s1) -> mbind' m k s = k a s1.
Proof. unfold mbind'. by intros ->. Qed.

Lemma lift_Ok {A} (r : result A) s a s' :
  lift r s = (Ok a, s') -> r = Ok a /\ s' = s.
Proof. unfold lift. by intros [= -> ->]. Qed.

Section Externals.

Variable default_dimension_text_style : string.
Variable LINEWEIGHT_BYBLOCK : Z.
Variable MTEXT_ALIGN_FLAGS : string -> option Z.
Variable ARROWS_contains : string -> bool.
Variable ARROWS_has_extension_line : string -> bool.
Variable ARROWS_ORIGIN_ZERO : string -> bool.
Variable ARROWS_oblique : string.
Variable connection_point : string -> Vector -> R -> R -> Vector.
Variable format_f : nat -> R -> string.
Variable xround : R -> R -> R.
Variable suppress_zeros : string -> bool -> bool -> string.
Variable raise_decimals : string -> string.
Variable new_anonymous_block_name : Drawing -> string.

Local Abbreviation format_text :=
  (Dimension.format_text format_f xround suppress_zeros raise_decimals).
Local Abbreviation text_override :=
  (Dimension.text_override format_f xround suppress_zeros raise_decimals).
Local Abbreviation DimensionBase_init :=
  (Dimension.DimensionBase_init default_dimension_text_style LINEWEIGHT_BYBLOCK).
Local Abbreviation LinearDimension_init :=
  (Dimension.LinearDimension_init default_dimension_text_style
     LINEWEIGHT_BYBLOCK format_f xround suppress_zeros raise_decimals).
Local Abbreviation render :=
  (Dimension.render MTEXT_ALIGN_FLAGS ARROWS_contains ARROWS_has_extension_line
     ARROWS_ORIGIN_ZERO ARROWS_oblique connection_point).
Local Abbreviation linear :=
  (Dimension.linear default_dimension_text_style LINEWEIGHT_BYBLOCK
     MTEXT_ALIGN_FLAGS ARROWS_contains ARROWS_has_extension_line
     ARROWS_ORIGIN_ZERO ARROWS_oblique connection_point format_f xround
     suppress_zeros raise_decimals).
Local Abbreviation dispatch :=
  (Dimension.dispatch default_dimension_text_style LINEWEIGHT_BYBLOCK
     MTEXT_ALIGN_FLAGS ARROWS_contains ARROWS_has_extension_line
     ARROWS_ORIGIN_ZERO ARROWS_oblique connection_point format_f xround
     suppress_zeros raise_decimals new_anonymous_block_name).
Local Abbreviation add_dimension_line :=
  (Dimension.add_dimension_line ARROWS_has_extension_line).

(** *** The text of the dimension *)


(** *** The dispatcher *)

Lemma dispatch_unimplemented drawing d ucs override :
  (2 <= dim_type d <= 6)%Z ->
  dispatch drawing d ucs override =
  (new_anonymous_block_name drawing,
   (Raise (TypeError "exceptions must derive from BaseException"),
    mkState (set_geometry (new_anonymous_block_name drawing) d) [])).
Proof.
  intros Hd. unfold Dimension.dispatch.
  assert (Hcases : (dim_type d = 2 \/ dim_type d = 3 \/ dim_type d = 4 \/
                    dim_type d = 5 \/ dim_type d = 6)%Z) by lia.
  destruct Hcases as [-> | [-> | [-> | [-> | ->]]]]; reflexivity.
Qed.

Lemma dispatch_linear drawing d ucs override :
  (dim_type d = 0 \/ dim_type d = 1)%Z ->
  snd (dispatch drawing d ucs override) =
  linear
    (mkDrawing (dxfversion drawing) (styles drawing)
       ({[new_anonymous_block_name drawing]} ∪ blocks drawing))
    ucs override
    (mkState (set_geometry (new_anonymous_block_name drawing) d) []).
Proof.
  intros Hd. unfold Dimension.dispatch.
  destruct Hd as [-> | ->]; reflexivity.
Qed.

Lemma dispatch_unknown drawing d ucs override :
  (dim_type d < 0 \/ 6 < dim_type d)%Z ->
  snd (dispatch drawing d ucs override) =
  (Raise (DXFValueError ("Unknown DIMENSION type: " ++ str_of_Z (dim_type d))),
   mkState (set_geometry (new_anonymous_block_name drawing) d) []).
Proof.
  intros Hd. unfold Dimension.dispatch. simpl.
  repeat match goal with
         | |- context [(?a =? ?b)%Z] =>
             destruct (Z.eqb_spec a b); [lia|]
         end.
  reflexivity.
Qed.

(** C2, at the angular dimension (type code 2): [raise NotImplemented]
    has the constant [NotImplemented] as operand, which is no exception,
    and the statement itself fails with a [TypeError]; the new anonymous
    block has been created by then, is empty, and its name is stored in
    the entity. *)
Theorem dispatch_angular drawing ds p1 p2 p3 ucs override :
  let d := sample_dimension 2 EmptyString ds p1 p2 p3 in
  let name := new_anonymous_block_name drawing in
  dispatch drawing d ucs override =
  (name,
   (Raise (TypeError "exceptions must derive from BaseException"),
    mkState (set_geometry name d) [])).
Proof. intros d name. apply dispatch_unimplemented. simpl. lia. Qed.

(** *** Extension lines *)

Lemma normalize_Ok v length :
  magnitude v <> 0 -> normalize v length = Ok (vscale v (length / magnitude v)).
Proof.
  intros H. unfold normalize. destruct (Req_dec_T (magnitude v) 0); [contradiction|reflexivity].
Qed.

Lemma normalize_zero v length :
  magnitude v = 0 -> normalize v length = Raise ZeroDivisionError.
Proof.
  intros H. unfold normalize. destruct (Req_dec_T (magnitude v) 0); [reflexivity|contradiction].
Qed.

(** With [dimexfix] off the extension line starts [dimexo] after the
    measurement point; in both modes it ends [dimexe] after the
    dimension line. *)
Lemma extension_line_points_offset self start end_ :
  magnitude (vsub end_ start) <> 0 ->
  ext_line_fixed self = false ->
  let direction := vscale (vsub end_ start) (1 / magnitude (vsub end_ start)) in
  extension_line_points self start end_ =
  Ok (vadd start (vscale direction (ext_line_offset self)),
      vadd end_ (vscale direction (ext_line_extension self))).
Proof.
  intros Hm Hf direction. unfold extension_line_points.
  rewrite (normalize_Ok _ _ Hm). simpl. rewrite Hf. reflexivity.
Qed.

(** With [dimexfix] on the start is one unit before the dimension line
    when [ext_line_length] is true and at the dimension line when it is
    false: the length is a truth value. *)
Lemma extension_line_points_fixed self start end_ :
  magnitude (vsub end_ start) <> 0 ->
  ext_line_fixed self = true ->
  let direction := vscale (vsub end_ start) (1 / magnitude (vsub end_ start)) in
  extension_line_points self start end_ =
  Ok (vsub end_ (vscale direction (if ext_line_length self then 1 else 0)),
      vadd end_ (vscale direction (ext_line_extension self))).
Proof.
  intros Hm Hf direction. unfold extension_line_points.
  rewrite (normalize_Ok _ _ Hm). simpl. rewrite Hf. reflexivity.
Qed.

(** [DimensionBase.__init__] always returns: the attributes, and the
    entity with at most its extrusion vector changed. *)
Lemma DimensionBase_init_eq drawing ucs override s :
  let self := DimensionBase_attributes default_dimension_text_style
                LINEWEIGHT_BYBLOCK drawing ucs override (dimension s) in
  DimensionBase_init drawing ucs override s =
  (Ok self,
   mkState (if requires_extrusion self
            then set_extrusion (uz (Dimension.ucs self)) (dimension s)
            else dimension s)
           (block s)).
Proof.
  intros self. unfold Dimension.DimensionBase_init, mbind', get_dimension, when.
  fold self. destruct (requires_extrusion self); [reflexivity|].
  destruct s; reflexivity.
Qed.

(** C8, at a style with [dimexfix = 1] and [dimexlen = 3] and an
    extension line from (0, 0, 0) to the dimension line at (0, 10, 0):
    the constructor stores the truth value of [dimexlen] as the length,
    and the extension line starts one unit before the dimension line, at
    (0, 9, 0), not three units before it, at (0, 7, 0). *)
Theorem extension_line_points_fixed_length drawing ucs :
  let ds := with_dimexfix 1 3 default_style in
  let d := sample_dimension 0 EmptyString ds
             (mkVector 0 10 0) (mkVector 0 0 0) (mkVector 10 0 0) in
  let self := DimensionBase_attributes default_dimension_text_style
                LINEWEIGHT_BYBLOCK drawing ucs None d in
  ext_line_fixed self = true /\
  ext_line_length self = true /\
  extension_line_points self (mkVector 0 0 0) (mkVector 0 10 0) =
    Ok (mkVector 0 9 0, mkVector 0 10 0) /\
  mkVector 0 9 0 <> mkVector 0 7 0.
Proof.
  intros ds d self.
  assert (Hfixed : ext_line_fixed self = true)
    by (apply bool_of_R_true; simpl; lra).
  assert (Hlen : ext_line_length self = true)
    by (apply bool_of_R_true; simpl; lra).
  assert (Hm : magnitude (vsub (mkVector 0 10 0) (mkVector 0 0 0)) = 10).
  { replace (vsub (mkVector 0 10 0) (mkVector 0 0 0)) with (mkVector 0 10 0)
      by (apply Vector_eq; simpl; ring).
    apply magnitude_y. lra. }
  repeat split; try assumption.
  - rewrite extension_line_points_fixed; [|rewrite Hm; lra|exact Hfixed].
    rewrite Hlen, Hm. f_equal. f_equal; apply Vector_eq; simpl; field.
  - intros [= H]. lra.
Qed.

(** *** What the drawing steps leave alone *)

(** A computation that does not touch the DIMENSION entity, whether it
    returns or raises. *)
Definition keeps_dimension {A} (m : M A) : Prop :=
  forall s, dimension (snd (m s)) = dimension s.

(** A computation that adds nothing to the block. *)
Definition keeps_block {A} (m : M A) : Prop :=
  forall s, block (snd (m s)) = block s.

Lemma keeps_dimension_ret {A} (a : A) : keeps_dimension (ret a).
Proof. intros s. reflexivity. Qed.

Lemma keeps_dimension_raise {A} e : keeps_dimension (@raise A e).
Proof. intros s. reflexivity. Qed.

Lemma keeps_dimension_lift {A} (r : result A) : keeps_dimension (lift r).
Proof. intros s. reflexivity. Qed.

Lemma keeps_dimension_get : keeps_dimension get_dimension.
Proof. intros s. reflexivity. Qed.

Lemma keeps_dimension_add_entity p : keeps_dimension (add_entity p).
Proof. intros s. reflexivity. Qed.

Lemma keeps_dimension_bind {A B} (m : M A) (k : A -> M B) :
  keeps_dimension m -> (forall a, keeps_dimension (k a)) ->
  keeps_dimension (mbind' m k).
Proof.
  intros Hm Hk s. unfold mbind'. specialize (Hm s).
  destruct (m s) as [[a|e] s1]; simpl in *; [|exact Hm].
  rewrite Hk. exact Hm.
Qed.

Lemma keeps_dimension_when c m :
  keeps_dimension m -> keeps_dimension (when c m).
Proof. intros Hm. destruct c; [exact Hm|apply keeps_dimension_ret]. Qed.

Lemma keeps_block_ret {A} (a : A) : keeps_block (ret a).
Proof. intros s. reflexivity. Qed.

Lemma keeps_block_raise {A} e : keeps_block (@raise A e).
Proof. intros s. reflexivity. Qed.

Lemma keeps_block_lift {A} (r : result A) : keeps_block (lift r).
Proof. intros s. reflexivity. Qed.

Lemma keeps_block_get : keeps_block get_dimension.
Proof. intros s. reflexivity. Qed.

Lemma keeps_block_modify f : keeps_block (modify_dimension f).
Proof. intros s. reflexivity. Qed.

Lemma keeps_block_get_text_midpoint : keeps_block get_text_midpoint.
Proof.
  intros s. unfold get_text_midpoint.
  destruct (dxf_text_midpoint (dimension s)); reflexivity.
Qed.

Lemma keeps_dimension_get_text_midpoint : keeps_dimension get_text_midpoint.
Proof.
  intros s. unfold get_text_midpoint.
  destruct (dxf_text_midpoint (dimension s)); reflexivity.
Qed.

Lemma keeps_block_bind {A B} (m : M A) (k : A -> M B) :
  keeps_block m -> (forall a, keeps_block (k a)) -> keeps_block (mbind' m k).
Proof.
  intros Hm Hk s. unfold mbind'. specialize (Hm s).
  destruct (m s) as [[a|e] s1]; simpl in *; [|exact Hm].
  rewrite Hk. exact Hm.
Qed.

Lemma keeps_block_when c m : keeps_block m -> keeps_block (when c m).
Proof. intros Hm. destruct c; [exact Hm|apply keeps_block_ret]. Qed.

Create HintDb keeps.

#[local] Hint Resolve keeps_dimension_ret keeps_dimension_raise
  keeps_dimension_lift keeps_dimension_get keeps_dimension_add_entity
  keeps_dimension_when keeps_dimension_get_text_midpoint
  keeps_block_ret keeps_block_raise keeps_block_lift keeps_block_get
  keeps_block_modify keeps_block_get_text_midpoint keeps_block_when : keeps.

(** Walks through the binds and the branches of a computation. *)
Ltac keeps_step :=
  first
    [ solve [auto with keeps]
    | progress cbv zeta
    | apply keeps_dimension_when
    | apply keeps_block_when
    | apply keeps_dimension_bind; [|intros]
    | apply keeps_block_bind; [|intros]
    | match goal with
      | |- keeps_dimension (if ?c then _ else _) => destruct c
      | |- keeps_block (if ?c then _ else _) => destruct c
      | |- keeps_dimension (match ?x with _ => _ end) => destruct x
      | |- keeps_block (match ?x with _ => _ end) => destruct x
      | |- keeps_dimension (let (_, _) := ?p in _) => destruct p
      | |- keeps_block (let (_, _) := ?p in _) => destruct p
      end ].

Ltac keeps := repeat keeps_step.

Lemma keeps_dimension_default_attributes :
  keeps_dimension default_attributes.
Proof. unfold default_attributes. keeps. Qed.

#[local] Hint Resolve keeps_dimension_default_attributes : keeps.

Lemma keeps_dimension_add_line self a b attrs :
  keeps_dimension (add_line self a b attrs).
Proof. unfold add_line. keeps. Qed.

#[local] Hint Resolve keeps_dimension_add_line : keeps.

Lemma keeps_dimension_add_blockref drawing self name insert rotation scale attrs :
  keeps_dimension
    (add_blockref ARROWS_contains drawing self name insert rotation scale attrs).
Proof. unfold add_blockref. keeps. Qed.

Lemma keeps_dimension_add_text drawing self text pos rotation align attrs :
  keeps_dimension
    (add_text MTEXT_ALIGN_FLAGS drawing self text pos rotation align attrs).
Proof. unfold add_text. keeps. Qed.

Lemma keeps_dimension_add_defpoints self points :
  keeps_dimension (add_defpoints self points).
Proof. induction points as [|p points IH]; simpl; keeps. Qed.

#[local] Hint Resolve keeps_dimension_add_blockref keeps_dimension_add_text
  keeps_dimension_add_defpoints : keeps.

Lemma keeps_dimension_add_arrows drawing self start end_ outside :
  keeps_dimension
    (add_arrows ARROWS_contains ARROWS_ORIGIN_ZERO ARROWS_oblique
       connection_point drawing self start end_ outside).
Proof.
  unfold add_arrows, add_arrow_blockref. keeps.
Qed.

Lemma keeps_dimension_add_dimension_line self start end_ :
  keeps_dimension (add_dimension_line self start end_).
Proof. unfold Dimension.add_dimension_line. keeps. Qed.

#[local] Hint Resolve keeps_dimension_add_arrows
  keeps_dimension_add_dimension_line : keeps.

(** *** The constructor of [LinearDimension] *)

(** The foot of the perpendicular from [q] on the line through [p] at
    [angle] degrees, in the drawing plane. *)
Definition foot (p q : Vector) (angle : R) : Vector :=
let x := radians angle in
let t := (vx q - vx p) * cos x + (vy q - vy p) * sin x in
mkVector (vx p + t * cos x) (vy p + t * sin x) 0.

Lemma radians_plus_90 a : radians (a + 90) = radians a + PI / 2.
Proof. unfold radians. field. Qed.

Lemma ray_intersect_perpendicular p q a :
  ray_intersect (ray_from_angle p (radians a))
                (ray_from_angle q (radians (a + 90))) = Ok (foot p q a).
Proof.
  unfold ray_intersect, ray_from_angle. simpl.
  rewrite radians_plus_90.
  set (x := radians a).
  assert (Hs : sin (x + PI / 2) = cos x).
  { rewrite sin_plus, sin_PI2, cos_PI2. ring. }
  assert (Hc : cos (x + PI / 2) = - sin x).
  { rewrite cos_plus, sin_PI2, cos_PI2. ring. }
  unfold cross2. simpl. rewrite Hs, Hc.
  pose proof (sin2_cos2 x) as H1. unfold Rsqr in H1.
  replace (cos x * cos x - sin x * - sin x) with 1 by lra.
  destruct (Req_dec_T 1 0) as [H0|H0]; [lra|].
  f_equal. unfold foot. fold x. apply Vector_eq; simpl; try reflexivity; field.
Qed.

Lemma foot_difference p q1 q2 a :
  vsub (foot p q2 a) (foot p q1 a) =
  vscale (mkVector (cos (radians a)) (sin (radians a)) 0)
    ((vx q2 - vx q1) * cos (radians a) + (vy q2 - vy q1) * sin (radians a)).
Proof. unfold foot, vsub, vscale. apply Vector_eq; simpl; ring. Qed.

Lemma magnitude_scale_unit a t :
  magnitude (vscale (mkVector (cos a) (sin a) 0) t) = Rabs t.
Proof.
  unfold magnitude, vscale. simpl.
  pose proof (sin2_cos2 a) as H1. unfold Rsqr in H1.
  replace (cos a * t * (cos a * t) + sin a * t * (sin a * t) + 0 * t * (0 * t))
    with (t * t * (sin a * sin a + cos a * cos a)) by ring.
  rewrite H1, Rmult_1_r. fold (Rsqr t). apply sqrt_Rsqr_abs.
Qed.

Lemma text_override_state self v s :
  text_override self v s = (fst (text_override self v s), s).
Proof.
  unfold Dimension.text_override, mbind', get_dimension, ret, lift. simpl.
  repeat match goal with |- context [if ?c then _ else _] => destruct c end;
    reflexivity.
Qed.

Lemma text_override_same_text self v s1 s2 :
  dxf_text (dimension s1) = dxf_text (dimension s2) ->
  fst (text_override self v s1) = fst (text_override self v s2).
Proof.
  intros H. unfold Dimension.text_override, mbind', get_dimension, ret, lift.
  simpl. rewrite H.
  repeat match goal with |- context [if ?c then _ else _] => destruct c end;
    reflexivity.
Qed.

Lemma LinearDimension_init_inv drawing ucs override s self s' :
  LinearDimension_init drawing ucs override s = (Ok self, s') ->
  let b := DimensionBase_attributes default_dimension_text_style
             LINEWEIGHT_BYBLOCK drawing ucs override (dimension s) in
  let d0 := if requires_extrusion b
            then set_extrusion (uz (Dimension.ucs b)) (dimension s)
            else dimension s in
  let angle := default 0 (dxf_angle (dimension s)) in
  exists origin,
    (if user_location_override b && (text_movement_rule b =? 0)%Z
     then dxf_text_midpoint (dimension s) = Some origin
     else origin = dxf_defpoint (dimension s)) /\
    base self = b /\
    dim_line_angle self = angle /\
    ext1_line_start self = dxf_defpoint2 (dimension s) /\
    ext2_line_start self = dxf_defpoint3 (dimension s) /\
    dim_line_start self = foot origin (dxf_defpoint2 (dimension s)) angle /\
    dim_line_end self = foot origin (dxf_defpoint3 (dimension s)) angle /\
    measurement self =
      magnitude (vsub (dim_line_end self) (dim_line_start self)) /\
    fst (text_override b (measurement self * dim_measurement_factor b) s)
      = Ok (text self) /\
    arrows_outside self =
      Rgtb (2 * arrow_size b + text_gap b) (measurement self) /\
    let s1 := mkState (set_defpoint (dim_line_start self) d0) (block s) in
    if String.eqb (text self) EmptyString
    then s' = s1 /\ text_outside self = false /\
         text_location self = None /\ text_box self = None
    else
      let outside :=
        if force_text_inside b then false
        else Rgtb (text_width b (text self) + 2 * (arrow_size b + text_gap b))
               (measurement self) in
      text_outside self = outside /\
      exists loc,
        get_text_location b (dim_line_start self) (dim_line_end self)
          (text_width b (text self)) outside s1 = (Ok loc, s') /\
        text_location self = Some loc /\
        text_box self =
          Some (TextBox_init loc (text_width b (text self)) (text_height b)
                  (text_rotation_deg self) (text_gap b * 0.99)).
Proof.
  intros H b d0 angle. unfold Dimension.LinearDimension_init in H.
  rewrite (mbind_eq _ _ _ _ _ (DimensionBase_init_eq _ _ _ _)) in H.
  fold b in H. fold d0 in H.
  set (s0 := mkState d0 (block s)) in H.
  unfold mbind' at 1, get_dimension at 1 in H. cbv beta iota zeta in H.
  change (dimension s0) with d0 in H.
  assert (Hd2 : dxf_defpoint2 d0 = dxf_defpoint2 (dimension s))
    by (unfold d0; destruct (requires_extrusion b); reflexivity).
  assert (Hd3 : dxf_defpoint3 d0 = dxf_defpoint3 (dimension s))
    by (unfold d0; destruct (requires_extrusion b); reflexivity).
  assert (Hd1 : dxf_defpoint d0 = dxf_defpoint (dimension s))
    by (unfold d0; destruct (requires_extrusion b); reflexivity).
  assert (Hang : dxf_angle d0 = dxf_angle (dimension s))
    by (unfold d0; destruct (requires_extrusion b); reflexivity).
  assert (Hmid : dxf_text_midpoint d0 = dxf_text_midpoint (dimension s))
    by (unfold d0; destruct (requires_extrusion b); reflexivity).
  assert (Htxt : dxf_text d0 = dxf_text (dimension s))
    by (unfold d0; destruct (requires_extrusion b); reflexivity).
  rewrite Hd1, Hd2, Hd3, Hang in H. fold angle in H.
  apply mbind_Ok in H as (ray & s0' & Hray & H).
  assert (Horigin : exists origin,
    (if user_location_override b && (text_movement_rule b =? 0)%Z
     then dxf_text_midpoint (dimension s) = Some origin
     else origin = dxf_defpoint (dimension s)) /\
    ray = ray_from_angle origin (radians angle) /\ s0' = s0).
  { destruct (user_location_override b && (text_movement_rule b =? 0)%Z).
    - unfold mbind', get_text_midpoint in Hray. simpl in Hray.
      rewrite Hmid in Hray.
      destruct (dxf_text_midpoint (dimension s)) as [p|]; [|discriminate].
      exists p. by inversion Hray.
    - exists (dxf_defpoint (dimension s)). by inversion Hray. }
  destruct Horigin as (origin & Horigin & -> & ->). clear Hray.
  exists origin. split; [exact Horigin|].
  rewrite !ray_intersect_perpendicular in H.
  unfold mbind' at 1 in H. unfold lift at 1 in H.
  unfold mbind' at 1 in H. unfold lift at 1 in H.
  unfold mbind' at 1 in H. unfold modify_dimension at 1 in H.
  simpl dimension in H. simpl block in H.
  set (start := foot origin (dxf_defpoint2 (dimension s)) angle) in *.
  set (end_ := foot origin (dxf_defpoint3 (dimension s)) angle) in *.
  set (s1 := mkState (set_defpoint start d0) (block s)) in *.
  apply mbind_Ok in H as (text & s1' & Htext & H).
  rewrite text_override_state in Htext.
  injection Htext as Htext <-.
  rewrite (text_override_same_text _ _ s1 s) in Htext
    by (simpl; exact Htxt).
  destruct (String.eqb text EmptyString) eqn:Hempty.
  - injection H as <- <-.
    cbn [base dim_line_angle ext1_line_start ext2_line_start
         Dimension.dim_line_start Dimension.dim_line_end measurement
         Dimension.text arrows_outside text_outside text_location text_box
         text_rotation_deg].
    rewrite Hempty. auto 20.
  - apply mbind_Ok in H as (loc & s2 & Hloc & H).
    injection H as <- <-.
    cbn [base dim_line_angle ext1_line_start ext2_line_start
         Dimension.dim_line_start Dimension.dim_line_end measurement
         Dimension.text arrows_outside text_outside text_location text_box
         text_rotation_deg].
    rewrite Hempty.
    repeat (split; [first [reflexivity|assumption]|]).
    exists loc. auto.
Qed.

Lemma magnitude_orthogonal v : magnitude (orthogonal v) = magnitude v.
Proof. unfold magnitude, orthogonal. simpl. f_equal. ring. Qed.

Lemma LinearDimension_init_Ok drawing ucs override s t :
  let b := DimensionBase_attributes default_dimension_text_style
             LINEWEIGHT_BYBLOCK drawing ucs override (dimension s) in
  let angle := default 0 (dxf_angle (dimension s)) in
  let start := foot (dxf_defpoint (dimension s)) (dxf_defpoint2 (dimension s))
                 angle in
  let end_ := foot (dxf_defpoint (dimension s)) (dxf_defpoint3 (dimension s))
                angle in
  user_location_override b = false ->
  text_halign b = 0%Z ->
  magnitude (vsub end_ start) <> 0 ->
  fst (text_override b (magnitude (vsub end_ start) * dim_measurement_factor b)
         s) = Ok t ->
  exists self s',
    LinearDimension_init drawing ucs override s = (Ok self, s') /\
    Dimension.text self = t /\
    Dimension.dim_line_start self = start /\
    Dimension.dim_line_end self = end_ /\
    measurement self = magnitude (vsub end_ start) /\
    base self = b /\
    text_rotation_deg self = default angle (text_rotation b) /\
    let loc := vadd (lerp start end_ 0.5)
                 (vscale (orthogonal (vsub end_ start))
                    (text_vertical_distance b
                     / magnitude (orthogonal (vsub end_ start)))) in
    let d0 := if requires_extrusion b
              then set_extrusion (uz (Dimension.ucs b)) (dimension s)
              else dimension s in
    block s' = block s /\
    if String.eqb t EmptyString
    then text_location self = None /\ text_box self = None /\
         dimension s' = set_defpoint start d0
    else text_location self = Some loc /\
         text_box self =
           Some (TextBox_init loc (text_width b t) (text_height b)
                   (default angle (text_rotation b)) (text_gap b * 0.99)) /\
         dimension s' =
           set_text_midpoint (lerp start end_ 0.5) (set_defpoint start d0).
Proof.
  intros b angle start end_ Hover Hhalign Hmag Htext.
  assert (Hrot : match text_rotation b with
                 | Some r => r
                 | None =>
                     if (text_halign b =? 3)%Z || (text_halign b =? 4)%Z
                     then angle + 90 else angle
                 end = default angle (text_rotation b)).
  { rewrite Hhalign. destruct (text_rotation b); reflexivity. }
  unfold Dimension.LinearDimension_init.
  rewrite (mbind_eq _ _ _ _ _ (DimensionBase_init_eq _ _ _ _)).
  fold b.
  set (d0 := if requires_extrusion b
             then set_extrusion (uz (Dimension.ucs b)) (dimension s)
             else dimension s).
  set (s0 := mkState d0 (block s)).
  unfold mbind' at 1, get_dimension at 1. cbv beta iota zeta.
  change (dimension s0) with d0.
  assert (Hd2 : dxf_defpoint2 d0 = dxf_defpoint2 (dimension s))
    by (unfold d0; destruct (requires_extrusion b); reflexivity).
  assert (Hd3 : dxf_defpoint3 d0 = dxf_defpoint3 (dimension s))
    by (unfold d0; destruct (requires_extrusion b); reflexivity).
  assert (Hd1 : dxf_defpoint d0 = dxf_defpoint (dimension s))
    by (unfold d0; destruct (requires_extrusion b); reflexivity).
  assert (Hang : dxf_angle d0 = dxf_angle (dimension s))
    by (unfold d0; destruct (requires_extrusion b); reflexivity).
  assert (Htxt : dxf_text d0 = dxf_text (dimension s))
    by (unfold d0; destruct (requires_extrusion b); reflexivity).
  rewrite Hd1, Hd2, Hd3, Hang. fold angle. rewrite Hrot.
  rewrite Hover. cbn [andb].
  unfold mbind' at 1, ret at 1.
  rewrite !ray_intersect_perpendicular. fold start end_.
  unfold mbind' at 1, lift at 1.
  unfold mbind' at 1, lift at 1.
  unfold mbind' at 1, modify_dimension at 1.
  cbn [dimension block].
  set (s1 := mkState (set_defpoint start d0) (block s)).
  unfold mbind' at 1. rewrite text_override_state.
  rewrite (text_override_same_text _ _ s1 s) by (simpl; exact Htxt).
  rewrite Htext.
  destruct (String.eqb t EmptyString) eqn:Hempty.
  - eexists _, _. split; [reflexivity|].
    cbn [Dimension.text Dimension.dim_line_start Dimension.dim_line_end
         measurement base text_rotation_deg text_location text_box].
    auto 12.
  - unfold get_text_location. rewrite Hover, Hhalign. cbn [Z.eqb orb].
    unfold mbind' at 2, ret at 1.
    unfold mbind' at 2, modify_dimension at 1.
    rewrite normalize_Ok by (rewrite magnitude_orthogonal; exact Hmag).
    unfold mbind' at 2, lift at 1.
    unfold mbind' at 1, ret at 1.
    eexists _, _. split; [reflexivity|].
    cbn [Dimension.text Dimension.dim_line_start Dimension.dim_line_end
         measurement base text_rotation_deg text_location text_box].
    auto 12.
Qed.

(** The placement decisions of the constructor, for a dimension with a
    display text: the text is flagged outside exactly when the text
    width plus twice the sum of arrow size and text gap exceeds the
    measurement and [dimtix] does not force it inside; the arrows are
    flagged outside exactly when twice the arrow size plus the text gap
    exceeds the measurement, whatever was decided for the text.  These
    are the flags [text_outside] and [arrows_outside]; where the text
    goes is decided by [get_text_location]. *)
Lemma placement_decisions drawing ucs override s self s' :
  LinearDimension_init drawing ucs override s = (Ok self, s') ->
  Dimension.text self <> EmptyString ->
  let b := base self in
  let ds := dim_style b in
  (text_outside self = true <->
     text_width b (Dimension.text self) + 2 * (arrow_size b + text_gap b)
       > measurement self /\
     force_text_inside b = false) /\
  (arrows_outside self = true <->
     2 * arrow_size b + text_gap b > measurement self) /\
  text_width b (Dimension.text self) =
    INR (str_len (Dimension.text self))
    * (text_height b * text_width_factor b) /\
  arrow_size b = dimasz ds /\
  text_gap b = default 0.625 (dimgap ds) /\
  force_text_inside b = bool_of_R (default 0 (dimtix ds)).
Proof.
  intros Hinit Htext b ds.
  apply LinearDimension_init_inv in Hinit
    as (origin & _ & Hb & _ & _ & _ & _ & _ & _ & _ & Harrows & Hrest).
  fold b in Hb. cbv zeta in Hrest. rewrite <- Hb in Harrows, Hrest.
  apply String.eqb_neq in Htext. rewrite Htext in Hrest.
  destruct Hrest as (Hout & _).
  repeat split.
  - rewrite Hout in H. destruct (force_text_inside b); [discriminate|].
    by apply Rgtb_true.
  - rewrite Hout in H. by destruct (force_text_inside b).
  - intros [Hgt Hforce]. rewrite Hout, Hforce. by apply Rgtb_true.
  - rewrite Harrows. apply Rgtb_true.
  - rewrite Harrows. apply Rgtb_true.
  - unfold ds. rewrite Hb. reflexivity.
  - unfold ds. rewrite Hb. reflexivity.
  - unfold ds. rewrite Hb. reflexivity.
Qed.

Lemma radians_0 : radians 0 = 0.
Proof. unfold radians. field. Qed.

Lemma foot_x_axis x : foot (mkVector 0 0 0) (mkVector x 0 0) 0 = mkVector x 0 0.
Proof.
  unfold foot. rewrite radians_0, cos_0, sin_0.
  apply Vector_eq; simpl; ring.
Qed.

(** C1, as the code has it.  The measurement of a linear dimension is
    the distance between the two ends of the dimension line, which is
    not negative; the factor [dimlfac] is not part of it and only scales
    the value from which the display text is made.  In the scenario of
    the specification the dimension line runs from (0, 0, 0) to
    (10, 0, 0) and the measurement is 10. *)
Theorem measurement_is_distance drawing ucs override s self s' :
  LinearDimension_init drawing ucs override s = (Ok self, s') ->
  0 <= measurement self /\
  measurement self =
    magnitude (vsub (Dimension.dim_line_end self)
                    (Dimension.dim_line_start self)) /\
  dim_measurement_factor (base self) =
    default 1 (dimlfac (dim_style (base self))) /\
  fst (text_override (base self)
         (measurement self * dim_measurement_factor (base self)) s) =
    Ok (Dimension.text self) /\
  (forall ds, dimension s = scenario ds ->
     measurement self = 10 /\
     Dimension.dim_line_start self = mkVector 0 0 0 /\
     Dimension.dim_line_end self = mkVector 10 0 0).
Proof.
  intros Hinit.
  apply LinearDimension_init_inv in Hinit
    as (origin & Horigin & Hb & _ & _ & _ & Hstart & Hend & Hm & Htext & _).
  rewrite Hb. split; [rewrite Hm; apply magnitude_nonneg|].
  split; [exact Hm|]. split; [reflexivity|]. split; [exact Htext|].
  intros ds Hs. rewrite Hs in Horigin, Hstart, Hend.
  cbn in Horigin. subst origin. cbn in Hstart, Hend.
  rewrite foot_x_axis in Hstart, Hend.
  rewrite Hm, Hstart, Hend. repeat split.
  replace (vsub (mkVector 10 0 0) (mkVector 0 0 0)) with (mkVector 10 0 0)
    by (apply Vector_eq; simpl; ring).
  apply magnitude_x. lra.
Qed.


(** The attributes that every entity inherits from the dimension. *)
Definition entity_attributes (d : DimensionEntity) : attribs :=
<["layer" := AStr (dxf_layer d)]> (<["color" := AInt (dxf_color d)]> ∅).

Lemma add_line_eq b a c attrs s :
  add_line b a c attrs s =
  (Ok tt, mkState (dimension s)
            (block s ++ [Line (wcs b a) (wcs b c)
                           (update (entity_attributes (dimension s)) attrs)])).
Proof. reflexivity. Qed.

Lemma order_nearer start a b p1 p2 :
  order start a b = (p1, p2) ->
  magnitude (vsub start p1) <= magnitude (vsub start p2) /\
  ((p1 = a /\ p2 = b) \/ (p1 = b /\ p2 = a)).
Proof.
  unfold order, Rltb. destruct (Rlt_dec _ _) as [Hlt|Hge]; intros [= <- <-].
  - split; [lra|auto].
  - split; [lra|auto].
Qed.

(** The attributes of the dimension line. *)
Definition dimension_line_attribs (b : DimensionBase) : attribs :=
if supports_dxf_r2000 b
then <["lineweight" := AInt (dim_lineweight b)]>
       (set_some "linetype" (AStr <$> dim_linetype b)
          (<["color" := AInt (dim_line_color b)]> ∅))
else set_some "linetype" (AStr <$> dim_linetype b)
       (<["color" := AInt (dim_line_color b)]> ∅).

(** [add_dimension_line] once the direction of the line is known. *)
Lemma add_dimension_line_unfold self start end_ s :
  magnitude (vsub end_ start) <> 0 ->
  let b := base self in
  let direction := vscale (vsub end_ start) (1 / magnitude (vsub end_ start)) in
  let extension := vscale direction (if dim_line_extension b then 1 else 0) in
  let start' := if extends_dimension_line ARROWS_has_extension_line (arrow1_name b)
                then vsub start extension else start in
  let end' := if extends_dimension_line ARROWS_has_extension_line (arrow2_name b)
              then vadd end_ extension else end_ in
  let points := match text_box self with
                | Some tb => intersect tb (mkLine start' end')
                | None => []
                end in
  add_dimension_line self start end_ s =
  (match points with
   | [i0; i1] =>
       let '(p1, p2) := order start' i0 i1 in
       mbind' (when (negb (suppress_dim1_line b))
                 (add_line b start' p1 (Some (dimension_line_attribs b))))
         (fun _ => when (negb (suppress_dim2_line b))
                     (add_line b p2 end' (Some (dimension_line_attribs b))))
   | _ => add_line b start' end' (Some (dimension_line_attribs b))
   end) s.
Proof.
  intros Hm b direction extension start' end' points.
  unfold Dimension.add_dimension_line.
  rewrite (normalize_Ok _ _ Hm). unfold mbind' at 1, lift at 1.
  fold b. unfold points, start', end', extension, direction,
    dimension_line_attribs.
  destruct (text_box self) as [tb|]; [|reflexivity].
  destruct (intersect tb _) as [|i0 [|i1 [|i2 l]]]; reflexivity.
Qed.

(** C5, as the code has it.  The dimension line runs from [start'] to
    [end'], the end points after the extension by [dimdle].  When the
    border of the text box meets it in exactly two points, the part from
    [start'] to the nearer point is drawn unless [dimsd1] suppresses it,
    and the part from the farther point to [end'] unless [dimsd2]
    suppresses it; in every other case (no text box, or a number of
    points other than two) one line from [start'] to [end'] is drawn. *)
Theorem dimension_line_segments self start end_ s :
  magnitude (vsub end_ start) <> 0 ->
  let b := base self in
  let direction := vscale (vsub end_ start) (1 / magnitude (vsub end_ start)) in
  let extension := vscale direction (if dim_line_extension b then 1 else 0) in
  let start' := if extends_dimension_line ARROWS_has_extension_line (arrow1_name b)
                then vsub start extension else start in
  let end' := if extends_dimension_line ARROWS_has_extension_line (arrow2_name b)
              then vadd end_ extension else end_ in
  let points := match text_box self with
                | Some tb => intersect tb (mkLine start' end')
                | None => []
                end in
  exists attribs,
    (forall i0 i1, points = [i0; i1] ->
       exists p1 p2,
         order start' i0 i1 = (p1, p2) /\
         magnitude (vsub start' p1) <= magnitude (vsub start' p2) /\
         add_dimension_line self start end_ s =
         (Ok tt,
          mkState (dimension s)
            (block s
             ++ (if suppress_dim1_line b then []
                 else [Line (wcs b start') (wcs b p1) attribs])
             ++ (if suppress_dim2_line b then []
                 else [Line (wcs b p2) (wcs b end') attribs])))) /\
    (length points <> 2%nat ->
       add_dimension_line self start end_ s =
       (Ok tt,
        mkState (dimension s)
          (block s ++ [Line (wcs b start') (wcs b end') attribs]))).
Proof.
  intros Hm b direction extension start' end' points.
  exists (update (entity_attributes (dimension s))
            (Some (dimension_line_attribs b))).
  rewrite (add_dimension_line_unfold self start end_ s Hm).
  fold b direction. fold extension. fold start' end'. fold points.
  split.
  - intros i0 i1 ->.
    destruct (order start' i0 i1) as [p1 p2] eqn:Horder.
    exists p1, p2. split; [reflexivity|].
    split; [apply (order_nearer _ _ _ _ _ Horder)|].
    unfold mbind', when.
    destruct (suppress_dim1_line b), (suppress_dim2_line b); cbn [negb];
      unfold ret; rewrite ?add_line_eq; cbn [dimension block];
      rewrite ?app_nil_r, <- ?app_assoc; destruct s; reflexivity.
  - intros Hlen.
    destruct points as [|i0 [|i1 [|i2 l]]]; rewrite ?add_line_eq;
      try reflexivity.
    simpl in Hlen. contradiction.
Qed.

(** *** Lines and text boxes *)

Lemma in_unit_true t : 0 <= t <= 1 -> in_unit t = true.
Proof.
  intros [H0 H1]. unfold in_unit.
  destruct (Rle_dec 0 t); [|contradiction].
  destruct (Rle_dec t 1); [reflexivity|contradiction].
Qed.

Lemma in_unit_false t : t < 0 \/ 1 < t -> in_unit t = false.
Proof.
  intros H. unfold in_unit.
  destruct (Rle_dec 0 t); [|reflexivity].
  destruct (Rle_dec t 1); [lra|reflexivity].
Qed.

Lemma in_unit_spec t : in_unit t = true <-> 0 <= t <= 1.
Proof.
  unfold in_unit.
  destruct (Rle_dec 0 t), (Rle_dec t 1); simpl; split; intros; try lra;
    try discriminate; reflexivity.
Qed.

(** The parameters of the common point of two lines that are not
    parallel are determined by the two linear equations. *)
Lemma line_parameters l1 l2 t u :
  let d1 := vsub (line_end l1) (line_start l1) in
  let d2 := vsub (line_end l2) (line_start l2) in
  let w := vsub (line_start l2) (line_start l1) in
  cross2 d1 d2 <> 0 ->
  vx w = t * vx d1 - u * vx d2 ->
  vy w = t * vy d1 - u * vy d2 ->
  cross2 w d2 / cross2 d1 d2 = t /\ cross2 w d1 / cross2 d1 d2 = u.
Proof.
  intros d1 d2 w Hc Hx Hy. unfold cross2 in *. rewrite Hx, Hy.
  split; field; exact Hc.
Qed.

Lemma line_intersect_at l1 l2 t u :
  let d1 := vsub (line_end l1) (line_start l1) in
  let d2 := vsub (line_end l2) (line_start l2) in
  let w := vsub (line_start l2) (line_start l1) in
  cross2 d1 d2 <> 0 ->
  vx w = t * vx d1 - u * vx d2 ->
  vy w = t * vy d1 - u * vy d2 ->
  line_intersect l1 l2 =
  if in_unit t && in_unit u
  then Some (mkVector (vx (line_start l1) + t * vx d1)
                      (vy (line_start l1) + t * vy d1) 0)
  else None.
Proof.
  intros d1 d2 w Hc Hx Hy.
  destruct (line_parameters l1 l2 t u Hc Hx Hy) as [Ht Hu].
  unfold line_intersect. subst d1 d2 w. cbv zeta.
  destruct (Req_dec_T _ 0) as [H0|_]; [contradiction|].
  rewrite Ht, Hu. reflexivity.
Qed.

Lemma line_intersect_parallel l1 l2 :
  cross2 (vsub (line_end l1) (line_start l1))
         (vsub (line_end l2) (line_start l2)) = 0 ->
  line_intersect l1 l2 = None.
Proof.
  intros H. unfold line_intersect.
  destruct (Req_dec_T _ 0); [reflexivity|contradiction].
Qed.


Lemma vector_eqb_refl p : vector_eqb p p = true.
Proof.
  unfold vector_eqb.
  destruct (Req_dec_T (vx p) (vx p)); [|contradiction].
  destruct (Req_dec_T (vy p) (vy p)); [|contradiction].
  destruct (Req_dec_T (vz p) (vz p)); [reflexivity|contradiction].
Qed.

Lemma vector_eqb_neq_x p q : vx p <> vx q -> vector_eqb p q = false.
Proof.
  intros H. unfold vector_eqb.
  destruct (Req_dec_T (vx p) (vx q)); [contradiction|reflexivity].
Qed.

Lemma vector_ltb_x p q : vx p < vx q -> vector_ltb p q = true.
Proof.
  intros H. unfold vector_ltb. destruct (Rlt_dec (vx p) (vx q)); [reflexivity|contradiction].
Qed.

Lemma vector_ltb_x_gt p q : vx q < vx p -> vector_ltb p q = false.
Proof.
  intros H. unfold vector_ltb.
  destruct (Rlt_dec (vx p) (vx q)); [lra|].
  destruct (Rlt_dec (vx q) (vx p)); [reflexivity|contradiction].
Qed.

(** A line along the x axis through a box that is centred on the axis
    and parallel to it crosses the left and the right border. *)
Lemma intersect_through_box c cx W H x0 x1 :
  0 < W -> 0 < H -> x0 <= cx - W -> cx + W <= x1 ->
  intersect
    (mkTextBox c (mkVector (cx - W) (- H) 0, mkVector (cx + W) (- H) 0,
                  mkVector (cx + W) H 0, mkVector (cx - W) H 0))
    (mkLine (mkVector x0 0 0) (mkVector x1 0 0))
  = [mkVector (cx - W) 0 0; mkVector (cx + W) 0 0].
Proof.
  intros HW HH Hx0 Hx1. unfold intersect, border_lines. cbn [corners fold_left].
  rewrite (line_intersect_parallel _ (mkLine (mkVector (cx - W) (- H) 0) _))
    by (unfold cross2, vsub; simpl; ring).
  rewrite (line_intersect_parallel _ (mkLine (mkVector (cx + W) H 0) _))
    by (unfold cross2, vsub; simpl; ring).
  rewrite (line_intersect_at _ (mkLine (mkVector (cx + W) (- H) 0) _)
             ((cx + W - x0) / (x1 - x0)) (1 / 2));
    unfold cross2, vsub; simpl; [|nra|field; lra|lra].
  rewrite (line_intersect_at _ (mkLine (mkVector (cx - W) H 0) _)
             ((cx - W - x0) / (x1 - x0)) (1 / 2));
    unfold cross2, vsub; simpl; [|nra|field; lra|lra].
  assert (Hd : 0 < x1 - x0) by lra.
  assert (Hfrac : forall x, x0 <= x <= x1 -> 0 <= (x - x0) / (x1 - x0) <= 1).
  { intros x Hx.
    split; [apply Rmult_le_pos; [lra|left; by apply Rinv_0_lt_compat]|].
    apply Rmult_le_reg_r with (x1 - x0); [exact Hd|]. field_simplify; lra. }
  rewrite !in_unit_true by first [lra | apply Hfrac; lra].
  cbn [andb].
  replace (mkVector (x0 + (cx + W - x0) / (x1 - x0) * (x1 - x0))
                    (0 + (cx + W - x0) / (x1 - x0) * (0 - 0)) 0)
    with (mkVector (cx + W) 0 0) by (apply Vector_eq; simpl; field; lra).
  replace (mkVector (x0 + (cx - W - x0) / (x1 - x0) * (x1 - x0))
                    (0 + (cx - W - x0) / (x1 - x0) * (0 - 0)) 0)
    with (mkVector (cx - W) 0 0) by (apply Vector_eq; simpl; field; lra).
  unfold set_add. cbn [existsb app].
  rewrite vector_eqb_neq_x by (simpl; lra). cbn [orb app].
  unfold sorted. cbn [fold_right insert_sorted].
  rewrite vector_ltb_x_gt by (simpl; lra). reflexivity.
Qed.

(** *** The entity after rendering *)

Lemma keeps_dimension_add_measurement_text drawing self text pos rotation :
  keeps_dimension
    (add_measurement_text MTEXT_ALIGN_FLAGS drawing self text pos rotation).
Proof. unfold add_measurement_text. keeps. Qed.

Lemma keeps_dimension_add_leader self p1 p2 p3 attrs :
  keeps_dimension (add_leader self p1 p2 p3 attrs).
Proof. unfold add_leader. keeps. Qed.

Lemma keeps_dimension_add_extension_line self start end_ linetype :
  keeps_dimension (add_extension_line self start end_ linetype).
Proof. unfold add_extension_line. keeps. Qed.

#[local] Hint Resolve keeps_dimension_add_measurement_text
  keeps_dimension_add_leader keeps_dimension_add_extension_line : keeps.

(** A step that keeps the entity can be skipped when looking for the
    entity at the end. *)
Lemma mbind_keeps_Ok {A B} (m : M A) (k : A -> M B) s b s' :
  keeps_dimension m ->
  mbind' m k s = (Ok b, s') ->
  exists a s1, dimension s1 = dimension s /\ k a s1 = (Ok b, s').
Proof.
  intros Hm H. apply mbind_Ok in H as (a & s1 & Ha & H).
  exists a, s1. split; [|exact H].
  specialize (Hm s). rewrite Ha in Hm. exact Hm.
Qed.

(** [render] changes the entity in its last step only. *)
Lemma render_Ok drawing self s s' :
  render drawing self s = (Ok tt, s') ->
  exists s1,
    dimension s1 = dimension s /\
    defpoints_to_wcs (base self) s1 = (Ok tt, s').
Proof.
  unfold Dimension.render. intros H.
  apply mbind_keeps_Ok in H as (_ & s1 & H1 & H); [|keeps].
  apply mbind_keeps_Ok in H as (_ & s2 & H2 & H); [|keeps].
  apply mbind_keeps_Ok in H as (_ & s3 & H3 & H); [|keeps].
  apply mbind_keeps_Ok in H as ([a e] & s4 & H4 & H); [|keeps].
  apply mbind_keeps_Ok in H as (_ & s5 & H5 & H); [|keeps].
  apply mbind_keeps_Ok in H as (_ & s6 & H6 & H); [|keeps].
  exists s6. split; [congruence|exact H].
Qed.

Lemma defpoints_to_wcs_Ok self s s' :
  defpoints_to_wcs self s = (Ok tt, s') ->
  exists p,
    dxf_text_midpoint (dimension s) = Some p /\
    dxf_text_midpoint (dimension s') = Some (ocs self p) /\
    dxf_defpoint (dimension s') = wcs self (dxf_defpoint (dimension s)) /\
    dxf_defpoint2 (dimension s') = wcs self (dxf_defpoint2 (dimension s)) /\
    dxf_defpoint3 (dimension s') = wcs self (dxf_defpoint3 (dimension s)) /\
    block s' = block s.
Proof.
  unfold defpoints_to_wcs, mbind', get_dimension, modify_dimension,
    get_text_midpoint.
  cbn [dimension block dxf_text_midpoint set_defpoint set_defpoint2
       set_defpoint3].
  destruct (dxf_text_midpoint (dimension s)) as [p|]; [|discriminate].
  intros [= <-]. exists p. cbn. auto 10.
Qed.

(** What [get_text_location] writes: nothing when the user has placed
    the text; else the location on the dimension line, before it is
    lifted off the line. *)
Lemma get_text_location_Ok self start end_ width outside s loc s' :
  get_text_location self start end_ width outside s = (Ok loc, s') ->
  block s' = block s /\
  if user_location_override self
  then dimension s' = dimension s
  else exists auto,
      dimension s' = set_text_midpoint auto (dimension s) /\
      (text_halign self = 0%Z -> auto = lerp start end_ 0.5).
Proof.
  unfold get_text_location.
  destruct (user_location_override self).
  - intros H. apply mbind_Ok in H as (p & s1 & Hp & H).
    assert (Hs1 : s1 = s).
    { unfold get_text_midpoint in Hp.
      destruct (dxf_text_midpoint (dimension s)); by inversion Hp. }
    subst s1.
    destruct (text_movement_rule self =? 0)%Z.
    + apply mbind_Ok in H as (o & s2 & Ho & H).
      apply lift_Ok in Ho as [_ ->]. injection H as _ <-. auto.
    + injection H as _ <-. auto.
  - intros H. apply mbind_Ok in H as (auto & s1 & Hauto & H).
    apply mbind_Ok in H as ([] & s2 & Hset & H).
    apply mbind_Ok in H as (o & s3 & Ho & H).
    apply lift_Ok in Ho as [_ ->]. injection H as _ <-.
    injection Hset as <-.
    assert (Hs1 : s1 = s /\ (text_halign self = 0%Z -> auto = lerp start end_ 0.5)).
    { destruct (text_halign self =? 1)%Z eqn:E1.
      { apply mbind_Ok in Hauto as (n & s4 & Hn & Hauto).
        apply lift_Ok in Hn as [_ ->]. injection Hauto as _ <-.
        split; [reflexivity|]. intros E0. rewrite E0 in E1. discriminate. }
      destruct (text_halign self =? 2)%Z eqn:E2.
      { apply mbind_Ok in Hauto as (n & s4 & Hn & Hauto).
        apply lift_Ok in Hn as [_ ->]. injection Hauto as _ <-.
        split; [reflexivity|]. intros E0. rewrite E0 in E2. discriminate. }
      destruct ((text_halign self =? 3)%Z || (text_halign self =? 4)%Z) eqn:E3.
      { apply mbind_Ok in Hauto as (n & s4 & Hn & Hauto).
        apply lift_Ok in Hn as [_ ->]. injection Hauto as _ <-.
        split; [reflexivity|]. intros E0. rewrite E0 in E3. discriminate. }
      injection Hauto as <- <-. auto. }
    destruct Hs1 as [-> Hauto0]. cbn [dimension block]. split; [reflexivity|].
    exists auto. auto.
Qed.





(** *** Steps that always return *)

(** A computation that returns from the state [s]. *)
Definition returns {A} (m : M A) (s : State) : Prop :=
  exists a s', m s = (Ok a, s').

(** A computation that returns from every state. *)
Definition total {A} (m : M A) : Prop := forall s, returns m s.

Lemma total_ret {A} (a : A) : total (ret a).
Proof. intros s. by exists a, s. Qed.

Lemma total_get : total get_dimension.
Proof. intros s. by exists (dimension s), s. Qed.

Lemma total_add_entity p : total (add_entity p).
Proof. intros s. by eexists _, _. Qed.

Lemma total_modify f : total (modify_dimension f).
Proof. intros s. by eexists _, _. Qed.

Lemma total_bind {A B} (m : M A) (k : A -> M B) :
  total m -> (forall a, total (k a)) -> total (mbind' m k).
Proof.
  intros Hm Hk s. destruct (Hm s) as (a & s1 & Ha).
  destruct (Hk a s1) as (b & s2 & Hb).
  exists b, s2. by rewrite (mbind_eq _ _ _ _ _ Ha).
Qed.

Lemma total_when c m : total m -> total (when c m).
Proof. intros Hm. destruct c; [exact Hm|apply total_ret]. Qed.

Create HintDb total.

#[local] Hint Resolve total_ret total_get total_add_entity total_modify
  total_when : total.

Ltac total_step :=
  first
    [ solve [auto with total]
    | progress cbv zeta
    | apply total_when
    | apply total_bind; [|intros]
    | match goal with
      | |- total (if ?c then _ else _) => destruct c
      | |- total (match ?x with _ => _ end) => destruct x
      end ].

Ltac total := repeat total_step.

Lemma total_default_attributes : total default_attributes.
Proof. unfold default_attributes. total. Qed.

#[local] Hint Resolve total_default_attributes : total.

Lemma total_add_line self a b attrs : total (add_line self a b attrs).
Proof. unfold add_line. total. Qed.

#[local] Hint Resolve total_add_line : total.

Lemma total_add_text drawing self text pos rotation align attrs :
  total (add_text MTEXT_ALIGN_FLAGS drawing self text pos rotation align attrs).
Proof. unfold add_text. total. Qed.

Lemma total_add_defpoints self points : total (add_defpoints self points).
Proof. induction points as [|p points IH]; simpl; total. Qed.

#[local] Hint Resolve total_add_text total_add_defpoints : total.

Lemma total_add_measurement_text drawing self text pos rotation :
  total (add_measurement_text MTEXT_ALIGN_FLAGS drawing self text pos rotation).
Proof. unfold add_measurement_text. total. Qed.

Lemma total_add_leader self p1 p2 p3 attrs :
  total (add_leader self p1 p2 p3 attrs).
Proof. unfold add_leader. total. Qed.

Lemma total_add_extension_line self start end_ linetype :
  total (add_extension_line self start end_ linetype).
Proof. unfold add_extension_line. total. Qed.

#[local] Hint Resolve total_add_measurement_text total_add_leader
  total_add_extension_line : total.

(** The dimension line can be drawn whenever its ends differ. *)
Lemma add_dimension_line_returns self start end_ s :
  magnitude (vsub end_ start) <> 0 ->
  returns (add_dimension_line self start end_) s.
Proof.
  intros Hm. unfold returns.
  rewrite (add_dimension_line_unfold self start end_ s Hm). cbv zeta.
  destruct (match text_box self with Some _ => _ | None => _ end)
    as [|i0 [|i1 [|i2 l]]]; try apply total_add_line.
  destruct (order _ i0 i1) as [p1 p2]. revert s. fold (total (A := unit)).
  total.
Qed.

(** A step that returns and keeps the entity, followed by steps that
    return whenever the entity is as it was. *)
Lemma returns_bind {A B} (m : M A) (k : A -> M B) s :
  keeps_dimension m -> returns m s ->
  (forall a s1, dimension s1 = dimension s -> returns (k a) s1) ->
  returns (mbind' m k) s.
Proof.
  intros Hkeep (a & s1 & Ha) Hk.
  destruct (Hk a s1) as (b & s2 & Hb).
  - specialize (Hkeep s). by rewrite Ha in Hkeep.
  - exists b, s2. by rewrite (mbind_eq _ _ _ _ _ Ha).
Qed.

Lemma defpoints_to_wcs_returns self s p :
  dxf_text_midpoint (dimension s) = Some p ->
  returns (defpoints_to_wcs self) s.
Proof.
  intros Hp. unfold returns, defpoints_to_wcs, mbind', get_dimension,
    modify_dimension, get_text_midpoint.
  cbn [dimension block dxf_text_midpoint set_defpoint set_defpoint2
       set_defpoint3].
  rewrite Hp. by eexists _, _.
Qed.

(** [add_arrows] for arrows of the registry that fit between the
    extension lines: two block references, and the dimension line ends
    at the connection points of the arrows. *)
Lemma add_arrows_inside drawing self start end_ n1 n2 s :
  let b := base self in
  Rgtb (tick_size b) 0 = false ->
  arrow1_name b = Some n1 -> arrow2_name b = Some n2 ->
  ARROWS_contains n1 = true -> ARROWS_contains n2 = true ->
  exists s',
    add_arrows ARROWS_contains ARROWS_ORIGIN_ZERO ARROWS_oblique
      connection_point drawing self start end_ false s =
    (Ok (connection_point n1 start (arrow_size b) (dim_line_angle self + 180),
         connection_point n2 end_ (arrow_size b) (dim_line_angle self)),
     s') /\
    dimension s' = dimension s.
Proof.
  intros b Htick Ha1 Ha2 Hn1 Hn2. unfold add_arrows. fold b.
  rewrite Htick, Ha1, Ha2. cbn [add_arrow_blockref default].
  unfold add_blockref. rewrite Hn1, Hn2.
  unfold mbind', add_entity, ret. cbn [dimension block].
  eexists. split; reflexivity.
Qed.

(** [render] returns for a dimension with a text, without extension
    lines, with arrows of the registry between the extension lines and
    with a text midpoint in the entity. *)
Lemma render_returns drawing self s loc tb n1 n2 p :
  let b := base self in
  text_location self = Some loc -> text_box self = Some tb ->
  suppress_ext1_line b = true -> suppress_ext2_line b = true ->
  Rgtb (tick_size b) 0 = false ->
  arrow1_name b = Some n1 -> arrow2_name b = Some n2 ->
  ARROWS_contains n1 = true -> ARROWS_contains n2 = true ->
  arrows_outside self = false ->
  magnitude
    (vsub (connection_point n2 (Dimension.dim_line_end self) (arrow_size b)
             (dim_line_angle self))
          (connection_point n1 (Dimension.dim_line_start self) (arrow_size b)
             (dim_line_angle self + 180))) <> 0 ->
  dxf_text_midpoint (dimension s) = Some p ->
  returns (render drawing self) s.
Proof.
  intros b Hloc Hbox Hse1 Hse2 Htick Ha1 Ha2 Hn1 Hn2 Hout Hm Hp.
  unfold Dimension.render. fold b. rewrite Hloc, Hbox, Hse1, Hse2, Hout.
  apply returns_bind; [keeps| |].
  { match goal with
    | |- returns ?m ?s0 =>
        let H := fresh in assert (H : total m) by total; exact (H s0)
    end. }
  intros _ s1 H1. apply returns_bind; [keeps|apply total_ret|].
  intros _ s2 H2. apply returns_bind; [keeps|apply total_ret|].
  intros _ s3 H3.
  destruct (add_arrows_inside drawing self (Dimension.dim_line_start self)
              (Dimension.dim_line_end self) n1 n2 s3 Htick Ha1 Ha2 Hn1 Hn2)
    as (s4 & Harrows & H4).
  fold b in Harrows. unfold returns. rewrite (mbind_eq _ _ _ _ _ Harrows).
  apply returns_bind; [keeps|by apply add_dimension_line_returns|].
  intros _ s5 H5. apply returns_bind; [keeps|apply total_add_defpoints|].
  intros _ s6 H6. apply (defpoints_to_wcs_returns _ _ p). congruence.
Qed.

(** *** The geometry of the constructor *)

(** The projection of a vector on a direction is no longer than the
    vector. *)
Lemma projection_le dx dy a :
  Rabs (dx * cos a + dy * sin a) <= sqrt (dx * dx + dy * dy).
Proof.
  rewrite <- sqrt_Rsqr_abs. apply sqrt_le_1_alt. unfold Rsqr.
  pose proof (sin2_cos2 a) as H. unfold Rsqr in H.
  assert (H0 : 0 <= (dx * sin a - dy * cos a) * (dx * sin a - dy * cos a))
    by apply Rle_0_sqr.
  nra.
Qed.

(** X10. The measurement of a linear dimension is the length of the
    projection of the way from the first to the second measurement point
    ([defpoint2], [defpoint3]) on the direction of the dimension line,
    which the [angle] attribute gives: it does not depend on where the
    dimension line lies, and it is at most the distance of the two
    points in the drawing plane. *)
Theorem measurement_is_projection drawing ucs override s self s' :
  LinearDimension_init drawing ucs override s = (Ok self, s') ->
  let d := dimension s in
  let a := radians (default 0 (dxf_angle d)) in
  let dx := vx (dxf_defpoint3 d) - vx (dxf_defpoint2 d) in
  let dy := vy (dxf_defpoint3 d) - vy (dxf_defpoint2 d) in
  measurement self = Rabs (dx * cos a + dy * sin a) /\
  measurement self <= sqrt (dx * dx + dy * dy).
Proof.
  intros Hinit d a dx dy.
  apply LinearDimension_init_inv in Hinit
    as (origin & _ & _ & _ & _ & _ & Hstart & Hend & Hm & _).
  assert (H : measurement self = Rabs (dx * cos a + dy * sin a)).
  { rewrite Hm, Hstart, Hend, foot_difference. apply magnitude_scale_unit. }
  split; [exact H|]. rewrite H. apply projection_le.
Qed.

(** X11. The ends of the dimension line are the feet of the
    perpendiculars from the two measurement points on the dimension
    line: each lies on the line through the reference point in the
    direction of [angle] (the reference point is [defpoint], or the text
    midpoint when the user has moved the text and the dimension line
    moves with it), and the way from the measurement point to it is at
    a right angle to that direction. *)
Theorem dimension_line_feet drawing ucs override s self s' :
  LinearDimension_init drawing ucs override s = (Ok self, s') ->
  let d := dimension s in
  let a := radians (default 0 (dxf_angle d)) in
  let direction := mkVector (cos a) (sin a) 0 in
  let dot (u v : Vector) := vx u * vx v + vy u * vy v in
  exists origin,
    (if USER_LOCATION_OVERRIDE d
        && (default 0%Z (dimtmove (default (dimstyle_override d) override)) =? 0)%Z
     then dxf_text_midpoint d = Some origin
     else origin = dxf_defpoint d) /\
    cross2 (vsub (Dimension.dim_line_start self) origin) direction = 0 /\
    cross2 (vsub (Dimension.dim_line_end self) origin) direction = 0 /\
    dot (vsub (Dimension.dim_line_start self) (dxf_defpoint2 d)) direction = 0 /\
    dot (vsub (Dimension.dim_line_end self) (dxf_defpoint3 d)) direction = 0.
Proof.
  intros Hinit d a direction dot.
  apply LinearDimension_init_inv in Hinit
    as (origin & Horigin & _ & _ & _ & _ & Hstart & Hend & _).
  exists origin. split.
  { cbn [user_location_override text_movement_rule DimensionBase_attributes
         dim_style] in Horigin.
    destruct override; exact Horigin. }
  rewrite Hstart, Hend. unfold foot, cross2, dot, direction, vsub. simpl.
  fold d. fold a.
  pose proof (sin2_cos2 a) as H. unfold Rsqr in H.
  repeat split; try ring.
  - transitivity (((vx (dxf_defpoint2 d) - vx origin) * cos a
                   + (vy (dxf_defpoint2 d) - vy origin) * sin a)
                  * (cos a * cos a + sin a * sin a - 1)); [ring|].
    replace (cos a * cos a + sin a * sin a - 1) with 0 by lra. ring.
  - transitivity (((vx (dxf_defpoint3 d) - vx origin) * cos a
                   + (vy (dxf_defpoint3 d) - vy origin) * sin a)
                  * (cos a * cos a + sin a * sin a - 1)); [ring|].
    replace (cos a * cos a + sin a * sin a - 1) with 0 by lra. ring.
Qed.
(** *** The location of the text *)

Lemma magnitude_vscale v k : magnitude (vscale v k) = Rabs k * magnitude v.
Proof.
  unfold magnitude, vscale. simpl.
  replace (vx v * k * (vx v * k) + vy v * k * (vy v * k) + vz v * k * (vz v * k))
    with (Rsqr k * (vx v * vx v + vy v * vy v + vz v * vz v))
    by (unfold Rsqr; ring).
  rewrite sqrt_mult_alt by apply Rle_0_sqr.
  rewrite sqrt_Rsqr_abs. reflexivity.
Qed.

(** A vector scaled to a length has that length, up to the sign. *)
Lemma magnitude_normalized v length :
  magnitude v <> 0 ->
  magnitude (vscale v (length / magnitude v)) = Rabs length.
Proof.
  intros Hv. rewrite magnitude_vscale. unfold Rdiv.
  rewrite Rabs_mult, Rabs_inv.
  rewrite (Rabs_pos_eq (magnitude v)) by apply magnitude_nonneg.
  field. exact Hv.
Qed.

Lemma vsub_vadd p v : vsub (vadd p v) p = v.
Proof. apply Vector_eq; simpl; ring. Qed.

(** X12. The default location of the text (no location of the user,
    [dimjust] 0) for a dimension line with two different ends: the
    middle of the dimension line is stored as [text_midpoint], and the
    text is placed at the distance [text_vertical_distance] from it, at
    a right angle to the dimension line, to the left of the direction
    from start to end when the distance is positive; with [dimtad] 0 the
    text sits on the middle itself.  The argument [text_outside] plays
    no part. *)
Theorem get_text_location_default self start end_ width outside s :
  user_location_override self = false ->
  text_halign self = 0%Z ->
  magnitude (vsub end_ start) <> 0 ->
  let middle := lerp start end_ 0.5 in
  let along := vsub end_ start in
  exists loc,
    get_text_location self start end_ width outside s =
      (Ok loc, mkState (set_text_midpoint middle (dimension s)) (block s)) /\
    magnitude (vsub loc middle) = Rabs (text_vertical_distance self) /\
    vx (vsub loc middle) * vx along + vy (vsub loc middle) * vy along = 0 /\
    cross2 along (vsub loc middle) * magnitude along =
      text_vertical_distance self * (vx along * vx along + vy along * vy along) /\
    (text_valign self = 0%Z -> loc = middle).
Proof.
  intros Huser Hh Hm middle along.
  assert (Hmo : magnitude (orthogonal along) <> 0)
    by (rewrite magnitude_orthogonal; exact Hm).
  unfold get_text_location. rewrite Huser, Hh.
  cbn [Z.eqb orb].
  unfold mbind', ret, modify_dimension, lift. fold along.
  rewrite (normalize_Ok _ _ Hmo). fold middle.
  eexists. split; [reflexivity|].
  rewrite vsub_vadd.
  split; [apply magnitude_normalized; exact Hmo|].
  split; [unfold orthogonal, vscale; simpl; ring|].
  split.
  - rewrite magnitude_orthogonal. unfold cross2, orthogonal, vscale. simpl.
    field. exact Hm.
  - intros Hv. unfold text_vertical_distance, vertical_factor. rewrite Hv.
    cbn [Z.eqb]. apply Vector_eq; unfold vadd, vscale, orthogonal; simpl;
      unfold Rdiv; ring.
Qed.

(** X13. With [dimjust] 1 the text goes next to the first extension
    line and with [dimjust] 2 next to the second: the point stored as
    [text_midpoint] lies on the dimension line, the text gap plus the
    arrow size plus half the text width away from the start (from the
    end), towards the other end; the text is placed at the distance
    [text_vertical_distance] from that point. *)
Theorem get_text_location_beside self start end_ width outside s :
  user_location_override self = false ->
  magnitude (vsub end_ start) <> 0 ->
  let offset := text_gap self + arrow_size self + width / 2 in
  let m := magnitude (vsub end_ start) in
  (text_halign self = 1%Z ->
   let on_line := vadd start (vscale (vsub end_ start) (offset / m)) in
   exists loc,
     get_text_location self start end_ width outside s =
       (Ok loc, mkState (set_text_midpoint on_line (dimension s)) (block s)) /\
     magnitude (vsub on_line start) = Rabs offset /\
     magnitude (vsub loc on_line) = Rabs (text_vertical_distance self)) /\
  (text_halign self = 2%Z ->
   let on_line := vadd end_ (vscale (vsub start end_) (offset / m)) in
   exists loc,
     get_text_location self start end_ width outside s =
       (Ok loc, mkState (set_text_midpoint on_line (dimension s)) (block s)) /\
     magnitude (vsub on_line end_) = Rabs offset /\
     magnitude (vsub loc on_line) = Rabs (text_vertical_distance self)).
Proof.
  intros Huser Hm offset m.
  assert (Hmo : magnitude (orthogonal (vsub end_ start)) <> 0)
    by (rewrite magnitude_orthogonal; exact Hm).
  assert (Hrev : magnitude (vsub start end_) = magnitude (vsub end_ start)).
  { unfold magnitude, vsub. simpl. f_equal. ring. }
  split; intros Hh on_line.
  - unfold get_text_location. rewrite Huser, Hh. cbn [Z.eqb orb].
    unfold mbind', ret, modify_dimension, lift.
    rewrite (normalize_Ok _ _ Hm), (normalize_Ok _ _ Hmo).
    eexists. split; [reflexivity|]. unfold on_line. rewrite !vsub_vadd.
    split; [apply magnitude_normalized; exact Hm|].
    apply magnitude_normalized; exact Hmo.
  - unfold get_text_location. rewrite Huser, Hh. cbn [Z.eqb orb].
    unfold mbind', ret, modify_dimension, lift.
    assert (Hm' : magnitude (vsub start end_) <> 0) by (rewrite Hrev; exact Hm).
    rewrite (normalize_Ok _ _ Hm'), (normalize_Ok _ _ Hmo).
    eexists. split; [rewrite Hrev; reflexivity|]. unfold on_line.
    rewrite !vsub_vadd.
    split; [unfold m; rewrite <- Hrev; apply magnitude_normalized; exact Hm'|].
    apply magnitude_normalized; exact Hmo.
Qed.

(** X14. A text that the user has placed: when the text moves freely
    ([dimtmove] other than 0) its location is the [text_midpoint] of the
    entity as it is; when the dimension line moves with the text
    ([dimtmove] 0) it is that point, lifted off the line by
    [text_vertical_distance].  In both cases the entity is not written
    to, and nothing is drawn. *)
Theorem get_text_location_user self start end_ width outside s p :
  user_location_override self = true ->
  dxf_text_midpoint (dimension s) = Some p ->
  (text_movement_rule self <> 0%Z ->
   get_text_location self start end_ width outside s = (Ok p, s)) /\
  (text_movement_rule self = 0%Z -> magnitude (vsub end_ start) <> 0 ->
   exists loc,
     get_text_location self start end_ width outside s = (Ok loc, s) /\
     magnitude (vsub loc p) = Rabs (text_vertical_distance self) /\
     vx (vsub loc p) * vx (vsub end_ start)
     + vy (vsub loc p) * vy (vsub end_ start) = 0).
Proof.
  intros Huser Hp. unfold get_text_location. rewrite Huser.
  unfold mbind', get_text_midpoint. rewrite Hp. split.
  - intros Hrule. apply Z.eqb_neq in Hrule. rewrite Hrule. reflexivity.
  - intros Hrule Hm. rewrite Hrule. cbn [Z.eqb].
    assert (Hmo : magnitude (orthogonal (vsub end_ start)) <> 0)
      by (rewrite magnitude_orthogonal; exact Hm).
    unfold lift, ret, mbind'. rewrite (normalize_Ok _ _ Hmo).
    eexists. split; [reflexivity|]. rewrite vsub_vadd.
    split; [apply magnitude_normalized; exact Hmo|].
    unfold orthogonal, vscale. simpl. ring.
Qed.
(** *** What a render call does to the block and to the entity *)

(** The attributes of the DIMENSION entity that the renderer only
    reads. *)
Definition same_identity (d d' : DimensionEntity) : Prop :=
  dim_type d' = dim_type d /\
  USER_LOCATION_OVERRIDE d' = USER_LOCATION_OVERRIDE d /\
  dimstyle_override d' = dimstyle_override d /\
  dxf_color d' = dxf_color d /\
  dxf_layer d' = dxf_layer d /\
  dxf_text d' = dxf_text d /\
  dxf_angle d' = dxf_angle d /\
  dxf_text_rotation d' = dxf_text_rotation d /\
  dxf_align d' = dxf_align d /\
  dxf_geometry d' = dxf_geometry d.

(** From [s] to [s']: the entities of the block stay in front of those
    that are new, and the entity keeps its identity. *)
Definition advances (s s' : State) : Prop :=
  (exists new, block s' = (block s ++ new)%list) /\
  same_identity (dimension s) (dimension s').

(** A computation that only advances the state, whether it returns or
    raises. *)
Definition orderly {A} (m : M A) : Prop :=
  forall s, advances s (snd (m s)).

Lemma same_identity_refl d : same_identity d d.
Proof. repeat split. Qed.

Lemma advances_refl s : advances s s.
Proof.
  split; [exists []; symmetry; apply app_nil_r|apply same_identity_refl].
Qed.

Lemma advances_trans s1 s2 s3 :
  advances s1 s2 -> advances s2 s3 -> advances s1 s3.
Proof.
  intros [[l1 H1] I1] [[l2 H2] I2]. split.
  - exists (l1 ++ l2)%list. rewrite H2, H1. symmetry. apply app_assoc.
  - unfold same_identity in *.
    destruct I1 as (?&?&?&?&?&?&?&?&?&?), I2 as (?&?&?&?&?&?&?&?&?&?).
    repeat split; congruence.
Qed.

Lemma orderly_ret {A} (a : A) : orderly (ret a).
Proof. intros s. apply advances_refl. Qed.

Lemma orderly_raise {A} e : orderly (@raise A e).
Proof. intros s. apply advances_refl. Qed.

Lemma orderly_lift {A} (r : result A) : orderly (lift r).
Proof. intros s. apply advances_refl. Qed.

Lemma orderly_get : orderly get_dimension.
Proof. intros s. apply advances_refl. Qed.

Lemma orderly_get_text_midpoint : orderly get_text_midpoint.
Proof.
  intros s. unfold get_text_midpoint.
  destruct (dxf_text_midpoint (dimension s)); apply advances_refl.
Qed.

Lemma orderly_add_entity p : orderly (add_entity p).
Proof.
  intros s. split; [exists [p]; reflexivity|apply same_identity_refl].
Qed.

Lemma orderly_modify f :
  (forall d, same_identity d (f d)) -> orderly (modify_dimension f).
Proof.
  intros Hf s. split; [exists []; symmetry; apply app_nil_r|apply Hf].
Qed.

Lemma orderly_bind {A B} (m : M A) (k : A -> M B) :
  orderly m -> (forall a, orderly (k a)) -> orderly (mbind' m k).
Proof.
  intros Hm Hk s. unfold mbind'. specialize (Hm s).
  destruct (m s) as [[a|e] s1]; simpl in *; [|exact Hm].
  eapply advances_trans; [exact Hm|apply Hk].
Qed.

Lemma orderly_when c m : orderly m -> orderly (when c m).
Proof. intros Hm. destruct c; [exact Hm|apply orderly_ret]. Qed.

Create HintDb orderly.

#[local] Hint Resolve orderly_ret orderly_raise orderly_lift orderly_get
  orderly_get_text_midpoint orderly_add_entity orderly_when : orderly.

Ltac orderly_step :=
  first
    [ solve [auto with orderly]
    | progress cbv zeta
    | apply orderly_when
    | apply orderly_modify; intros; repeat split
    | apply orderly_bind; [|intros]
    | match goal with
      | |- orderly (if ?c then _ else _) => destruct c
      | |- orderly (match ?x with _ => _ end) => destruct x
      | |- orderly (let (_, _) := ?p in _) => destruct p
      end ].

Ltac orderly := repeat orderly_step.

Lemma orderly_default_attributes : orderly default_attributes.
Proof. unfold default_attributes. orderly. Qed.

#[local] Hint Resolve orderly_default_attributes : orderly.

Lemma orderly_add_line self a b attrs : orderly (add_line self a b attrs).
Proof. unfold add_line. orderly. Qed.

#[local] Hint Resolve orderly_add_line : orderly.

Lemma orderly_add_blockref drawing self name insert rotation scale attrs :
  orderly
    (add_blockref ARROWS_contains drawing self name insert rotation scale attrs).
Proof. unfold add_blockref. orderly. Qed.

Lemma orderly_add_text drawing self text pos rotation align attrs :
  orderly (add_text MTEXT_ALIGN_FLAGS drawing self text pos rotation align attrs).
Proof. unfold add_text. orderly. Qed.

Lemma orderly_add_defpoints self points : orderly (add_defpoints self points).
Proof. induction points; simpl; orderly. Qed.

#[local] Hint Resolve orderly_add_blockref orderly_add_text
  orderly_add_defpoints : orderly.

Lemma orderly_add_arrows drawing self start end_ outside :
  orderly
    (add_arrows ARROWS_contains ARROWS_ORIGIN_ZERO ARROWS_oblique
       connection_point drawing self start end_ outside).
Proof. unfold add_arrows, add_arrow_blockref. orderly. Qed.

Lemma orderly_add_dimension_line self start end_ :
  orderly (add_dimension_line self start end_).
Proof. unfold Dimension.add_dimension_line. orderly. Qed.

Lemma orderly_add_measurement_text drawing self text pos rotation :
  orderly (add_measurement_text MTEXT_ALIGN_FLAGS drawing self text pos rotation).
Proof. unfold add_measurement_text. orderly. Qed.

Lemma orderly_add_leader self p1 p2 p3 attrs :
  orderly (add_leader self p1 p2 p3 attrs).
Proof. unfold add_leader. orderly. Qed.

Lemma orderly_add_extension_line self start end_ linetype :
  orderly (add_extension_line self start end_ linetype).
Proof. unfold add_extension_line. orderly. Qed.

Lemma orderly_defpoints_to_wcs self : orderly (defpoints_to_wcs self).
Proof. unfold defpoints_to_wcs. orderly. Qed.

#[local] Hint Resolve orderly_add_arrows orderly_add_dimension_line
  orderly_add_measurement_text orderly_add_leader orderly_add_extension_line
  orderly_defpoints_to_wcs : orderly.

Lemma orderly_render drawing self : orderly (render drawing self).
Proof. unfold Dimension.render. orderly. Qed.

Lemma orderly_text_override self v : orderly (text_override self v).
Proof. unfold Dimension.text_override. orderly. Qed.

Lemma orderly_get_text_location self start end_ width outside :
  orderly (get_text_location self start end_ width outside).
Proof. unfold get_text_location. orderly. Qed.

Lemma orderly_DimensionBase_init drawing ucs override :
  orderly (DimensionBase_init drawing ucs override).
Proof. unfold Dimension.DimensionBase_init. orderly. Qed.

#[local] Hint Resolve orderly_render orderly_text_override
  orderly_get_text_location orderly_DimensionBase_init : orderly.

Lemma orderly_LinearDimension_init drawing ucs override :
  orderly (LinearDimension_init drawing ucs override).
Proof. unfold Dimension.LinearDimension_init. orderly. Qed.

#[local] Hint Resolve orderly_LinearDimension_init : orderly.

Lemma orderly_linear drawing ucs override :
  orderly (linear drawing ucs override).
Proof. unfold Dimension.linear. orderly. Qed.

(** X15. A linear render only adds to the block: whatever the outcome,
    an exception included, the entities that were in the block are
    still there, in front and in their order, followed by what was
    drawn. *)
Theorem linear_appends drawing ucs override s :
  exists new,
    block (snd (linear drawing ucs override s)) = (block s ++ new)%list.
Proof. exact (proj1 (orderly_linear drawing ucs override s)). Qed.

(** X16. Of the DIMENSION entity a linear render writes the defining
    points, the text midpoint and the extrusion only: the type, the
    user-location flag, the style overrides, color, layer, text, angle,
    text rotation, alignment and the name of the geometry block are
    after the call what they were, whatever the outcome. *)
Theorem linear_keeps_identity drawing ucs override s :
  let d := dimension s in
  let d' := dimension (snd (linear drawing ucs override s)) in
  dim_type d' = dim_type d /\
  USER_LOCATION_OVERRIDE d' = USER_LOCATION_OVERRIDE d /\
  dimstyle_override d' = dimstyle_override d /\
  dxf_color d' = dxf_color d /\
  dxf_layer d' = dxf_layer d /\
  dxf_text d' = dxf_text d /\
  dxf_angle d' = dxf_angle d /\
  dxf_text_rotation d' = dxf_text_rotation d /\
  dxf_align d' = dxf_align d /\
  dxf_geometry d' = dxf_geometry d.
Proof. exact (proj2 (orderly_linear drawing ucs override s)). Qed.

(** X17. [dispatch] returns the name of the new anonymous block, and
    that name is the [geometry] of the DIMENSION entity afterwards for
    every type code and every outcome: a renderer that fails, or a type
    code that is unknown, leaves the entity pointing to the new block. *)
Theorem dispatch_sets_geometry drawing d ucs override :
  let name := new_anonymous_block_name drawing in
  let out := Dimension.dispatch default_dimension_text_style LINEWEIGHT_BYBLOCK
     MTEXT_ALIGN_FLAGS ARROWS_contains ARROWS_has_extension_line
     ARROWS_ORIGIN_ZERO ARROWS_oblique connection_point format_f xround
     suppress_zeros raise_decimals new_anonymous_block_name
     drawing d ucs override in
  fst out = name /\
  dxf_geometry (dimension (snd (snd out))) = Some name.
Proof.
  intros name out. split; [reflexivity|].
  unfold out, Dimension.dispatch. cbn [snd].
  repeat match goal with
         | |- context [if ?c then _ else _] => destruct c
         end;
    try reflexivity.
  match goal with
  | |- context [Dimension.linear _ _ _ _ _ _ _ _ _ _ _ _ ?dwg ?u ?o ?s] =>
      destruct (orderly_linear dwg u o s) as [_ (_&_&_&_&_&_&_&_&_&H)]
  end.
  exact H.
Qed.
(** *** The entities that a render call draws *)



Lemma magnitude_vsub_same p : magnitude (vsub p p) = 0.
Proof.
  unfold magnitude, vsub. simpl.
  replace ((vx p - vx p) * (vx p - vx p) + (vy p - vy p) * (vy p - vy p)
           + (vz p - vz p) * (vz p - vz p)) with 0 by ring.
  apply sqrt_0.
Qed.

(** X19. A measurement point that lies on the dimension line breaks the
    rendering: the extension line from the point to the dimension line
    has no direction, and unless that extension line is suppressed the
    call ends in a [ZeroDivisionError]; the entity is left as the
    constructor has made it. *)
Theorem linear_measurement_point_on_line drawing ucs override s self s1 :
  LinearDimension_init drawing ucs override s = (Ok self, s1) ->
  suppress_ext1_line (base self) = false ->
  Dimension.dim_line_start self = ext1_line_start self ->
  exists s',
    linear drawing ucs override s = (Raise ZeroDivisionError, s') /\
    dimension s' = dimension s1.
Proof.
  intros Hinit Hsup Hon.
  unfold Dimension.linear. rewrite (mbind_eq _ _ _ _ _ Hinit).
  pose proof Hinit as Hinv.
  apply LinearDimension_init_inv in Hinv
    as (_ & _ & _ & _ & _ & _ & _ & _ & _ & _ & _ & Hcase).
  unfold Dimension.render.
  match goal with
  | |- exists s', mbind' ?m ?k s1 = _ /\ _ =>
      assert (Ht : exists s2, m s1 = (Ok tt, s2) /\ dimension s2 = dimension s1)
  end.
  { cbv zeta in Hcase. revert Hcase.
    destruct (String.eqb (Dimension.text self) EmptyString) eqn:Etext;
      intros Hcase.
    - exists s1. split; reflexivity.
    - destruct Hcase as (_ & loc & _ & Hloc & Hbox). rewrite Hloc, Hbox.
      match goal with
      | |- exists s2, ?m s1 = _ /\ _ =>
          assert (Hk : keeps_dimension m) by keeps;
          assert (Hr : returns m s1)
      end.
      { apply returns_bind; [keeps|apply total_add_measurement_text|].
        intros a s2 _. apply total_when.
        destruct (corners (TextBox_init _ _ _ _ _)) as [[[c0 c1] c2] c3].
        apply total_add_leader. }
      destruct Hr as ([] & s2 & Hr). exists s2. split; [exact Hr|].
      specialize (Hk s1). rewrite Hr in Hk. exact Hk. }
  destruct Ht as (s2 & Ht & Hd). rewrite (mbind_eq _ _ _ _ _ Ht).
  rewrite Hsup. exists s2. split; [|exact Hd].
  unfold mbind', lift, extension_line_points.
  rewrite Hon, (normalize_zero _ _ (magnitude_vsub_same _)). reflexivity.
Qed.
(** *** Arrows and the ends of the dimension line *)

(** The attributes of the arrows. *)
Definition arrow_attribs (b : DimensionBase) : attribs :=
<["color" := AInt (dim_line_color b)]> ∅.

(** X20. With a tick size ([dimtsz]) above zero the constructor leaves
    both arrow names unset, and [add_arrows] draws two oblique strokes
    of twice the tick size at the two ends of the dimension line, as
    they are given and turned by the angle of the dimension line.  The
    ends come back unchanged, and nothing else is drawn, also when the
    arrows are to go outside. *)
Theorem add_arrows_ticks drawing drawing' ucs override d self start end_
    outside s :
  base self =
    DimensionBase_attributes default_dimension_text_style LINEWEIGHT_BYBLOCK
      drawing' ucs override d ->
  tick_size (base self) > 0 ->
  (outside = true -> magnitude (vsub end_ start) <> 0) ->
  let b := base self in
  arrow1_name b = None /\ arrow2_name b = None /\
  add_arrows ARROWS_contains ARROWS_ORIGIN_ZERO ARROWS_oblique connection_point
    drawing self start end_ outside s =
  (Ok (start, end_),
   mkState (dimension s)
     (block s ++
      [Arrow ARROWS_oblique start (dim_line_angle self) (tick_size b * 2)
         (arrow_attribs b);
       Arrow ARROWS_oblique end_ (dim_line_angle self) (tick_size b * 2)
         (arrow_attribs b)])%list).
Proof.
  intros Hb Htick Hout b.
  assert (Hgt : Rgtb (tick_size b) 0 = true) by (apply Rgtb_true; exact Htick).
  assert (Hn : arrow1_name b = None /\ arrow2_name b = None).
  { unfold b in *. rewrite Hb in *.
    cbn [arrow1_name arrow2_name tick_size DimensionBase_attributes] in *.
    rewrite Hgt. split; reflexivity. }
  destruct Hn as [Hn1 Hn2]. split; [exact Hn1|]. split; [exact Hn2|].
  unfold add_arrows. fold b. rewrite Hgt.
  unfold mbind', add_entity, ret. cbn [dimension block].
  destruct outside.
  - unfold lift. rewrite (normalize_Ok _ _ (Hout eq_refl)).
    rewrite Hn1, Hn2. cbn [has_arrow_extension when]. unfold ret.
    rewrite <- app_assoc. reflexivity.
  - rewrite <- app_assoc. reflexivity.
Qed.

(** X21. Arrows of the registry.  Between the extension lines the first
    arrow is turned by the angle of the dimension line plus 180 degrees
    and the second by the angle itself, and the dimension line is to
    run between the connection points of the two arrows.  Outside, on
    a dimension line with two different ends, the two rotations are
    exchanged, the ends of the dimension line stay, and each arrow that
    is not in [ORIGIN_ZERO] gets a line of the length of the arrow, one
    arrow size away from its end of the dimension line, while an arrow
    in [ORIGIN_ZERO] gets none; these lines go to the block as they are,
    after both arrows and the one of the first arrow first, with the
    color as their only attribute. *)
Theorem add_arrows_registered drawing self start end_ n1 n2 s :
  let b := base self in
  Rgtb (tick_size b) 0 = false ->
  arrow1_name b = Some n1 -> arrow2_name b = Some n2 ->
  ARROWS_contains n1 = true -> ARROWS_contains n2 = true ->
  let angle := dim_line_angle self in
  let size := arrow_size b in
  let add_arrows :=
    add_arrows ARROWS_contains ARROWS_ORIGIN_ZERO ARROWS_oblique
      connection_point drawing self start end_ in
  add_arrows false s =
    (Ok (connection_point n1 start size (angle + 180),
         connection_point n2 end_ size angle),
     mkState (dimension s)
       (block s ++
        [ArrowBlockRef n1 start size (angle + 180) (Some (arrow_attribs b));
         ArrowBlockRef n2 end_ size angle (Some (arrow_attribs b))])%list) /\
  (magnitude (vsub end_ start) <> 0 ->
   let v := vscale (vsub end_ start) (size / magnitude (vsub end_ start)) in
   magnitude v = Rabs size /\
   add_arrows true s =
     (Ok (start, end_),
      mkState (dimension s)
        (block s ++
         [ArrowBlockRef n1 start size angle (Some (arrow_attribs b));
          ArrowBlockRef n2 end_ size (angle + 180) (Some (arrow_attribs b))] ++
         (if ARROWS_ORIGIN_ZERO n1 then []
          else [Line (vsub start v) (vsub (vsub start v) v) (arrow_attribs b)]) ++
         (if ARROWS_ORIGIN_ZERO n2 then []
          else [Line (vadd end_ v) (vadd (vadd end_ v) v) (arrow_attribs b)]))%list)).
Proof.
  intros b Htick Hn1 Hn2 Hc1 Hc2 angle size add.
  unfold add, add_arrows. fold b. rewrite Htick, Hn1, Hn2. split.
  - cbn [add_arrow_blockref default]. unfold add_blockref. rewrite Hc1, Hc2.
    unfold mbind', add_entity, ret. cbn [dimension block].
    rewrite <- app_assoc. reflexivity.
  - intros Hm. cbv zeta. split; [apply magnitude_normalized; exact Hm|].
    cbn [add_arrow_blockref default]. unfold add_blockref. rewrite Hc1, Hc2.
    unfold mbind', add_entity, ret, lift. cbn [dimension block].
    rewrite (normalize_Ok _ _ Hm).
    cbn [has_arrow_extension]. rewrite Hc1, Hc2.
    destruct (ARROWS_ORIGIN_ZERO n1), (ARROWS_ORIGIN_ZERO n2);
      cbn [negb andb when]; unfold add_entity, ret; cbn [dimension block];
      rewrite <- ?app_assoc; cbn [app]; rewrite ?app_nil_r; reflexivity.
Qed.

(** X22. An arrow name that is neither in the registry nor the name of
    a block of the drawing makes [add_arrows] raise
    [DXFUndefinedBlockError] with the name in the message; no arrow has
    been drawn by then. *)
Theorem add_arrows_undefined_block drawing self start end_ outside n1 s :
  let b := base self in
  Rgtb (tick_size b) 0 = false ->
  arrow1_name b = Some n1 ->
  ARROWS_contains n1 = false ->
  n1 ∉ blocks drawing ->
  add_arrows ARROWS_contains ARROWS_ORIGIN_ZERO ARROWS_oblique connection_point
    drawing self start end_ outside s =
  (Raise (DXFUndefinedBlockError ("Undefined block: " ++ quoted n1)), s).
Proof.
  intros b Htick Hn1 Hc1 Hblock.
  unfold add_arrows. fold b. rewrite Htick, Hn1.
  destruct outside; cbn [add_arrow_blockref]; unfold add_blockref;
    rewrite Hc1, (bool_decide_eq_false_2 _ Hblock); reflexivity.
Qed.

(** X23. The extension of the dimension line beyond the extension lines
    ([dimdle]) is a truth value in the renderer: with ticks as arrows
    and any [dimdle] other than zero the dimension line is drawn exactly
    one unit longer at each end, whatever the value of [dimdle]. *)
Theorem dimension_line_extension_is_one_unit drawing ucs override d self
    start end_ v s :
  base self =
    DimensionBase_attributes default_dimension_text_style LINEWEIGHT_BYBLOCK
      drawing ucs override d ->
  dimdle (dim_style (base self)) = Some v -> v <> 0 ->
  tick_size (base self) > 0 ->
  text_box self = None ->
  magnitude (vsub end_ start) <> 0 ->
  let b := base self in
  let unit := vscale (vsub end_ start) (1 / magnitude (vsub end_ start)) in
  magnitude unit = 1 /\
  exists attribs,
    add_dimension_line self start end_ s =
    (Ok tt,
     mkState (dimension s)
       (block s ++
        [Line (wcs b (vsub start unit)) (wcs b (vadd end_ unit)) attribs])%list).
Proof.
  intros Hb Hdle Hv Htick Hbox Hm b unit.
  split; [unfold unit; rewrite magnitude_normalized by exact Hm;
          apply Rabs_pos_eq; lra|].
  assert (Hgt : Rgtb (tick_size b) 0 = true) by (apply Rgtb_true; exact Htick).
  assert (Hflags : dim_line_extension b = true /\
                   arrow1_name b = None /\ arrow2_name b = None).
  { unfold b in *. rewrite Hb in *.
    cbn [dim_line_extension arrow1_name arrow2_name tick_size dim_style
         DimensionBase_attributes] in *.
    rewrite Hgt, Hdle. cbn [from_option]. change (Datatypes.id v) with v.
    rewrite (bool_of_R_true _ Hv).
    repeat split. }
  destruct Hflags as (Hext & Hn1 & Hn2).
  rewrite (add_dimension_line_unfold _ _ _ _ Hm). cbv zeta. fold b. fold unit.
  rewrite Hext, Hn1, Hn2, Hbox. cbn [extends_dimension_line].
  replace (vscale unit 1) with unit by (apply Vector_eq; simpl; ring).
  rewrite add_line_eq. eexists. reflexivity.
Qed.

(** *** The order of the entities *)






(** *** A dimension without length *)

(** X26. A dimension whose two measurement points have the same foot on
    the dimension line (the way from one to the other is at a right
    angle to the dimension line, or the points are the same) measures
    zero, and when it has a text to place and the user has not placed
    it, the constructor ends in a [ZeroDivisionError], whatever the
    [dimjust]: the location of the text needs the direction of a
    dimension line that has none.  Nothing has been drawn by then. *)
Theorem LinearDimension_init_zero_measurement drawing ucs override s t :
  let b := DimensionBase_attributes default_dimension_text_style
             LINEWEIGHT_BYBLOCK drawing ucs override (dimension s) in
  let d := dimension s in
  let a := radians (default 0 (dxf_angle d)) in
  (vx (dxf_defpoint3 d) - vx (dxf_defpoint2 d)) * cos a
  + (vy (dxf_defpoint3 d) - vy (dxf_defpoint2 d)) * sin a = 0 ->
  user_location_override b = false ->
  fst (text_override b (0 * dim_measurement_factor b) s) = Ok t ->
  t <> EmptyString ->
  exists s',
    LinearDimension_init drawing ucs override s = (Raise ZeroDivisionError, s') /\
    block s' = block s.
Proof.
  intros b d a Hperp Hover Htext Hne.
  set (angle := default 0 (dxf_angle d)).
  set (start := foot (dxf_defpoint d) (dxf_defpoint2 d) angle).
  set (end_ := foot (dxf_defpoint d) (dxf_defpoint3 d) angle).
  assert (Hmag : magnitude (vsub end_ start) = 0).
  { unfold start, end_, angle. rewrite foot_difference. fold a.
    rewrite magnitude_scale_unit, Hperp. apply Rabs_R0. }
  assert (Hrev : magnitude (vsub start end_) = 0).
  { rewrite <- Hmag. unfold magnitude, vsub. simpl. f_equal. ring. }
  unfold Dimension.LinearDimension_init.
  rewrite (mbind_eq _ _ _ _ _ (DimensionBase_init_eq _ _ _ _)).
  fold b.
  set (d0 := if requires_extrusion b
             then set_extrusion (uz (Dimension.ucs b)) (dimension s)
             else dimension s).
  set (s0 := mkState d0 (block s)).
  unfold mbind' at 1, get_dimension at 1. cbv beta iota zeta.
  change (dimension s0) with d0.
  assert (Hd2 : dxf_defpoint2 d0 = dxf_defpoint2 d)
    by (unfold d0; destruct (requires_extrusion b); reflexivity).
  assert (Hd3 : dxf_defpoint3 d0 = dxf_defpoint3 d)
    by (unfold d0; destruct (requires_extrusion b); reflexivity).
  assert (Hd1 : dxf_defpoint d0 = dxf_defpoint d)
    by (unfold d0; destruct (requires_extrusion b); reflexivity).
  assert (Hang : dxf_angle d0 = dxf_angle d)
    by (unfold d0; destruct (requires_extrusion b); reflexivity).
  assert (Htxt : dxf_text d0 = dxf_text d)
    by (unfold d0; destruct (requires_extrusion b); reflexivity).
  rewrite Hd1, Hd2, Hd3, Hang. fold angle.
  rewrite Hover. cbn [andb].
  unfold mbind' at 1, ret at 1.
  rewrite !ray_intersect_perpendicular. fold start end_.
  unfold mbind' at 1, lift at 1.
  unfold mbind' at 1, lift at 1.
  unfold mbind' at 1, modify_dimension at 1.
  cbn [dimension block].
  set (s1 := mkState (set_defpoint start d0) (block s)).
  unfold mbind' at 1. rewrite text_override_state.
  rewrite (text_override_same_text _ _ s1 s) by (simpl; exact Htxt).
  rewrite Hmag, Htext.
  apply String.eqb_neq in Hne. rewrite Hne.
  unfold get_text_location. rewrite Hover.
  assert (Hortho : magnitude (orthogonal (vsub end_ start)) = 0)
    by (rewrite magnitude_orthogonal; exact Hmag).
  unfold mbind', lift, ret, modify_dimension.
  rewrite !(normalize_zero _ _ Hmag), !(normalize_zero _ _ Hrev),
    !(normalize_zero _ _ Hortho).
  destruct (text_halign b =? 1)%Z; [eexists; split; reflexivity|].
  destruct (text_halign b =? 2)%Z; [eexists; split; reflexivity|].
  destruct ((text_halign b =? 3)%Z || (text_halign b =? 4)%Z);
    eexists; split; reflexivity.
Qed.
(** *** When a render call returns *)

(** An arrow name that [add_blockref] accepts: an arrow of the registry
    or a block of the drawing. *)
Definition known_arrow (drawing : Drawing) (name : string) : Prop :=
  ARROWS_contains name = true \/ name ∈ blocks drawing.

Lemma add_blockref_returns drawing self name insert rotation scale attrs s :
  known_arrow drawing name ->
  exists s',
    add_blockref ARROWS_contains drawing self name insert rotation scale attrs s
    = (Ok tt, s') /\ dimension s' = dimension s.
Proof.
  intros Hname. unfold add_blockref.
  destruct (ARROWS_contains name) eqn:Hc; [eexists; split; reflexivity|].
  destruct Hname as [Hname|Hname]; [congruence|].
  rewrite (bool_decide_eq_true_2 _ Hname). cbn [negb].
  unfold mbind', default_attributes, get_dimension, ret, add_entity.
  eexists. split; reflexivity.
Qed.

(** What [add_arrows] returns: the ends as they are for ticks and for
    arrows outside, the connection points of the arrows else. *)
Lemma add_arrows_returns drawing self start end_ outside n1 n2 s :
  let b := base self in
  Rgtb (tick_size b) 0 = true \/
  (arrow1_name b = Some n1 /\ arrow2_name b = Some n2 /\
   known_arrow drawing n1 /\ known_arrow drawing n2) ->
  (outside = true -> magnitude (vsub end_ start) <> 0) ->
  exists s',
    add_arrows ARROWS_contains ARROWS_ORIGIN_ZERO ARROWS_oblique
      connection_point drawing self start end_ outside s =
    (Ok (if Rgtb (tick_size b) 0 || outside then (start, end_)
         else (connection_point n1 start (arrow_size b)
                 (dim_line_angle self + 180),
               connection_point n2 end_ (arrow_size b) (dim_line_angle self))),
     s') /\
    dimension s' = dimension s.
Proof.
  intros b Harrows Hout. unfold add_arrows. fold b.
  set (attribs := <["color" := AInt (dim_line_color b)]> (∅ : gmap string attr_value)).
  match goal with
  | |- exists s', mbind' ?m ?k s = _ /\ _ =>
      assert (Hfirst : exists s1,
                m s = (Ok (if Rgtb (tick_size b) 0 || outside then (start, end_)
                           else (connection_point n1 start (arrow_size b)
                                   (dim_line_angle self + 180),
                                 connection_point n2 end_ (arrow_size b)
                                   (dim_line_angle self))), s1) /\
                dimension s1 = dimension s)
  end.
  { destruct (Rgtb (tick_size b) 0) eqn:Htick.
    - eexists. split; reflexivity.
    - destruct Harrows as [Hcontra | (Hn1 & Hn2 & Hk1 & Hk2)]; [discriminate|].
      rewrite Hn1, Hn2. cbn [orb add_arrow_blockref from_option].
      destruct outside; cbv beta iota.
      + destruct (add_blockref_returns drawing b n1 start (dim_line_angle self)
                    (arrow_size b) (Some attribs) s Hk1) as (s1 & H1 & Hd1).
        destruct (add_blockref_returns drawing b n2 end_
                    (dim_line_angle self + 180) (arrow_size b) (Some attribs)
                    s1 Hk2) as (s2 & H2 & Hd2).
        rewrite (mbind_eq _ _ _ _ _ H1), (mbind_eq _ _ _ _ _ H2).
        exists s2. split; [reflexivity|congruence].
      + destruct (add_blockref_returns drawing b n1 start
                    (dim_line_angle self + 180) (arrow_size b) (Some attribs)
                    s Hk1) as (s1 & H1 & Hd1).
        destruct (add_blockref_returns drawing b n2 end_ (dim_line_angle self)
                    (arrow_size b) (Some attribs) s1 Hk2) as (s2 & H2 & Hd2).
        rewrite (mbind_eq _ _ _ _ _ H1), (mbind_eq _ _ _ _ _ H2).
        exists s2. split; [reflexivity|congruence]. }
  destruct Hfirst as (s1 & Hfirst & Hd1).
  rewrite (mbind_eq _ _ _ _ _ Hfirst).
  destruct outside.
  - rewrite orb_true_r. cbv beta iota.
    unfold mbind', lift. rewrite (normalize_Ok _ _ (Hout eq_refl)).
    destruct (has_arrow_extension _ _ (arrow1_name b)),
             (has_arrow_extension _ _ (arrow2_name b));
      eexists; (split; [reflexivity|exact Hd1]).
  - rewrite orb_false_r. destruct (Rgtb (tick_size b) 0);
      eexists; (split; [reflexivity|exact Hd1]).
Qed.

(** X27. A render call returns whenever nothing stands in its way: the
    text, if there is one, has its location and its box; each extension
    line is suppressed or has a measurement point that is not on the
    dimension line; the arrows are ticks, or arrows that the registry or
    the drawing knows; the ends of the dimension line, as the arrows
    leave them, differ; and the entity has a text midpoint to
    transform. *)
Theorem render_returns_when drawing self s n1 n2 p :
  let b := base self in
  let start := Dimension.dim_line_start self in
  let end_ := Dimension.dim_line_end self in
  (Dimension.text self = EmptyString \/
   exists loc tb, text_location self = Some loc /\ text_box self = Some tb) ->
  (suppress_ext1_line b = true \/
   magnitude (vsub start (ext1_line_start self)) <> 0) ->
  (suppress_ext2_line b = true \/
   magnitude (vsub end_ (ext2_line_start self)) <> 0) ->
  (Rgtb (tick_size b) 0 = true \/
   (arrow1_name b = Some n1 /\ arrow2_name b = Some n2 /\
    known_arrow drawing n1 /\ known_arrow drawing n2)) ->
  (let ends :=
     if Rgtb (tick_size b) 0 || arrows_outside self then (start, end_)
     else (connection_point n1 start (arrow_size b) (dim_line_angle self + 180),
           connection_point n2 end_ (arrow_size b) (dim_line_angle self)) in
   magnitude (vsub (snd ends) (fst ends)) <> 0) ->
  dxf_text_midpoint (dimension s) = Some p ->
  exists s', render drawing self s = (Ok tt, s').
Proof.
  intros b start end_ Htext Hext1 Hext2 Harrows Hends Hp.
  assert (Hext : forall sup from to linetype s0,
            sup = true \/ magnitude (vsub to from) <> 0 ->
            returns
              (if sup : bool then ret tt
               else mbind' (lift (extension_line_points b from to))
                      (fun ends => let '(a, e) := ends in
                                   add_extension_line b a e linetype)) s0).
  { intros sup from to linetype s0 [-> | Hm]; [apply total_ret|].
    destruct sup; [apply total_ret|].
    unfold returns, mbind', lift, extension_line_points.
    rewrite (normalize_Ok _ _ Hm). cbn [bind].
    apply total_add_extension_line. }
  enough (Hr : returns (render drawing self) s).
  { destruct Hr as ([] & s' & Hr). exists s'. exact Hr. }
  unfold Dimension.render. fold b start end_.
  apply returns_bind; [keeps| |].
  { destruct Htext as [-> | (loc & tb & -> & ->)]; [apply total_ret|].
    destruct (String.eqb (Dimension.text self) EmptyString); [apply total_ret|].
    apply returns_bind; [keeps|apply total_add_measurement_text|].
    intros a s1 _. apply total_when.
    destruct (corners tb) as [[[c0 c1] c2] c3]. apply total_add_leader. }
  intros _ s1 H1. apply returns_bind; [keeps|apply Hext; exact Hext1|].
  intros _ s2 H2. apply returns_bind; [keeps|apply Hext; exact Hext2|].
  intros _ s3 H3.
  destruct (add_arrows_returns drawing self start end_ (arrows_outside self)
              n1 n2 s3 Harrows) as (s4 & Hrun & H4).
  { intros Hout. fold b in Hends. rewrite Hout, orb_true_r in Hends. exact Hends. }
  fold b in Hrun. unfold returns. rewrite (mbind_eq _ _ _ _ _ Hrun).
  set (ends := if Rgtb (tick_size b) 0 || arrows_outside self then _ else _) in *.
  destruct ends as [a e] eqn:Eends. cbn [fst snd] in Hends.
  apply returns_bind; [keeps|by apply add_dimension_line_returns|].
  intros _ s5 H5. apply returns_bind; [keeps|apply total_add_defpoints|].
  intros _ s6 H6. apply (defpoints_to_wcs_returns _ _ p). congruence.
Qed.

(** *** The ends of an extension line *)

(** X28. An extension line without fixed length ([dimexfix] off), from a
    measurement point to a different point of the dimension line: it
    starts [dimexo] after the measurement point and ends [dimexe] after
    the dimension line, both measured along the line, so that it is the
    distance of the two points plus [dimexe] minus [dimexo] long. *)
Theorem extension_line_offset_lengths self start end_ :
  magnitude (vsub end_ start) <> 0 ->
  ext_line_fixed self = false ->
  let unit := vscale (vsub end_ start) (1 / magnitude (vsub end_ start)) in
  exists start' end',
    extension_line_points self start end_ = Ok (start', end') /\
    vsub start' start = vscale unit (ext_line_offset self) /\
    vsub end' end_ = vscale unit (ext_line_extension self) /\
    magnitude unit = 1 /\
    magnitude (vsub start' start) = Rabs (ext_line_offset self) /\
    magnitude (vsub end' end_) = Rabs (ext_line_extension self) /\
    magnitude (vsub end' start') =
      Rabs (magnitude (vsub end_ start) + ext_line_extension self
            - ext_line_offset self).
Proof.
  intros Hm Hfixed unit.
  assert (Hunit : magnitude unit = 1).
  { unfold unit. rewrite magnitude_normalized by exact Hm.
    apply Rabs_pos_eq. lra. }
  unfold extension_line_points. rewrite (normalize_Ok _ _ Hm), Hfixed.
  cbn [bind]. fold unit. eexists _, _. split; [reflexivity|].
  rewrite !vsub_vadd.
  split; [reflexivity|]. split; [reflexivity|]. split; [exact Hunit|].
  split; [rewrite magnitude_vscale, Hunit; ring|].
  split; [rewrite magnitude_vscale, Hunit; ring|].
  replace (vsub (vadd end_ (vscale unit (ext_line_extension self)))
             (vadd start (vscale unit (ext_line_offset self))))
    with (vscale unit (magnitude (vsub end_ start) + ext_line_extension self
                       - ext_line_offset self)).
  - rewrite magnitude_vscale, Hunit. ring.
  - unfold unit. apply Vector_eq; unfold vsub, vadd, vscale; simpl; field;
      exact Hm.
Qed.

(** *** The measurement points after rendering *)

(** X29. After a linear render that returns, the two measurement points
    of the entity, [defpoint2] and [defpoint3], are what they were,
    transformed to world coordinates by the UCS; without a UCS they are
    exactly what they were. *)
Theorem linear_transforms_measurement_points drawing ucs override s s' :
  linear drawing ucs override s = (Ok tt, s') ->
  let U := default PassTroughUCS ucs in
  dxf_defpoint2 (dimension s') = to_wcs U (dxf_defpoint2 (dimension s)) /\
  dxf_defpoint3 (dimension s') = to_wcs U (dxf_defpoint3 (dimension s)) /\
  (ucs = None ->
   dxf_defpoint2 (dimension s') = dxf_defpoint2 (dimension s) /\
   dxf_defpoint3 (dimension s') = dxf_defpoint3 (dimension s)).
Proof.
  intros Hrun U. unfold Dimension.linear in Hrun.
  apply mbind_Ok in Hrun as (self & s1 & Hinit & Hrender).
  apply render_Ok in Hrender as (s2 & Hs2 & Hlast).
  apply defpoints_to_wcs_Ok in Hlast as (_ & _ & _ & _ & H2 & H3 & _).
  rewrite Hs2 in H2, H3.
  apply LinearDimension_init_inv in Hinit
    as (origin & _ & Hb & _ & _ & _ & _ & _ & _ & _ & _ & Hstate).
  cbv zeta in Hstate. rewrite <- Hb in Hstate.
  assert (HU : Dimension.ucs (base self) = U) by (rewrite Hb; reflexivity).
  unfold wcs in H2, H3. rewrite HU in H2, H3.
  set (d0 := if requires_extrusion (base self)
             then set_extrusion (uz (Dimension.ucs (base self))) (dimension s)
             else dimension s) in *.
  assert (Hd2 : dxf_defpoint2 d0 = dxf_defpoint2 (dimension s))
    by (unfold d0; destruct (requires_extrusion (base self)); reflexivity).
  assert (Hd3 : dxf_defpoint3 d0 = dxf_defpoint3 (dimension s))
    by (unfold d0; destruct (requires_extrusion (base self)); reflexivity).
  assert (Hsame : dxf_defpoint2 (dimension s1) = dxf_defpoint2 (dimension s) /\
                  dxf_defpoint3 (dimension s1) = dxf_defpoint3 (dimension s)).
  { destruct (String.eqb (Dimension.text self) EmptyString).
    - destruct Hstate as (-> & _). cbn [dimension]. split; assumption.
    - destruct Hstate as (_ & loc & Hloc & _).
      apply get_text_location_Ok in Hloc as (_ & Hloc).
      cbn [dimension] in Hloc.
      destruct (user_location_override (base self)).
      + rewrite Hloc. split; assumption.
      + destruct Hloc as (auto & -> & _). split; assumption. }
  destruct Hsame as [E2 E3]. rewrite E2 in H2. rewrite E3 in H3.
  split; [exact H2|]. split; [exact H3|].
  intros ->. split; [exact H2|exact H3].
Qed.


(** *** Text aligned with an extension line *)

(** X30. With [dimjust] 3 the text is aligned with the first extension
    line and with [dimjust] 4 with the second: the point stored as
    [text_midpoint] lies on the line through start and end, the text
    gap plus half the text height times [vertical_factor] away from
    that end of the dimension line, in the direction from the end to
    the start in both cases; with [dimtad] 0 it is the end of the
    dimension line itself.  The text is placed the text gap plus the
    arrow size plus half the text width away from the stored point, at
    a right angle to the dimension line. *)
Theorem get_text_location_aligned self start end_ width outside s :
  user_location_override self = false ->
  text_halign self = 3%Z \/ text_halign self = 4%Z ->
  magnitude (vsub end_ start) <> 0 ->
  let anchor := if (text_halign self =? 3)%Z then start else end_ in
  let dist := text_gap self + text_height self / 2 in
  let offset := text_gap self + arrow_size self + width / 2 in
  let along := vsub end_ start in
  exists stored loc,
    get_text_location self start end_ width outside s =
      (Ok loc, mkState (set_text_midpoint stored (dimension s)) (block s)) /\
    vsub stored anchor =
      vscale (vsub start end_) (dist * vertical_factor self / magnitude along) /\
    magnitude (vsub stored anchor) = Rabs (dist * vertical_factor self) /\
    magnitude (vsub loc stored) = Rabs offset /\
    vx (vsub loc stored) * vx along + vy (vsub loc stored) * vy along = 0 /\
    cross2 along (vsub loc stored) * magnitude along =
      offset * (vx along * vx along + vy along * vy along) /\
    (text_valign self = 0%Z -> stored = anchor).
Proof.
  intros Huser Hh Hm anchor dist offset along.
  assert (Hmo : magnitude (orthogonal along) <> 0)
    by (rewrite magnitude_orthogonal; exact Hm).
  assert (Hrev : magnitude (vsub start end_) = magnitude along).
  { unfold along, magnitude, vsub. simpl. f_equal. ring. }
  assert (Hm' : magnitude (vsub start end_) <> 0) by (rewrite Hrev; exact Hm).
  assert (Hstored : forall a,
    vsub (vadd a (vscale (vscale (vsub start end_)
                            (dist / magnitude (vsub start end_)))
                    (vertical_factor self))) a =
    vscale (vsub start end_) (dist * vertical_factor self / magnitude along)).
  { intros a. rewrite vsub_vadd, Hrev.
    apply Vector_eq; unfold vscale; simpl; field; exact Hm. }
  assert (Hzero : text_valign self = 0%Z -> forall a,
    vadd a (vscale (vscale (vsub start end_)
                      (dist / magnitude (vsub start end_)))
              (vertical_factor self)) = a).
  { intros Hv a. unfold vertical_factor. rewrite Hv. cbn [Z.eqb].
    apply Vector_eq; unfold vadd, vscale; simpl; ring. }
  unfold get_text_location. rewrite Huser.
  unfold anchor.
  destruct Hh as [Hh|Hh]; rewrite Hh; cbn [Z.eqb Pos.eqb orb];
    unfold mbind', ret, modify_dimension, lift; fold along;
    rewrite (normalize_Ok _ _ Hm'), (normalize_Ok _ _ Hmo);
    fold dist; fold offset;
    (eexists _, _; split; [reflexivity|]);
    rewrite Hstored, vsub_vadd;
    (split; [reflexivity|]);
    (split; [rewrite <- Hrev; unfold Rdiv;
             replace (dist * vertical_factor self * / magnitude (vsub start end_))
               with (dist * vertical_factor self / magnitude (vsub start end_))
               by reflexivity;
             apply magnitude_normalized; exact Hm'|]);
    (split; [apply magnitude_normalized; exact Hmo|]);
    (split; [unfold orthogonal, vscale; simpl; ring|]);
    (split; [rewrite magnitude_orthogonal; unfold cross2, orthogonal, vscale;
             simpl; field; exact Hm|]);
    intros Hv; apply (Hzero Hv).
Qed.


(** *** The constructor for every [dimjust] *)



End Externals.

(** *** Closed instances *)

(** The renderer with sample values for what lies outside of it. *)
Module Sample.

Definition drawing : Drawing :=
mkDrawing "AC1015" (fun _ => mkStyle None None) ∅.

(** Numbers are written with the nearest integer in front of a
    fraction of zeros. *)
Definition format_f (prec : nat) (x : R) : string :=
str_of_Z (up (x - / 2)) ++
match prec with
| O => EmptyString
| _ => String "." (zeros prec)
end.

Definition text_override :=
  Dimension.text_override format_f (fun x _ => x) FormatText.suppress_zeros
    (fun s => s).

Definition LinearDimension_init :=
  Dimension.LinearDimension_init "Standard" (-2)%Z format_f (fun x _ => x)
    FormatText.suppress_zeros (fun s => s) drawing None None.

End Sample.

(** A dimension with a text of its own, "10 mm", along the x axis. *)
Definition labelled (ds : DimStyle) : DimensionEntity :=
sample_dimension 0 "10 mm" ds
  (mkVector 0 0 0) (mkVector 0 0 0) (mkVector 10 0 0).

Lemma PassTroughUCS_no_extrusion :
  vector_eqb (uz PassTroughUCS) (mkVector 0 0 1) = true.
Proof.
  unfold vector_eqb. simpl.
  destruct (Req_dec_T 0 0); [|contradiction].
  destruct (Req_dec_T 1 1); [reflexivity|contradiction].
Qed.

(** The constructor returns for the dimensions along the x axis that
    are used as samples below, whatever their text. *)
Lemma x_axis_init_Ok text ds t :
  let d := sample_dimension 0 text ds
             (mkVector 0 0 0) (mkVector 0 0 0) (mkVector 10 0 0) in
  let b := DimensionBase_attributes "Standard" (-2)%Z Sample.drawing None None d in
  dimjust ds = None ->
  fst (Sample.text_override b (10 * default 1 (dimlfac ds)) (mkState d [])) = Ok t ->
  exists self s',
    Sample.LinearDimension_init (mkState d []) = (Ok self, s') /\
    Dimension.text self = t /\
    Dimension.dim_line_start self = mkVector 0 0 0 /\
    Dimension.dim_line_end self = mkVector 10 0 0 /\
    measurement self = 10 /\
    base self = b /\
    block s' = [] /\
    if String.eqb t EmptyString
    then text_box self = None /\ dimension s' = set_defpoint (mkVector 0 0 0) d
    else text_box self =
           Some (TextBox_init (mkVector 5 (text_vertical_distance b) 0)
                   (text_width b t) (text_height b)
                   (default 0 (text_rotation b)) (text_gap b * 0.99)) /\
         dimension s' =
           set_text_midpoint (mkVector 5 0 0)
             (set_defpoint (mkVector 0 0 0) d).
Proof.
  intros d b Hjust Htext.
  assert (Hm : magnitude (vsub (mkVector 10 0 0) (mkVector 0 0 0)) = 10).
  { replace (vsub (mkVector 10 0 0) (mkVector 0 0 0)) with (mkVector 10 0 0)
      by (apply Vector_eq; simpl; ring).
    apply magnitude_x. lra. }
  assert (Hmo : magnitude (orthogonal (vsub (mkVector 10 0 0) (mkVector 0 0 0)))
                = 10) by (rewrite magnitude_orthogonal; exact Hm).
  assert (Hext : requires_extrusion b = false).
  { unfold b. cbn [requires_extrusion DimensionBase_attributes default].
    rewrite PassTroughUCS_no_extrusion. reflexivity. }
  destruct (LinearDimension_init_Ok "Standard" (-2)%Z Sample.format_f
              (fun x _ => x) FormatText.suppress_zeros (fun s => s)
              Sample.drawing None None (mkState d []) t)
    as (self & s' & Hinit & Ht & Hs & He & Hmeas & Hb & _ & Hblock & Hrest).
  - reflexivity.
  - cbn. rewrite Hjust. reflexivity.
  - unfold d. cbn [dimension sample_dimension dxf_defpoint dxf_defpoint2
                   dxf_defpoint3 dxf_angle default].
    rewrite !foot_x_axis, Hm. lra.
  - unfold d. cbn [dimension sample_dimension dxf_defpoint dxf_defpoint2
                   dxf_defpoint3 dxf_angle default].
    rewrite !foot_x_axis, Hm. exact Htext.
  - cbv zeta in Hrest. cbn [dimension] in Hb, Hrest, Hblock.
    fold b in Hb, Hrest. rewrite Hext in Hrest.
    unfold d in Hs, He, Hmeas, Hrest.
    cbn [dimension sample_dimension dxf_defpoint dxf_defpoint2
         dxf_defpoint3 dxf_angle default] in Hs, He, Hmeas, Hrest.
    rewrite (foot_x_axis 0) in Hs, Hmeas, Hrest.
    rewrite (foot_x_axis 10) in He, Hmeas, Hrest.
    rewrite Hm in Hmeas. rewrite Hmo in Hrest. fold d in Hrest.
    exists self, s'. repeat (split; [assumption|]).
    assert (Hmid : lerp (mkVector 0 0 0) (mkVector 10 0 0) 0.5 = mkVector 5 0 0)
      by (apply Vector_eq; simpl; lra).
    assert (Hloc : vadd (lerp (mkVector 0 0 0) (mkVector 10 0 0) 0.5)
                     (vscale (orthogonal (vsub (mkVector 10 0 0) (mkVector 0 0 0)))
                        (text_vertical_distance b / 10))
                   = mkVector 5 (text_vertical_distance b) 0)
      by (apply Vector_eq; simpl; lra).
    rewrite Hloc, Hmid in Hrest.
    destruct (String.eqb t EmptyString); tauto.
Qed.



(** The witness of C1: the scenario of the specification under the
    default style. *)
Lemma measurement_is_distance_witness :
  exists self s',
    Sample.LinearDimension_init (mkState (scenario default_style) [])
      = (Ok self, s') /\
    0 <= measurement self /\
    measurement self =
      magnitude (vsub (Dimension.dim_line_end self)
                      (Dimension.dim_line_start self)) /\
    measurement self = 10 /\
    Dimension.dim_line_start self = mkVector 0 0 0 /\
    Dimension.dim_line_end self = mkVector 10 0 0.
Proof.
  destruct (x_axis_init_Ok EmptyString default_style _ eq_refl eq_refl)
    as (self & s' & Hinit & _).
  exists self, s'. split; [exact Hinit|].
  destruct (measurement_is_distance "Standard" (-2)%Z Sample.format_f
              (fun x _ => x) FormatText.suppress_zeros (fun s => s)
              Sample.drawing None None _ self s' Hinit)
    as (Hpos & Hdist & _ & _ & Hscenario).
  destruct (Hscenario default_style eq_refl) as (H10 & Hstart & Hend).
  auto 10.
Defined.

(** C1 as it is written fails when [dimlfac] is not 1: with
    [dimlfac = 2] in the scenario the ends of the dimension line are
    ten units apart and the distance times the factor is 20, but the
    measurement is 10. *)
Lemma measurement_without_dimlfac :
  exists self s',
    Sample.LinearDimension_init
      (mkState (scenario (with_dimlfac 2 default_style)) []) = (Ok self, s') /\
    dim_measurement_factor (base self) = 2 /\
    magnitude (vsub (Dimension.dim_line_end self)
                    (Dimension.dim_line_start self))
      * dim_measurement_factor (base self) = 20 /\
    measurement self = 10 /\
    measurement self <>
      magnitude (vsub (Dimension.dim_line_end self)
                      (Dimension.dim_line_start self))
      * dim_measurement_factor (base self).
Proof.
  destruct (x_axis_init_Ok EmptyString (with_dimlfac 2 default_style) _
              eq_refl eq_refl)
    as (self & s' & Hinit & _ & Hs & He & Hm & Hb & _).
  exists self, s'. split; [exact Hinit|].
  assert (Hf : dim_measurement_factor (base self) = 2)
    by (rewrite Hb; reflexivity).
  assert (Hd : magnitude (vsub (Dimension.dim_line_end self)
                               (Dimension.dim_line_start self)) = 10).
  { rewrite Hs, He.
    replace (vsub (mkVector 10 0 0) (mkVector 0 0 0)) with (mkVector 10 0 0)
      by (apply Vector_eq; simpl; ring).
    apply magnitude_x. lra. }
  rewrite Hf, Hd, Hm. repeat split; lra.
Qed.

(** On the sample dimension the text "10 mm" fits between the extension
    lines, and so do the arrows: neither flag is set. *)
Lemma placement_decisions_sample :
  exists self s',
    Sample.LinearDimension_init (mkState (labelled default_style) [])
      = (Ok self, s') /\
    Dimension.text self <> EmptyString /\
    text_outside self = false /\
    arrows_outside self = false.
Proof.
  destruct (x_axis_init_Ok "10 mm" default_style _ eq_refl eq_refl)
    as (self & s' & Hinit & Ht & _ & _ & Hm & Hb & _).
  exists self, s'. split; [exact Hinit|].
  assert (Htext : Dimension.text self <> EmptyString)
    by (rewrite Ht; discriminate).
  split; [exact Htext|].
  destruct (placement_decisions "Standard" (-2)%Z Sample.format_f
              (fun x _ => x) FormatText.suppress_zeros (fun s => s)
              Sample.drawing None None _ self s' Hinit Htext)
    as (Hout & Harrows & Hwidth & _).
  rewrite Hwidth, Ht, Hm, Hb in Hout. rewrite Hm, Hb in Harrows.
  cbn in Hout, Harrows.
  split.
  - destruct (text_outside self); [|reflexivity].
    destruct (proj1 Hout eq_refl) as [Hgt _]. unfold char_height in Hgt.
    cbn in Hgt. destruct (Req_dec_T 0 0); [|contradiction]. lra.
  - destruct (arrows_outside self); [|reflexivity].
    pose proof (proj1 Harrows eq_refl). lra.
Defined.

(** [add_dimension_line] with arrows that have no extension line. *)
Definition sample_add_dimension_line :=
  Dimension.add_dimension_line (fun _ => false).

Lemma from_deg_angle_0 l : from_deg_angle 0 l = mkVector l 0 0.
Proof.
  unfold from_deg_angle. rewrite radians_0, cos_0, sin_0.
  apply Vector_eq; simpl; ring.
Qed.

Lemma from_deg_angle_90 l : from_deg_angle (0 + 90) l = mkVector 0 l 0.
Proof.
  unfold from_deg_angle. rewrite radians_plus_90, radians_0, Rplus_0_l.
  rewrite cos_PI2, sin_PI2. apply Vector_eq; simpl; ring.
Qed.

Lemma TextBox_init_0 cx w h g :
  TextBox_init (mkVector cx 0 0) w h 0 g =
  mkTextBox (mkVector cx 0 0)
    (mkVector (cx - (w / 2 + g)) (- (h / 2 + g)) 0,
     mkVector (cx + (w / 2 + g)) (- (h / 2 + g)) 0,
     mkVector (cx + (w / 2 + g)) (h / 2 + g) 0,
     mkVector (cx - (w / 2 + g)) (h / 2 + g) 0).
Proof.
  unfold TextBox_init. rewrite from_deg_angle_0, from_deg_angle_90.
  f_equal. repeat f_equal; apply Vector_eq; simpl; ring.
Qed.

Lemma char_height_default ds :
  dimtxt ds = None -> char_height (mkStyle None None) ds = 1.
Proof.
  intros H. unfold char_height. simpl.
  destruct (Req_dec_T 0 0); [|contradiction]. rewrite H. reflexivity.
Qed.

Lemma Rgtb_0_0 : Rgtb 0 0 = false.
Proof. unfold Rgtb. destruct (Rgt_dec 0 0); [lra|reflexivity]. Qed.

Lemma magnitude_x_abs x : magnitude (mkVector x 0 0) = Rabs x.
Proof.
  unfold magnitude. simpl.
  replace (x * x + 0 * 0 + 0 * 0) with (Rsqr x) by (unfold Rsqr; ring).
  apply sqrt_Rsqr_abs.
Qed.

Lemma order_on_x_axis x1 x2 :
  0 <= x1 < x2 ->
  order (mkVector 0 0 0) (mkVector x1 0 0) (mkVector x2 0 0) =
  (mkVector x1 0 0, mkVector x2 0 0).
Proof.
  intros H. unfold order.
  replace (vsub (mkVector 0 0 0) (mkVector x1 0 0)) with (mkVector (- x1) 0 0)
    by (apply Vector_eq; simpl; ring).
  replace (vsub (mkVector 0 0 0) (mkVector x2 0 0)) with (mkVector (- x2) 0 0)
    by (apply Vector_eq; simpl; ring).
  rewrite !magnitude_x_abs, !Rabs_Ropp, !Rabs_pos_eq by lra.
  destruct (Rltb_true x1 x2) as [_ ->]; [reflexivity|lra].
Qed.

(** C5 as it is written fails when a part of the dimension line is
    suppressed: the text box of "10 mm" is met in the two points
    (1.88125, 0, 0) and (8.11875, 0, 0), and with [dimsd1 = 1] only the
    segment from the second point to the end is drawn. *)
Lemma suppressed_segment_is_not_drawn :
  exists self s',
    Sample.LinearDimension_init
      (mkState (labelled (with_dimsd1 1 default_style)) []) = (Ok self, s') /\
    (exists tb,
       text_box self = Some tb /\
       intersect tb (mkLine (mkVector 0 0 0) (mkVector 10 0 0)) =
         [mkVector 1.88125 0 0; mkVector 8.11875 0 0]) /\
    exists attribs,
      sample_add_dimension_line self (mkVector 0 0 0) (mkVector 10 0 0) s' =
      (Ok tt,
       mkState (dimension s')
         [Line (mkVector 8.11875 0 0) (mkVector 10 0 0) attribs]).
Proof.
  destruct (x_axis_init_Ok "10 mm" (with_dimsd1 1 default_style) "10 mm"
              eq_refl eq_refl)
    as (self & s' & Hinit & _ & _ & _ & _ & Hb & Hblock & Hbox & _).
  cbn [String.eqb Ascii.eqb Bool.eqb] in Hbox.
  set (b := DimensionBase_attributes _ _ _ _ _ _) in *.
  assert (Hh : text_height b = 1) by (apply char_height_default; reflexivity).
  assert (Hv : text_vertical_distance b = 0).
  { unfold text_vertical_distance, vertical_factor. cbn. ring. }
  assert (Hw : text_width b "10 mm" = 5).
  { unfold text_width. rewrite Hh. cbn. lra. }
  assert (Hg : text_gap b = 0.625) by reflexivity.
  assert (Hr : default 0 (text_rotation b) = 0) by reflexivity.
  rewrite Hv, Hw, Hh, Hg, Hr in Hbox.
  rewrite TextBox_init_0 in Hbox.
  exists self, s'. split; [exact Hinit|]. split.
  - eexists. split; [exact Hbox|].
    rewrite (intersect_through_box _ 5 (5 / 2 + 0.625 * 0.99)
               (1 / 2 + 0.625 * 0.99) 0 10) by lra.
    f_equal; [|f_equal]; apply Vector_eq; simpl; lra.
  - assert (Hm : magnitude (vsub (mkVector 10 0 0) (mkVector 0 0 0)) <> 0).
    { replace (vsub (mkVector 10 0 0) (mkVector 0 0 0)) with (mkVector 10 0 0)
        by (apply Vector_eq; simpl; ring).
      rewrite magnitude_x; lra. }
    unfold sample_add_dimension_line.
    rewrite (add_dimension_line_unfold _ _ _ _ _ Hm). cbv zeta.
    rewrite Hb, Hbox.
    assert (Ha1 : arrow1_name b = Some EmptyString)
      by (cbn; rewrite Rgtb_0_0; reflexivity).
    assert (Ha2 : arrow2_name b = Some EmptyString)
      by (cbn; rewrite Rgtb_0_0; reflexivity).
    rewrite Ha1, Ha2. cbn [extends_dimension_line].
    rewrite (intersect_through_box _ 5 (5 / 2 + 0.625 * 0.99)
               (1 / 2 + 0.625 * 0.99) 0 10) by lra.
    rewrite order_on_x_axis by lra.
    assert (Hs1 : suppress_dim1_line b = true)
      by (apply bool_of_R_true; simpl; lra).
    assert (Hs2 : suppress_dim2_line b = false) by apply bool_of_R_0.
    rewrite Hs1, Hs2. cbn [negb when]. unfold mbind', ret.
    rewrite add_line_eq, Hblock. eexists. cbn [app].
    f_equal. f_equal. f_equal. f_equal. apply Vector_eq; simpl; lra.
Qed.

(** The witness of C5: a dimension whose text is suppressed has no text
    box, and its dimension line is drawn in one piece. *)
Lemma dimension_line_segments_witness :
  exists self s' attribs,
    Sample.LinearDimension_init
      (mkState (sample_dimension 0 " " default_style (mkVector 0 0 0)
                  (mkVector 0 0 0) (mkVector 10 0 0)) []) = (Ok self, s') /\
    magnitude (vsub (mkVector 10 0 0) (mkVector 0 0 0)) <> 0 /\
    sample_add_dimension_line self (mkVector 0 0 0) (mkVector 10 0 0) s' =
    (Ok tt,
     mkState (dimension s')
       [Line (mkVector 0 0 0) (mkVector 10 0 0) attribs]).
Proof.
  destruct (x_axis_init_Ok " " default_style EmptyString eq_refl eq_refl)
    as (self & s' & Hinit & _ & _ & _ & _ & Hb & Hblock & Hbox & _).
  cbn [String.eqb] in Hbox.
  assert (Hm : magnitude (vsub (mkVector 10 0 0) (mkVector 0 0 0)) <> 0).
  { replace (vsub (mkVector 10 0 0) (mkVector 0 0 0)) with (mkVector 10 0 0)
      by (apply Vector_eq; simpl; ring).
    rewrite magnitude_x; lra. }
  destruct (dimension_line_segments (fun _ => false) self (mkVector 0 0 0)
              (mkVector 10 0 0) s' Hm) as (attribs & _ & Hone).
  cbv zeta in Hone. rewrite Hbox, Hb, Hblock in Hone.
  set (b := DimensionBase_attributes _ _ _ _ _ _) in *.
  assert (Ha1 : arrow1_name b = Some EmptyString)
    by (cbn; rewrite Rgtb_0_0; reflexivity).
  assert (Ha2 : arrow2_name b = Some EmptyString)
    by (cbn; rewrite Rgtb_0_0; reflexivity).
  rewrite Ha1, Ha2 in Hone. cbn [extends_dimension_line app] in Hone.
  exists self, s', attribs. split; [exact Hinit|]. split; [exact Hm|].
  apply Hone. simpl. lia.
Defined.

(** The renderer for linear dimensions with every arrow name in the
    registry and connection points at the ends of the dimension line. *)
Definition sample_linear :=
  Dimension.linear "Standard" (-2)%Z (fun _ => None) (fun _ => true)
    (fun _ => false) (fun _ => false) "OBLIQUE" (fun _ p _ _ => p)
    Sample.format_f (fun x _ => x) FormatText.suppress_zeros (fun s => s)
    Sample.drawing None None.

(** The sample dimension can be rendered. *)
Lemma sample_linear_returns :
  exists s',
    sample_linear (mkState (labelled (with_dimse 1 1 default_style)) [])
    = (Ok tt, s').
Proof.
  destruct (x_axis_init_Ok "10 mm" (with_dimse 1 1 default_style) "10 mm"
              eq_refl eq_refl)
    as (self & s1 & Hinit & Ht & Hs & He & Hm & Hb & Hblock & Hbox & Hdim).
  cbn [String.eqb Ascii.eqb Bool.eqb] in Hbox, Hdim.
  pose proof Hinit as Hinv.
  apply LinearDimension_init_inv in Hinv
    as (_ & _ & _ & _ & He1 & He2 & _ & _ & _ & _ & Harrows & Hrest).
  cbv zeta in Hrest. rewrite Ht in Hrest.
  cbn [String.eqb Ascii.eqb Bool.eqb] in Hrest.
  destruct Hrest as (_ & loc & _ & Hloc & _).
  set (b := DimensionBase_attributes _ _ _ _ _ _) in *.
  assert (Hout : arrows_outside self = false).
  { rewrite Harrows, Hm. unfold Rgtb.
    destruct (Rgt_dec _ _) as [H|H]; [|reflexivity]. cbn in H. lra. }
  unfold sample_linear, Dimension.linear. rewrite (mbind_eq _ _ _ _ _ Hinit).
  destruct (render_returns (fun _ => None) (fun _ => true) (fun _ => false)
              (fun _ => false) "OBLIQUE" (fun _ p _ _ => p) Sample.drawing
              self s1 loc _ EmptyString EmptyString (mkVector 5 0 0)
              Hloc Hbox) as ([] & s' & Hrender).
  - rewrite Hb. apply bool_of_R_true. simpl. lra.
  - rewrite Hb. apply bool_of_R_true. simpl. lra.
  - rewrite Hb. apply Rgtb_0_0.
  - rewrite Hb. cbn. rewrite Rgtb_0_0. reflexivity.
  - rewrite Hb. cbn. rewrite Rgtb_0_0. reflexivity.
  - reflexivity.
  - reflexivity.
  - exact Hout.
  - rewrite Hs, He.
    replace (vsub (mkVector 10 0 0) (mkVector 0 0 0)) with (mkVector 10 0 0)
      by (apply Vector_eq; simpl; ring).
    rewrite magnitude_x; lra.
  - rewrite Hdim. reflexivity.
  - exists s'. exact Hrender.
Qed.

(** ** [TextBox.intersect] *)

(** *** The set and the order of the points *)

(** vector_eqb decides equality. *)
Lemma vector_eqb_eq p q : vector_eqb p q = true <-> p = q.
Proof.
  split.
  - unfold vector_eqb.
    destruct (Req_dec_T (vx p) (vx q)); [|discriminate].
    destruct (Req_dec_T (vy p) (vy q)); [|discriminate].
    destruct (Req_dec_T (vz p) (vz q)); [|discriminate].
    intros _. by apply Vector_eq.
  - intros ->. apply vector_eqb_refl.
Qed.

Lemma existsb_vector_eqb p l : existsb (vector_eqb p) l = true <-> p ∈ l.
Proof.
  rewrite existsb_exists, list_elem_of_In. split.
  - intros (q & Hq & Heq). apply vector_eqb_eq in Heq. by subst.
  - intros H. exists p. split; [exact H|apply vector_eqb_refl].
Qed.

Lemma set_add_elem_of p q l : q ∈ set_add p l <-> q = p \/ q ∈ l.
Proof.
  unfold set_add. destruct (existsb (vector_eqb p) l) eqn:E.
  - apply existsb_vector_eqb in E. split; [auto|]. by intros [-> | H].
  - rewrite elem_of_app, list_elem_of_singleton. tauto.
Qed.

Lemma set_add_NoDup p l : NoDup l -> NoDup (set_add p l).
Proof.
  intros H. unfold set_add. destruct (existsb (vector_eqb p) l) eqn:E; [exact H|].
  assert (Hnot : p ∉ l).
  { intros Hin. apply existsb_vector_eqb in Hin. congruence. }
  apply NoDup_app. split; [exact H|]. split; [|apply NoDup_singleton].
  intros x Hx Hp. apply list_elem_of_singleton in Hp. by subst.
Qed.

Lemma set_add_length p l : (length (set_add p l) <= S (length l))%nat.
Proof.
  unfold set_add. destruct (existsb _ _); [lia|].
  rewrite length_app. simpl. lia.
Qed.

(** The order of the vectors. *)





Lemma insert_sorted_Permutation p l : insert_sorted p l ≡ₚ p :: l.
Proof.
  induction l as [|q l IH]; simpl; [reflexivity|].
  destruct (vector_ltb p q); [reflexivity|].
  rewrite IH. apply Permutation_swap.
Qed.

Lemma sorted_Permutation l : sorted l ≡ₚ l.
Proof.
  induction l as [|p l IH]; simpl; [reflexivity|].
  unfold sorted in *. simpl. rewrite insert_sorted_Permutation. by rewrite IH.
Qed.

(** A list without duplicates in ascending order. *)



(** *** Lines through a rectangle, in its own coordinates *)


(** The border of the unit square in the frame, met by a line that is
    not parallel to the side. *)
Definition on_border (p q dp dq : R) : Prop :=
  (p = 1 /\ -1 <= q <= 1 /\ dp <> 0) \/
  (p = -1 /\ -1 <= q <= 1 /\ dp <> 0) \/
  (q = 1 /\ -1 <= p <= 1 /\ dq <> 0) \/
  (q = -1 /\ -1 <= p <= 1 /\ dq <> 0).

(** A line that is inside the square at [t0] and beyond the side
    [p = 1] at 1 leaves the square in between. *)
Lemma exit_one pS qS dp dq t0 :
  -1 < pS + t0 * dp < 1 -> -1 < qS + t0 * dq < 1 -> t0 <= 1 ->
  1 < pS + 1 * dp ->
  exists t, t0 < t <= 1 /\
    ((pS + t * dp = 1 /\ -1 <= qS + t * dq <= 1 /\ dp <> 0) \/
     (qS + t * dq = 1 /\ -1 <= pS + t * dp <= 1 /\ dq <> 0) \/
     (qS + t * dq = -1 /\ -1 <= pS + t * dp <= 1 /\ dq <> 0)).
Proof.
  intros Hp0 Hq0 Ht0 Hp1.
  assert (Hlt : t0 < 1) by (destruct (Req_dec_T t0 1); [subst; lra|lra]).
  assert (Hdp : 0 < dp) by nra.
  set (tp := (1 - pS) / dp).
  assert (Htp : pS + tp * dp = 1) by (unfold tp; field; lra).
  assert (Htp0 : t0 < tp).
  { apply Rmult_lt_reg_r with dp; [exact Hdp|]. lra. }
  assert (Htp1 : tp < 1).
  { apply Rmult_lt_reg_r with dp; [exact Hdp|]. lra. }
  destruct (Rle_dec (qS + tp * dq) 1) as [Hle|Hgt].
  - destruct (Rle_dec (-1) (qS + tp * dq)) as [Hge|Hlt'].
    + exists tp. split; [lra|]. left. repeat split; lra.
    + (* the line has left through q = -1 before *)
      assert (Hdq : dq < 0) by nra.
      set (tq := (-1 - qS) / dq).
      assert (Htq : qS + tq * dq = -1) by (unfold tq; field; lra).
      assert (Htq0 : t0 < tq).
      { apply Rmult_lt_reg_r with (- dq); [lra|]. lra. }
      assert (Htq1 : tq < tp).
      { apply Rmult_lt_reg_r with (- dq); [lra|]. lra. }
      exists tq. split; [lra|]. right. right. repeat split; [exact Htq|nra|nra|lra].
  - assert (Hdq : 0 < dq) by nra.
    set (tq := (1 - qS) / dq).
    assert (Htq : qS + tq * dq = 1) by (unfold tq; field; lra).
    assert (Htq0 : t0 < tq).
    { apply Rmult_lt_reg_r with dq; [exact Hdq|]. lra. }
    assert (Htq1 : tq < tp).
    { apply Rmult_lt_reg_r with dq; [exact Hdq|]. lra. }
    exists tq. split; [lra|]. right. left. repeat split; [exact Htq|nra|nra|lra].
Qed.

Lemma exit_forward pS qS dp dq t0 :
  -1 < pS + t0 * dp < 1 -> -1 < qS + t0 * dq < 1 -> t0 <= 1 ->
  ~ (-1 <= pS + 1 * dp <= 1 /\ -1 <= qS + 1 * dq <= 1) ->
  exists t, t0 < t <= 1 /\ on_border (pS + t * dp) (qS + t * dq) dp dq.
Proof.
  intros Hp0 Hq0 Ht0 Hout. unfold on_border.
  destruct (Rlt_dec 1 (pS + 1 * dp)) as [H|H].
  { destruct (exit_one pS qS dp dq t0) as (t & Ht & Hcase); try assumption.
    exists t. split; [exact Ht|]. tauto. }
  destruct (Rlt_dec (pS + 1 * dp) (-1)) as [H'|H'].
  { destruct (exit_one (- pS) qS (- dp) dq t0) as (t & Ht & Hcase);
      try assumption; try lra.
    exists t. split; [exact Ht|].
    destruct Hcase as [(H1 & H2 & H3) | [(H1 & H2 & H3) | (H1 & H2 & H3)]].
    - right. left. repeat split; lra.
    - right. right. left. repeat split; lra.
    - right. right. right. repeat split; lra. }
  destruct (Rlt_dec 1 (qS + 1 * dq)) as [H''|H''].
  { destruct (exit_one qS pS dq dp t0) as (t & Ht & Hcase); try assumption.
    exists t. split; [exact Ht|]. tauto. }
  assert (Hq1 : qS + 1 * dq < -1) by lra.
  destruct (exit_one (- qS) pS (- dq) dp t0) as (t & Ht & Hcase);
    try assumption; try lra.
  exists t. split; [exact Ht|].
  destruct Hcase as [(H1 & H2 & H3) | [(H1 & H2 & H3) | (H1 & H2 & H3)]].
  - right. right. right. repeat split; lra.
  - left. repeat split; lra.
  - right. left. repeat split; lra.
Qed.

(** The same towards the start of the line. *)
Lemma exit_backward pS qS dp dq t0 :
  -1 < pS + t0 * dp < 1 -> -1 < qS + t0 * dq < 1 -> 0 <= t0 ->
  ~ (-1 <= pS <= 1 /\ -1 <= qS <= 1) ->
  exists t, 0 <= t < t0 /\ on_border (pS + t * dp) (qS + t * dq) dp dq.
Proof.
  intros Hp0 Hq0 Ht0 Hout.
  destruct (exit_forward (pS + dp) (qS + dq) (- dp) (- dq) (1 - t0))
    as (t & Ht & Hcase); try lra.
  exists (1 - t). split; [lra|].
  replace (pS + (1 - t) * dp) with (pS + dp + t * - dp) by ring.
  replace (qS + (1 - t) * dq) with (qS + dq + t * - dq) by ring.
  unfold on_border in *.
  destruct Hcase as [(H1 & H2 & H3) | [(H1 & H2 & H3) |
                    [(H1 & H2 & H3) | (H1 & H2 & H3)]]].
  - left. repeat split; lra.
  - right. left. repeat split; lra.
  - right. right. left. repeat split; lra.
  - right. right. right. repeat split; lra.
Qed.



(** *** The points that [TextBox.intersect] returns *)

Lemma collect_elem_of line es acc X :
  X ∈ fold_left
        (fun result border_line =>
           match line_intersect line border_line with
           | Some p => set_add p result
           | None => result
           end) es acc <->
  X ∈ acc \/ exists e, e ∈ es /\ line_intersect line e = Some X.
Proof.
  revert acc. induction es as [|e es IH]; intros acc; simpl.
  - split; [auto|]. intros [H|(e & He & _)]; [exact H|]. inversion He.
  - rewrite IH. destruct (line_intersect line e) as [p|] eqn:E.
    + rewrite set_add_elem_of. split.
      * intros [[-> | H] | (e' & He' & HX)]; [right|left|right]; eauto.
        -- exists e. split; [left|exact E].
        -- exists e'. split; [right; exact He'|exact HX].
      * intros [H | (e' & He' & HX)]; [auto|].
        apply elem_of_cons in He' as [-> | He'].
        -- left. left. congruence.
        -- right. eauto.
    + split.
      * intros [H | (e' & He' & HX)]; [auto|].
        right. exists e'. split; [right; exact He'|exact HX].
      * intros [H | (e' & He' & HX)]; [auto|].
        apply elem_of_cons in He' as [-> | He']; [congruence|].
        right. eauto.
Qed.

Lemma collect_NoDup line es acc :
  NoDup acc ->
  NoDup (fold_left
           (fun result border_line =>
              match line_intersect line border_line with
              | Some p => set_add p result
              | None => result
              end) es acc).
Proof.
  revert acc. induction es as [|e es IH]; intros acc Hacc; simpl; [exact Hacc|].
  apply IH. destruct (line_intersect line e); [apply set_add_NoDup|]; exact Hacc.
Qed.

Lemma intersect_elem_of tb line X :
  X ∈ intersect tb line <->
  exists e, e ∈ border_lines tb /\ line_intersect line e = Some X.
Proof.
  unfold intersect. rewrite sorted_Permutation, collect_elem_of.
  split; [intros [H|H]; [inversion H|exact H]|auto].
Qed.

Lemma intersect_NoDup tb line : NoDup (intersect tb line).
Proof.
  unfold intersect. rewrite sorted_Permutation.
  apply collect_NoDup. constructor.
Qed.



(** *** The frame of a box *)

(** The result of [line_intersect] is a point of both lines. *)
Lemma line_intersect_Some l1 l2 X :
  line_intersect l1 l2 = Some X ->
  let d1 := vsub (line_end l1) (line_start l1) in
  let d2 := vsub (line_end l2) (line_start l2) in
  exists t u,
    0 <= t <= 1 /\ 0 <= u <= 1 /\ cross2 d1 d2 <> 0 /\
    X = mkVector (vx (line_start l1) + t * vx d1)
                 (vy (line_start l1) + t * vy d1) 0 /\
    vx (line_start l1) + t * vx d1 = vx (line_start l2) + u * vx d2 /\
    vy (line_start l1) + t * vy d1 = vy (line_start l2) + u * vy d2.
Proof.
  unfold line_intersect. cbv zeta.
  set (d1 := vsub (line_end l1) (line_start l1)).
  set (d2 := vsub (line_end l2) (line_start l2)).
  set (w := vsub (line_start l2) (line_start l1)).
  destruct (Req_dec_T (cross2 d1 d2) 0) as [|Hc]; [discriminate|].
  destruct (in_unit (cross2 w d2 / cross2 d1 d2)) eqn:Ht; [|discriminate].
  destruct (in_unit (cross2 w d1 / cross2 d1 d2)) eqn:Hu; [|discriminate].
  simpl. intros [= <-].
  apply in_unit_spec in Ht, Hu.
  exists (cross2 w d2 / cross2 d1 d2), (cross2 w d1 / cross2 d1 d2).
  repeat split; try tauto.
  - unfold cross2 in *. unfold w, vsub. simpl. field. exact Hc.
  - unfold cross2 in *. unfold w, vsub. simpl. field. exact Hc.
Qed.

Section Frame.

(** A box with centre [c], half width [a] and half height [b], turned
    by the angle whose cosine and sine are [C] and [S]. *)
Variables (c : Vector) (a b C S : R).
Hypothesis unit : C * C + S * S = 1.

Definition frame_w2 : Vector := mkVector (C * a) (S * a) 0.
Definition frame_h2 : Vector := mkVector (- S * b) (C * b) 0.

Definition frame_box : TextBox :=
mkTextBox c
  (vsub (vsub c frame_w2) frame_h2, vsub (vadd c frame_w2) frame_h2,
   vadd (vadd c frame_w2) frame_h2, vadd (vsub c frame_w2) frame_h2).

(** The coordinates of a point along the width and along the height of
    the box, measured from its centre. *)
Definition alpha (X : Vector) : R := (vx X - vx c) * C + (vy X - vy c) * S.
Definition beta (X : Vector) : R := - (vx X - vx c) * S + (vy X - vy c) * C.

Variable line : ConstructionLine.

Definition d_alpha : R :=
  (vx (line_end line) - vx (line_start line)) * C
  + (vy (line_end line) - vy (line_start line)) * S.
Definition d_beta : R :=
  - (vx (line_end line) - vx (line_start line)) * S
  + (vy (line_end line) - vy (line_start line)) * C.

Lemma alpha_point_at t : alpha (point_at line t) = alpha (line_start line) + t * d_alpha.
Proof. unfold alpha, point_at, d_alpha. simpl. ring. Qed.

Lemma beta_point_at t : beta (point_at line t) = beta (line_start line) + t * d_beta.
Proof. unfold beta, point_at, d_beta. simpl. ring. Qed.

Definition edge (i : nat) : ConstructionLine :=
let '(p1, p2, p3, p4) := corners frame_box in
match i with
| 0%nat => mkLine p1 p2
| 1%nat => mkLine p2 p3
| 2%nat => mkLine p3 p4
| _ => mkLine p4 p1
end.

Lemma border_lines_frame : border_lines frame_box = [edge 0; edge 1; edge 2; edge 3].
Proof. reflexivity. Qed.

(** What a common point with one of the four borders looks like. *)
Lemma edge0_Some X :
  line_intersect line (edge 0) = Some X ->
  exists t m, 0 <= t <= 1 /\ X = point_at line t /\ -1 <= m <= 1 /\
    beta X = - b /\ alpha X = a * m /\ a <> 0 /\ d_beta <> 0.
Proof.
  intros H. apply line_intersect_Some in H as (t & u & Ht & Hu & Hc & -> & Hx & Hy).
  unfold edge, frame_box, frame_w2, frame_h2, cross2, vsub, vadd in *.
  simpl in *.
  exists t, (2 * u - 1). split; [exact Ht|]. split; [reflexivity|].
  split; [lra|].
  assert (Hcross : -2 * a * d_beta <> 0).
  { intros H0. apply Hc. unfold d_beta in H0. nra. }
  repeat split.
  - unfold beta. simpl. rewrite Hx, Hy. 
    transitivity (- b * (C * C + S * S)); [ring|rewrite unit; ring].
  - unfold alpha. simpl. rewrite Hx, Hy.
    transitivity (a * (2 * u - 1) * (C * C + S * S)); [ring|rewrite unit; ring].
  - intros ->. lra.
  - intros H0. rewrite H0 in Hcross. lra.
Qed.


Lemma edge1_Some X :
  line_intersect line (edge 1) = Some X ->
  exists t m, 0 <= t <= 1 /\ X = point_at line t /\ -1 <= m <= 1 /\
    alpha X = a /\ beta X = b * m /\ b <> 0 /\ d_alpha <> 0.
Proof.
  intros H. apply line_intersect_Some in H as (t & u & Ht & Hu & Hc & -> & Hx & Hy).
  unfold edge, frame_box, frame_w2, frame_h2, cross2, vsub, vadd in *.
  simpl in *.
  exists t, (2 * u - 1). split; [exact Ht|]. split; [reflexivity|].
  split; [lra|].
  assert (Hcross : 2 * b * d_alpha <> 0).
  { intros H0. apply Hc. unfold d_alpha in H0. nra. }
  repeat split.
  - unfold alpha. simpl. rewrite Hx, Hy.
    transitivity (a * (C * C + S * S)); [ring|rewrite unit; ring].
  - unfold beta. simpl. rewrite Hx, Hy.
    transitivity (b * (2 * u - 1) * (C * C + S * S)); [ring|rewrite unit; ring].
  - intros ->. lra.
  - intros H0. rewrite H0 in Hcross. lra.
Qed.

Lemma edge2_Some X :
  line_intersect line (edge 2) = Some X ->
  exists t m, 0 <= t <= 1 /\ X = point_at line t /\ -1 <= m <= 1 /\
    beta X = b /\ alpha X = a * m /\ a <> 0 /\ d_beta <> 0.
Proof.
  intros H. apply line_intersect_Some in H as (t & u & Ht & Hu & Hc & -> & Hx & Hy).
  unfold edge, frame_box, frame_w2, frame_h2, cross2, vsub, vadd in *.
  simpl in *.
  exists t, (1 - 2 * u). split; [exact Ht|]. split; [reflexivity|].
  split; [lra|].
  assert (Hcross : 2 * a * d_beta <> 0).
  { intros H0. apply Hc. unfold d_beta in H0. nra. }
  repeat split.
  - unfold beta. simpl. rewrite Hx, Hy.
    transitivity (b * (C * C + S * S)); [ring|rewrite unit; ring].
  - unfold alpha. simpl. rewrite Hx, Hy.
    transitivity (a * (1 - 2 * u) * (C * C + S * S)); [ring|rewrite unit; ring].
  - intros ->. lra.
  - intros H0. rewrite H0 in Hcross. lra.
Qed.

Lemma edge3_Some X :
  line_intersect line (edge 3) = Some X ->
  exists t m, 0 <= t <= 1 /\ X = point_at line t /\ -1 <= m <= 1 /\
    alpha X = - a /\ beta X = b * m /\ b <> 0 /\ d_alpha <> 0.
Proof.
  intros H. apply line_intersect_Some in H as (t & u & Ht & Hu & Hc & -> & Hx & Hy).
  unfold edge, frame_box, frame_w2, frame_h2, cross2, vsub, vadd in *.
  simpl in *.
  exists t, (1 - 2 * u). split; [exact Ht|]. split; [reflexivity|].
  split; [lra|].
  assert (Hcross : -2 * b * d_alpha <> 0).
  { intros H0. apply Hc. unfold d_alpha in H0. nra. }
  repeat split.
  - unfold alpha. simpl. rewrite Hx, Hy.
    transitivity (- a * (C * C + S * S)); [ring|rewrite unit; ring].
  - unfold beta. simpl. rewrite Hx, Hy.
    transitivity (b * (1 - 2 * u) * (C * C + S * S)); [ring|rewrite unit; ring].
  - intros ->. lra.
  - intros H0. rewrite H0 in Hcross. lra.
Qed.

(** A point is determined by its two coordinates in the frame. *)
Lemma frame_coordinates X :
  vx X - vx c = alpha X * C - beta X * S /\
  vy X - vy c = alpha X * S + beta X * C.
Proof.
  unfold alpha, beta. split.
  - transitivity ((vx X - vx c) * (C * C + S * S)); [rewrite unit; ring|ring].
  - transitivity ((vy X - vy c) * (C * C + S * S)); [rewrite unit; ring|ring].
Qed.

(** Conversely, a point of the line with the coordinates of a border
    point is found by [line_intersect]. *)
Lemma edge0_at t m :
  a <> 0 -> d_beta <> 0 -> 0 <= t <= 1 -> -1 <= m <= 1 ->
  beta (point_at line t) = - b -> alpha (point_at line t) = a * m ->
  line_intersect line (edge 0) = Some (point_at line t).
Proof.
  intros Ha Hd Ht Hm Hb Hal.
  destruct (frame_coordinates (point_at line t)) as [Hx Hy].
  rewrite Hb, Hal in Hx, Hy. unfold point_at in Hx, Hy. simpl in Hx, Hy.
  rewrite (line_intersect_at _ _ t ((m + 1) / 2)).
  - rewrite !in_unit_true by lra. reflexivity.
  - unfold edge, frame_box, frame_w2, frame_h2, cross2, vsub, vadd. simpl.
    intros H0. apply Hd. unfold d_beta.
    apply Rmult_eq_reg_l with (-2 * a); [|lra]. rewrite Rmult_0_r.
    rewrite <- H0. ring.
  - unfold edge, frame_box, frame_w2, frame_h2, cross2, vsub, vadd. simpl. lra.
  - unfold edge, frame_box, frame_w2, frame_h2, cross2, vsub, vadd. simpl. lra.
Qed.

Lemma edge1_at t m :
  b <> 0 -> d_alpha <> 0 -> 0 <= t <= 1 -> -1 <= m <= 1 ->
  alpha (point_at line t) = a -> beta (point_at line t) = b * m ->
  line_intersect line (edge 1) = Some (point_at line t).
Proof.
  intros Ha Hd Ht Hm Hal Hb.
  destruct (frame_coordinates (point_at line t)) as [Hx Hy].
  rewrite Hb, Hal in Hx, Hy. unfold point_at in Hx, Hy. simpl in Hx, Hy.
  rewrite (line_intersect_at _ _ t ((m + 1) / 2)).
  - rewrite !in_unit_true by lra. reflexivity.
  - unfold edge, frame_box, frame_w2, frame_h2, cross2, vsub, vadd. simpl.
    intros H0. apply Hd. unfold d_alpha.
    apply Rmult_eq_reg_l with (2 * b); [|lra]. rewrite Rmult_0_r.
    rewrite <- H0. ring.
  - unfold edge, frame_box, frame_w2, frame_h2, cross2, vsub, vadd. simpl. lra.
  - unfold edge, frame_box, frame_w2, frame_h2, cross2, vsub, vadd. simpl. lra.
Qed.

Lemma edge2_at t m :
  a <> 0 -> d_beta <> 0 -> 0 <= t <= 1 -> -1 <= m <= 1 ->
  beta (point_at line t) = b -> alpha (point_at line t) = a * m ->
  line_intersect line (edge 2) = Some (point_at line t).
Proof.
  intros Ha Hd Ht Hm Hb Hal.
  destruct (frame_coordinates (point_at line t)) as [Hx Hy].
  rewrite Hb, Hal in Hx, Hy. unfold point_at in Hx, Hy. simpl in Hx, Hy.
  rewrite (line_intersect_at _ _ t ((1 - m) / 2)).
  - rewrite !in_unit_true by lra. reflexivity.
  - unfold edge, frame_box, frame_w2, frame_h2, cross2, vsub, vadd. simpl.
    intros H0. apply Hd. unfold d_beta.
    apply Rmult_eq_reg_l with (2 * a); [|lra]. rewrite Rmult_0_r.
    rewrite <- H0. ring.
  - unfold edge, frame_box, frame_w2, frame_h2, cross2, vsub, vadd. simpl. lra.
  - unfold edge, frame_box, frame_w2, frame_h2, cross2, vsub, vadd. simpl. lra.
Qed.

Lemma edge3_at t m :
  b <> 0 -> d_alpha <> 0 -> 0 <= t <= 1 -> -1 <= m <= 1 ->
  alpha (point_at line t) = - a -> beta (point_at line t) = b * m ->
  line_intersect line (edge 3) = Some (point_at line t).
Proof.
  intros Ha Hd Ht Hm Hal Hb.
  destruct (frame_coordinates (point_at line t)) as [Hx Hy].
  rewrite Hb, Hal in Hx, Hy. unfold point_at in Hx, Hy. simpl in Hx, Hy.
  rewrite (line_intersect_at _ _ t ((1 - m) / 2)).
  - rewrite !in_unit_true by lra. reflexivity.
  - unfold edge, frame_box, frame_w2, frame_h2, cross2, vsub, vadd. simpl.
    intros H0. apply Hd. unfold d_alpha.
    apply Rmult_eq_reg_l with (-2 * b); [|lra]. rewrite Rmult_0_r.
    rewrite <- H0. ring.
  - unfold edge, frame_box, frame_w2, frame_h2, cross2, vsub, vadd. simpl. lra.
  - unfold edge, frame_box, frame_w2, frame_h2, cross2, vsub, vadd. simpl. lra.
Qed.

(** The points of the region of the box, in the coordinates of the
    frame. *)
Lemma spans_frame u v X :
  spans frame_box u v X <->
  alpha X = a * (2 * u - 1) /\ beta X = b * (2 * v - 1).
Proof.
  unfold spans, frame_box, frame_w2, frame_h2, vsub, vadd. simpl.
  destruct (frame_coordinates X) as [Hx Hy]. split.
  - intros [H1 H2]. unfold alpha, beta. split.
    + transitivity (a * (2 * u - 1) * (C * C + S * S)); [|rewrite unit; ring].
      rewrite H1, H2. ring.
    + transitivity (b * (2 * v - 1) * (C * C + S * S)); [|rewrite unit; ring].
      rewrite H1, H2. ring.
  - intros [H1 H2]. rewrite H1, H2 in Hx, Hy. split; lra.
Qed.

Lemma has_area_frame : has_area frame_box <-> a <> 0 /\ b <> 0.
Proof.
  unfold has_area, frame_box, frame_w2, frame_h2, cross2, vsub, vadd. simpl.
  match goal with
  | |- ?x <> 0 <-> _ =>
      assert (E : x = 4 * (a * b))
        by (transitivity (4 * a * b * (C * C + S * S)); [ring|rewrite unit; ring]);
      rewrite E
  end.
  split.
  - intros Hne. split; intros ->; apply Hne; ring.
  - intros [Ha Hb] H0.
    assert (Hab : a * b = 0) by lra.
    apply Rmult_integral in Hab. tauto.
Qed.



(** A common point with a border is a point of the box. *)
Lemma edge_Some_in_box i X :
  line_intersect line (edge i) = Some X ->
  exists t, 0 <= t <= 1 /\ X = point_at line t /\ in_box frame_box X.
Proof.
  intros H.
  destruct i as [|[|[|i]]].
  - destruct (edge0_Some _ H) as (t & m & Ht & HX & Hm & Hb & Ha & _).
    exists t. split; [exact Ht|]. split; [exact HX|].
    exists ((m + 1) / 2), 0. split; [lra|]. apply spans_frame. lra.
  - destruct (edge1_Some _ H) as (t & m & Ht & HX & Hm & Ha & Hb & _).
    exists t. split; [exact Ht|]. split; [exact HX|].
    exists 1, ((m + 1) / 2). split; [lra|]. apply spans_frame. lra.
  - destruct (edge2_Some _ H) as (t & m & Ht & HX & Hm & Hb & Ha & _).
    exists t. split; [exact Ht|]. split; [exact HX|].
    exists ((m + 1) / 2), 1. split; [lra|]. apply spans_frame. lra.
  - destruct (edge3_Some _ H) as (t & m & Ht & HX & Hm & Ha & Hb & _).
    exists t. split; [exact Ht|]. split; [exact HX|].
    exists 0, ((m + 1) / 2). split; [lra|]. apply spans_frame. lra.
Qed.





Lemma border_lines_elem_of e :
  e ∈ border_lines frame_box <-> exists i, (i < 4)%nat /\ e = edge i.
Proof.
  rewrite border_lines_frame. split.
  - intros H. repeat (apply elem_of_cons in H as [->|H]);
      [exists 0%nat|exists 1%nat|exists 2%nat|exists 3%nat|inversion H];
      (split; [lia|reflexivity]).
  - intros (i & Hi & ->).
    destruct i as [|[|[|[|i]]]]; [| | | |lia]; repeat constructor.
Qed.




(** Where the line leaves the box, it meets a border. *)
Lemma on_border_hits t :
  a <> 0 -> b <> 0 -> 0 <= t <= 1 ->
  on_border (alpha (line_start line) / a + t * (d_alpha / a))
            (beta (line_start line) / b + t * (d_beta / b))
            (d_alpha / a) (d_beta / b) ->
  (d_alpha <> 0 \/ d_beta <> 0) /\
  exists i, (i < 4)%nat /\ line_intersect line (edge i) = Some (point_at line t).
Proof.
  intros Ha Hb Ht.
  set (p := alpha (line_start line) / a + t * (d_alpha / a)).
  set (q := beta (line_start line) / b + t * (d_beta / b)).
  assert (Hp : alpha (point_at line t) = a * p)
    by (rewrite alpha_point_at; unfold p; field; exact Ha).
  assert (Hq : beta (point_at line t) = b * q)
    by (rewrite beta_point_at; unfold q; field; exact Hb).
  assert (Hda : d_alpha / a <> 0 -> d_alpha <> 0)
    by (intros H E; apply H; rewrite E; unfold Rdiv; ring).
  assert (Hdb : d_beta / b <> 0 -> d_beta <> 0)
    by (intros H E; apply H; rewrite E; unfold Rdiv; ring).
  intros [(E & Hm & Hd) | [(E & Hm & Hd) | [(E & Hm & Hd) | (E & Hm & Hd)]]];
    rewrite E in *.
  - split; [left; auto|]. exists 1%nat. split; [lia|].
    apply edge1_at with q; auto; lra.
  - split; [left; auto|]. exists 3%nat. split; [lia|].
    apply edge3_at with q; auto; lra.
  - split; [right; auto|]. exists 2%nat. split; [lia|].
    apply edge2_at with p; auto; lra.
  - split; [right; auto|]. exists 0%nat. split; [lia|].
    apply edge0_at with p; auto; lra.
Qed.

Lemma point_at_inj t1 t2 :
  d_alpha <> 0 \/ d_beta <> 0 -> point_at line t1 = point_at line t2 -> t1 = t2.
Proof.
  intros Hd E.
  assert (Ha : alpha (point_at line t1) = alpha (point_at line t2)) by (rewrite E; reflexivity).
  assert (Hb : beta (point_at line t1) = beta (point_at line t2)) by (rewrite E; reflexivity).
  rewrite !alpha_point_at in Ha. rewrite !beta_point_at in Hb.
  destruct Hd as [Hd|Hd].
  - apply Rmult_eq_reg_r with d_alpha; [lra|exact Hd].
  - apply Rmult_eq_reg_r with d_beta; [lra|exact Hd].
Qed.

Lemma not_in_box_frame X :
  a <> 0 -> b <> 0 -> ~ in_box frame_box X ->
  ~ (-1 <= alpha X / a <= 1 /\ -1 <= beta X / b <= 1).
Proof.
  intros Ha Hb Hout [Hp Hq]. apply Hout.
  exists ((alpha X / a + 1) / 2), ((beta X / b + 1) / 2).
  split; [lra|]. apply spans_frame. split; field; assumption.
Qed.



End Frame.

(** The box that [TextBox.__init__] builds, with its frame. *)
Lemma TextBox_init_frame c w h angle g :
  TextBox_init c w h angle g =
  frame_box c (w / 2 + g) (h / 2 + g) (cos (radians angle)) (sin (radians angle)).
Proof.
  unfold TextBox_init, frame_box, frame_w2, frame_h2, from_deg_angle.
  rewrite radians_plus_90, cos_plus, sin_plus, cos_PI2, sin_PI2.
  f_equal. repeat f_equal; ring.
Qed.

Lemma frame_unit angle :
  cos (radians angle) * cos (radians angle)
  + sin (radians angle) * sin (radians angle) = 1.
Proof. pose proof (sin2_cos2 (radians angle)) as H. unfold Rsqr in H. lra. Qed.


(** A square around the origin, a line along the x axis through it and
    a line above it. *)
Definition square : TextBox := TextBox_init (mkVector 0 0 0) 2 2 0 0.




(** *** The further properties on sample dimensions *)

Definition with_dimjust (j : Z) (ds : DimStyle) : DimStyle :=
mkDimStyle (dimscale ds) (dimlfac ds) (dimtxsty ds) (dimtxt ds) (dimgap ds)
  (dimclrt ds) (Some j) (dimtad ds) (dimtmove ds) (dimtih ds) (dimtoh ds)
  (dimtix ds) (dimtsz ds) (arrow_names ds) (dimasz ds) (dimclrd ds) (dimdle ds)
  (dimltype ds) (dimlwd ds) (dimsd1 ds) (dimsd2 ds) (dimclre ds) (dimltex1 ds)
  (dimltex2 ds) (dimlwe ds) (dimse1 ds) (dimse2 ds) (dimexe ds) (dimexo ds)
  (dimexfix ds) (dimexlen ds) (dimrnd ds) (dimdec ds) (dimzin ds) (dimdsep ds)
  (dimpost ds).

(** Ticks of the given size in the place of arrows, and a dimension
    line that is to go [dle] beyond them. *)
Definition with_ticks (size dle : R) (ds : DimStyle) : DimStyle :=
mkDimStyle (dimscale ds) (dimlfac ds) (dimtxsty ds) (dimtxt ds) (dimgap ds)
  (dimclrt ds) (dimjust ds) (dimtad ds) (dimtmove ds) (dimtih ds) (dimtoh ds)
  (dimtix ds) size (arrow_names ds) (dimasz ds) (dimclrd ds) (Some dle)
  (dimltype ds) (dimlwd ds) (dimsd1 ds) (dimsd2 ds) (dimclre ds) (dimltex1 ds)
  (dimltex2 ds) (dimlwe ds) (dimse1 ds) (dimse2 ds) (dimexe ds) (dimexo ds)
  (dimexfix ds) (dimexlen ds) (dimrnd ds) (dimdec ds) (dimzin ds) (dimdsep ds)
  (dimpost ds).

(** The sample dimension with its text moved by the user to [p]. *)
Definition moved (p : Vector) (tmove : Z) : DimensionEntity :=
mkDimension 0 true
  (mkDimStyle None None None None None None None None (Some tmove) None None
     None 0 (EmptyString, EmptyString) 0.18
     None None None None None None None None None None None None None None
     None None None None None None None)
  256 "0" "10 mm" None None None
  (mkVector 0 0 0) (mkVector 0 0 0) (mkVector 10 0 0) (Some p) None None.

Definition sample_base (d : DimensionEntity) : DimensionBase :=
DimensionBase_attributes "Standard" (-2)%Z Sample.drawing None None d.

Definition sample_render :=
  Dimension.render (fun _ => None) (fun _ => true) (fun _ => false)
    (fun _ => false) "OBLIQUE" (fun _ p _ _ => p) Sample.drawing.

Definition sample_add_arrows :=
  Dimension.add_arrows (fun _ => true) (fun _ => false) "OBLIQUE"
    (fun _ p _ _ => p) Sample.drawing.

Lemma magnitude_10 : magnitude (vsub (mkVector 10 0 0) (mkVector 0 0 0)) = 10.
Proof.
  replace (vsub (mkVector 10 0 0) (mkVector 0 0 0)) with (mkVector 10 0 0)
    by (apply Vector_eq; simpl; ring).
  apply magnitude_x. lra.
Qed.

Lemma magnitude_10_ne : magnitude (vsub (mkVector 10 0 0) (mkVector 0 0 0)) <> 0.
Proof. rewrite magnitude_10. lra. Qed.

Lemma measurement_is_projection_witness :
  exists self s',
    Sample.LinearDimension_init (mkState (scenario default_style) [])
      = (Ok self, s') /\
    measurement self =
      Rabs ((10 - 0) * cos (radians 0) + (0 - 0) * sin (radians 0)) /\
    measurement self <= sqrt ((10 - 0) * (10 - 0) + (0 - 0) * (0 - 0)).
Proof.
  destruct (x_axis_init_Ok EmptyString default_style _ eq_refl eq_refl)
    as (self & s' & Hinit & _).
  exists self, s'. split; [exact Hinit|].
  exact (measurement_is_projection "Standard" (-2)%Z Sample.format_f
           (fun x _ => x) FormatText.suppress_zeros (fun s => s)
           Sample.drawing None None _ self s' Hinit).
Defined.

Lemma dimension_line_feet_witness :
  exists self s',
    Sample.LinearDimension_init (mkState (scenario default_style) [])
      = (Ok self, s') /\
    let direction := mkVector (cos (radians 0)) (sin (radians 0)) 0 in
    cross2 (vsub (Dimension.dim_line_start self) (mkVector 0 0 0)) direction = 0 /\
    cross2 (vsub (Dimension.dim_line_end self) (mkVector 0 0 0)) direction = 0.
Proof.
  destruct (x_axis_init_Ok EmptyString default_style _ eq_refl eq_refl)
    as (self & s' & Hinit & _).
  exists self, s'. split; [exact Hinit|].
  destruct (dimension_line_feet "Standard" (-2)%Z Sample.format_f
              (fun x _ => x) FormatText.suppress_zeros (fun s => s)
              Sample.drawing None None _ self s' Hinit)
    as (origin & Horigin & H1 & H2 & _).
  cbn in Horigin. subst origin. split; assumption.
Defined.

Lemma get_text_location_default_witness :
  let b := sample_base (labelled default_style) in
  let middle := lerp (mkVector 0 0 0) (mkVector 10 0 0) 0.5 in
  get_text_location b (mkVector 0 0 0) (mkVector 10 0 0) 5 false
    (mkState (labelled default_style) []) =
  (Ok middle, mkState (set_text_midpoint middle (labelled default_style)) []).
Proof.
  intros b middle.
  destruct (get_text_location_default b (mkVector 0 0 0) (mkVector 10 0 0) 5
              false (mkState (labelled default_style) [])
              eq_refl eq_refl magnitude_10_ne)
    as (loc & Hrun & _ & _ & _ & Hmid).
  rewrite (Hmid eq_refl) in Hrun. exact Hrun.
Defined.

Lemma get_text_location_beside_witness :
  let d := labelled (with_dimjust 1 default_style) in
  let b := sample_base d in
  let on_line :=
    vadd (mkVector 0 0 0)
      (vscale (vsub (mkVector 10 0 0) (mkVector 0 0 0))
         ((0.625 + 0.18 + 5 / 2)
          / magnitude (vsub (mkVector 10 0 0) (mkVector 0 0 0)))) in
  exists loc,
    get_text_location b (mkVector 0 0 0) (mkVector 10 0 0) 5 false
      (mkState d []) =
    (Ok loc, mkState (set_text_midpoint on_line d) []) /\
    magnitude (vsub on_line (mkVector 0 0 0)) = Rabs (0.625 + 0.18 + 5 / 2).
Proof.
  intros d b on_line.
  destruct (get_text_location_beside b (mkVector 0 0 0) (mkVector 10 0 0) 5
              false (mkState d []) eq_refl magnitude_10_ne) as [H1 _].
  destruct (H1 eq_refl) as (loc & Hrun & Hdist & _).
  exists loc. split; [exact Hrun|exact Hdist].
Defined.

Lemma get_text_location_user_witness :
  let p := mkVector 3 4 0 in
  get_text_location (sample_base (moved p 2)) (mkVector 0 0 0) (mkVector 10 0 0)
    5 false (mkState (moved p 2) []) =
  (Ok p, mkState (moved p 2) []) /\
  exists loc,
    get_text_location (sample_base (moved p 0)) (mkVector 0 0 0)
      (mkVector 10 0 0) 5 false (mkState (moved p 0) []) =
    (Ok loc, mkState (moved p 0) []) /\
    magnitude (vsub loc p) = Rabs (text_vertical_distance (sample_base (moved p 0))).
Proof.
  intros p. split.
  - apply (get_text_location_user (sample_base (moved p 2)) (mkVector 0 0 0)
             (mkVector 10 0 0) 5 false (mkState (moved p 2) []) p
             eq_refl eq_refl).
    discriminate.
  - destruct (get_text_location_user (sample_base (moved p 0)) (mkVector 0 0 0)
                (mkVector 10 0 0) 5 false (mkState (moved p 0) []) p
                eq_refl eq_refl) as [_ H].
    destruct (H eq_refl magnitude_10_ne) as (loc & Hrun & Hdist & _).
    exists loc. split; assumption.
Defined.

(** The scenario of the specification has its first measurement point
    on the dimension line. *)
Lemma linear_measurement_point_on_line_witness :
  exists self s1 s',
    Sample.LinearDimension_init (mkState (scenario default_style) [])
      = (Ok self, s1) /\
    suppress_ext1_line (base self) = false /\
    Dimension.dim_line_start self = ext1_line_start self /\
    sample_linear (mkState (scenario default_style) [])
      = (Raise ZeroDivisionError, s') /\
    dimension s' = dimension s1.
Proof.
  destruct (x_axis_init_Ok EmptyString default_style _ eq_refl eq_refl)
    as (self & s1 & Hinit & _ & Hs & _ & _ & Hb & _).
  pose proof Hinit as Hinv.
  apply LinearDimension_init_inv in Hinv as (_ & _ & _ & _ & He1 & _).
  assert (Hsup : suppress_ext1_line (base self) = false)
    by (rewrite Hb; cbn; apply bool_of_R_0).
  assert (Hon : Dimension.dim_line_start self = ext1_line_start self)
    by (rewrite Hs, He1; reflexivity).
  destruct (linear_measurement_point_on_line "Standard" (-2)%Z (fun _ => None)
              (fun _ => true) (fun _ => false) (fun _ => false) "OBLIQUE"
              (fun _ p _ _ => p) Sample.format_f (fun x _ => x)
              FormatText.suppress_zeros (fun s => s) Sample.drawing None None
              _ self s1 Hinit Hsup Hon) as (s' & Hrun & Hdim).
  exists self, s1, s'. repeat split; assumption.
Defined.

Lemma add_arrows_ticks_witness :
  exists self s1,
    Sample.LinearDimension_init
      (mkState (labelled (with_ticks 0.1 0 default_style)) []) = (Ok self, s1) /\
    tick_size (base self) > 0 /\
    arrow1_name (base self) = None /\ arrow2_name (base self) = None /\
    sample_add_arrows self (mkVector 0 0 0) (mkVector 10 0 0) false s1 =
    (Ok (mkVector 0 0 0, mkVector 10 0 0),
     mkState (dimension s1)
       (block s1 ++
        [Arrow "OBLIQUE" (mkVector 0 0 0) (dim_line_angle self)
           (tick_size (base self) * 2) (arrow_attribs (base self));
         Arrow "OBLIQUE" (mkVector 10 0 0) (dim_line_angle self)
           (tick_size (base self) * 2) (arrow_attribs (base self))])%list).
Proof.
  destruct (x_axis_init_Ok "10 mm" (with_ticks 0.1 0 default_style) "10 mm"
              eq_refl eq_refl) as (self & s1 & Hinit & _ & _ & _ & _ & Hb & _).
  assert (Htick : tick_size (base self) > 0) by (rewrite Hb; cbn; lra).
  exists self, s1. split; [exact Hinit|]. split; [exact Htick|].
  apply (add_arrows_ticks "Standard" (-2)%Z (fun _ => true) (fun _ => false)
           "OBLIQUE" (fun _ p _ _ => p) Sample.drawing Sample.drawing None None
           _ self (mkVector 0 0 0) (mkVector 10 0 0) false s1 Hb Htick).
  discriminate.
Defined.

Lemma add_arrows_registered_witness :
  exists self s1,
    Sample.LinearDimension_init (mkState (labelled default_style) [])
      = (Ok self, s1) /\
    sample_add_arrows self (mkVector 0 0 0) (mkVector 10 0 0) false s1 =
    (Ok (mkVector 0 0 0, mkVector 10 0 0),
     mkState (dimension s1)
       (block s1 ++
        [ArrowBlockRef EmptyString (mkVector 0 0 0) (arrow_size (base self))
           (dim_line_angle self + 180) (Some (arrow_attribs (base self)));
         ArrowBlockRef EmptyString (mkVector 10 0 0) (arrow_size (base self))
           (dim_line_angle self) (Some (arrow_attribs (base self)))])%list) /\
    (exists s2, sample_add_arrows self (mkVector 0 0 0) (mkVector 10 0 0) true s1
                = (Ok (mkVector 0 0 0, mkVector 10 0 0), s2) /\
                length (block s2) = (length (block s1) + 4)%nat) /\
    (exists s3, Dimension.add_arrows (fun _ => true) (fun _ => true) "OBLIQUE"
                  (fun _ p _ _ => p) Sample.drawing self (mkVector 0 0 0)
                  (mkVector 10 0 0) true s1
                = (Ok (mkVector 0 0 0, mkVector 10 0 0), s3) /\
                length (block s3) = (length (block s1) + 2)%nat).
Proof.
  destruct (x_axis_init_Ok "10 mm" default_style "10 mm" eq_refl eq_refl)
    as (self & s1 & Hinit & _ & _ & _ & _ & Hb & _).
  assert (Htick : Rgtb (tick_size (base self)) 0 = false)
    by (rewrite Hb; apply Rgtb_0_0).
  assert (Hn1 : arrow1_name (base self) = Some EmptyString)
    by (rewrite Hb; cbn; rewrite Rgtb_0_0; reflexivity).
  assert (Hn2 : arrow2_name (base self) = Some EmptyString)
    by (rewrite Hb; cbn; rewrite Rgtb_0_0; reflexivity).
  destruct (add_arrows_registered (fun _ => true) (fun _ => false) "OBLIQUE"
              (fun _ p _ _ => p) Sample.drawing self (mkVector 0 0 0)
              (mkVector 10 0 0) EmptyString EmptyString s1
              Htick Hn1 Hn2 eq_refl eq_refl) as [Hin Hout].
  exists self, s1. split; [exact Hinit|]. split; [exact Hin|].
  destruct (Hout magnitude_10_ne) as [_ Hrun].
  split; [eexists; split; [exact Hrun|];
          cbn [block]; rewrite length_app; reflexivity|].
  destruct (add_arrows_registered (fun _ => true) (fun _ => true) "OBLIQUE"
              (fun _ p _ _ => p) Sample.drawing self (mkVector 0 0 0)
              (mkVector 10 0 0) EmptyString EmptyString s1
              Htick Hn1 Hn2 eq_refl eq_refl) as [_ Hzero].
  destruct (Hzero magnitude_10_ne) as [_ Hrun0].
  eexists. split; [exact Hrun0|].
  cbn [block]. rewrite length_app. reflexivity.
Defined.

(** A drawing without blocks, and arrows that are not in the
    registry. *)
Lemma add_arrows_undefined_block_witness :
  exists self s1,
    Sample.LinearDimension_init (mkState (labelled default_style) [])
      = (Ok self, s1) /\
    Dimension.add_arrows (fun _ => false) (fun _ => false) "OBLIQUE"
      (fun _ p _ _ => p) Sample.drawing self (mkVector 0 0 0) (mkVector 10 0 0)
      false s1 =
    (Raise (DXFUndefinedBlockError ("Undefined block: " ++ quoted EmptyString)),
     s1).
Proof.
  destruct (x_axis_init_Ok "10 mm" default_style "10 mm" eq_refl eq_refl)
    as (self & s1 & Hinit & _ & _ & _ & _ & Hb & _).
  assert (Htick : Rgtb (tick_size (base self)) 0 = false)
    by (rewrite Hb; apply Rgtb_0_0).
  assert (Hn1 : arrow1_name (base self) = Some EmptyString)
    by (rewrite Hb; cbn; rewrite Rgtb_0_0; reflexivity).
  exists self, s1. split; [exact Hinit|].
  apply (add_arrows_undefined_block (fun _ => false) (fun _ => false) "OBLIQUE"
           (fun _ p _ _ => p) Sample.drawing self (mkVector 0 0 0)
           (mkVector 10 0 0) false EmptyString s1 Htick Hn1 eq_refl).
  apply not_elem_of_empty.
Defined.

(** A [dimdle] of 0.25 with ticks: the dimension line from (0, 0, 0)
    to (10, 0, 0) is drawn from (-1, 0, 0) to (11, 0, 0). *)
Lemma dimension_line_extension_is_one_unit_witness :
  exists self s1 attribs,
    Sample.LinearDimension_init
      (mkState (sample_dimension 0 " " (with_ticks 0.1 0.25 default_style)
                  (mkVector 0 0 0) (mkVector 0 0 0) (mkVector 10 0 0)) [])
      = (Ok self, s1) /\
    sample_add_dimension_line self (mkVector 0 0 0) (mkVector 10 0 0) s1 =
    (Ok tt,
     mkState (dimension s1)
       (block s1 ++ [Line (mkVector (-1) 0 0) (mkVector 11 0 0) attribs])%list).
Proof.
  destruct (x_axis_init_Ok " " (with_ticks 0.1 0.25 default_style) EmptyString
              eq_refl eq_refl)
    as (self & s1 & Hinit & _ & _ & _ & _ & Hb & _ & Hbox & _).
  cbn [String.eqb] in Hbox.
  assert (Hdle : dimdle (dim_style (base self)) = Some 0.25)
    by (rewrite Hb; reflexivity).
  assert (Htick : tick_size (base self) > 0) by (rewrite Hb; cbn; lra).
  destruct (dimension_line_extension_is_one_unit "Standard" (-2)%Z
              (fun _ => false) Sample.drawing None None _ self
              (mkVector 0 0 0) (mkVector 10 0 0) 0.25 s1 Hb Hdle
              ltac:(lra) Htick Hbox magnitude_10_ne)
    as (_ & attribs & Hrun).
  exists self, s1, attribs. split; [exact Hinit|].
  unfold sample_add_dimension_line. rewrite Hrun. rewrite magnitude_10, Hb.
  repeat f_equal; apply Vector_eq; simpl; lra.
Defined.

(** *** The corners of a text box *)

(** X24. The corners that [TextBox.__init__] computes form a rectangle
    around the centre at every angle: the centre is the middle of both
    diagonals, the side from the first to the second corner is the
    width plus twice the gap long and the side from the first to the
    fourth corner the height plus twice the gap, the two sides are at a
    right angle, and opposite sides are equal. *)
Theorem TextBox_init_rectangle c w h angle g :
  let '(p1, p2, p3, p4) := corners (TextBox_init c w h angle g) in
  lerp p1 p3 0.5 = c /\
  lerp p2 p4 0.5 = c /\
  magnitude (vsub p2 p1) = Rabs (w + 2 * g) /\
  magnitude (vsub p4 p1) = Rabs (h + 2 * g) /\
  vx (vsub p2 p1) * vx (vsub p4 p1) + vy (vsub p2 p1) * vy (vsub p4 p1) = 0 /\
  vz (vsub p2 p1) = 0 /\ vz (vsub p4 p1) = 0 /\
  vsub p3 p4 = vsub p2 p1 /\
  vsub p3 p2 = vsub p4 p1.
Proof.
  rewrite TextBox_init_frame. unfold frame_box, frame_w2, frame_h2. cbn [corners].
  set (C := cos (radians angle)). set (S := sin (radians angle)).
  assert (Hunit : C * C + S * S = 1) by apply frame_unit.
  assert (Hside : forall k,
            sqrt (2 * (C * k) * (2 * (C * k)) + 2 * (S * k) * (2 * (S * k)) + 0 * 0)
            = Rabs (2 * k)).
  { intros k. rewrite <- sqrt_Rsqr_abs. f_equal. unfold Rsqr.
    transitivity (4 * k * k * (C * C + S * S)); [ring|rewrite Hunit; ring]. }
  assert (Hside' : forall k,
            sqrt (2 * (- S * k) * (2 * (- S * k)) + 2 * (C * k) * (2 * (C * k)) + 0 * 0)
            = Rabs (2 * k)).
  { intros k. rewrite <- sqrt_Rsqr_abs. f_equal. unfold Rsqr.
    transitivity (4 * k * k * (C * C + S * S)); [ring|rewrite Hunit; ring]. }
  repeat split.
  - apply Vector_eq; unfold lerp, vadd, vsub, vscale; simpl; lra.
  - apply Vector_eq; unfold lerp, vadd, vsub, vscale; simpl; lra.
  - unfold magnitude, vsub, vadd. simpl.
    replace (w + 2 * g) with (2 * (w / 2 + g)) by lra.
    rewrite <- Hside. f_equal. ring.
  - unfold magnitude, vsub, vadd. simpl.
    replace (h + 2 * g) with (2 * (h / 2 + g)) by lra.
    rewrite <- Hside'. f_equal. ring.
  - unfold vsub, vadd. simpl. ring.
  - unfold vsub, vadd. simpl. ring.
  - unfold vsub, vadd. simpl. ring.
  - apply Vector_eq; unfold vadd, vsub; simpl; ring.
  - apply Vector_eq; unfold vadd, vsub; simpl; ring.
Qed.
(** *** A line that ends in a text box *)

(** Between a point inside and a point that is not outside, a line stays
    inside. *)
Lemma between_inside pS dp t0 t1 t2 :
  -1 < pS + t0 * dp < 1 -> -1 <= pS + t2 * dp <= 1 ->
  t0 < t1 < t2 \/ t2 < t1 < t0 ->
  -1 < pS + t1 * dp < 1.
Proof.
  intros H0 H2 Ht.
  destruct (Rlt_dec 0 dp) as [Hpos|Hneg]; [nra|].
  destruct (Rlt_dec dp 0) as [Hneg'|Hzero]; [nra|].
  assert (dp = 0) by lra. subst dp. lra.
Qed.

Section FrameEnds.

Variables (c : Vector) (a b C S : R).
Hypothesis unit : C * C + S * S = 1.
Variable line : ConstructionLine.

Local Abbreviation box := (frame_box c a b C S).
Local Abbreviation p := (fun t => alpha c C S (line_start line) / a
                                  + t * (d_alpha C S line / a)).
Local Abbreviation q := (fun t => beta c C S (line_start line) / b
                                  + t * (d_beta C S line / b)).

(** A common point with a border, in the coordinates of the frame. *)
Lemma hit_on_border i X :
  a <> 0 -> b <> 0 ->
  line_intersect line (edge c a b C S i) = Some X ->
  exists t,
    0 <= t <= 1 /\ X = point_at line t /\
    -1 <= p t <= 1 /\ -1 <= q t <= 1 /\
    (p t = 1 \/ p t = -1 \/ q t = 1 \/ q t = -1).
Proof.
  intros Ha Hb H.
  assert (Hp : forall t m, alpha c C S (point_at line t) = a * m -> p t = m).
  { intros t m E. rewrite alpha_point_at in E.
    apply Rmult_eq_reg_l with a; [|exact Ha]. rewrite <- E. field. exact Ha. }
  assert (Hq : forall t m, beta c C S (point_at line t) = b * m -> q t = m).
  { intros t m E. rewrite beta_point_at in E.
    apply Rmult_eq_reg_l with b; [|exact Hb]. rewrite <- E. field. exact Hb. }
  destruct i as [|[|[|i]]].
  - destruct (edge0_Some c a b C S unit line X H)
      as (t & m & Ht & -> & Hm & Hbeta & Halpha & _).
    exists t. split; [exact Ht|]. split; [reflexivity|].
    rewrite (Hp t m Halpha), (Hq t (-1)) by (rewrite Hbeta; ring).
    repeat split; try lra; auto.
  - destruct (edge1_Some c a b C S unit line X H)
      as (t & m & Ht & -> & Hm & Halpha & Hbeta & _).
    exists t. split; [exact Ht|]. split; [reflexivity|].
    rewrite (Hq t m Hbeta), (Hp t 1) by (rewrite Halpha; ring).
    repeat split; try lra; auto.
  - destruct (edge2_Some c a b C S unit line X H)
      as (t & m & Ht & -> & Hm & Hbeta & Halpha & _).
    exists t. split; [exact Ht|]. split; [reflexivity|].
    rewrite (Hp t m Halpha), (Hq t 1) by (rewrite Hbeta; ring).
    repeat split; try lra; auto.
  - destruct (edge3_Some c a b C S unit line X H)
      as (t & m & Ht & -> & Hm & Halpha & Hbeta & _).
    exists t. split; [exact Ht|]. split; [reflexivity|].
    rewrite (Hq t m Hbeta), (Hp t (-1)) by (rewrite Halpha; ring).
    repeat split; try lra; auto.
Qed.

(** A point of the interior, in the coordinates of the frame. *)
Lemma interior_frame t :
  in_interior box (point_at line t) ->
  a <> 0 /\ b <> 0 /\ -1 < p t < 1 /\ -1 < q t < 1.
Proof.
  intros (Harea & u & v & Huv & Hspan).
  apply (has_area_frame c a b C S unit) in Harea as [Ha Hb].
  apply (spans_frame c a b C S unit) in Hspan as [Hu Hv].
  rewrite alpha_point_at in Hu. rewrite beta_point_at in Hv.
  split; [exact Ha|]. split; [exact Hb|].
  assert (Hp : p t = 2 * u - 1).
  { apply Rmult_eq_reg_l with a; [|exact Ha]. rewrite <- Hu. field. exact Ha. }
  assert (Hq : q t = 2 * v - 1).
  { apply Rmult_eq_reg_l with b; [|exact Hb]. rewrite <- Hv. field. exact Hb. }
  rewrite Hp, Hq. lra.
Qed.

Lemma in_interior_ends :
  (in_interior box (line_start line) <-> in_interior box (point_at line 0)) /\
  (in_interior box (line_end line) <-> in_interior box (point_at line 1)) /\
  (in_box box (line_end line) <-> in_box box (point_at line 1)) /\
  (in_box box (line_start line) <-> in_box box (point_at line 0)).
Proof.
  assert (H0 : forall u v, spans box u v (line_start line) <->
                           spans box u v (point_at line 0)).
  { intros u v. unfold spans, point_at. simpl.
    replace (vx (line_start line) + 0 * (vx (line_end line) - vx (line_start line)))
      with (vx (line_start line)) by ring.
    replace (vy (line_start line) + 0 * (vy (line_end line) - vy (line_start line)))
      with (vy (line_start line)) by ring.
    reflexivity. }
  assert (H1 : forall u v, spans box u v (line_end line) <->
                           spans box u v (point_at line 1)).
  { intros u v. unfold spans, point_at. simpl.
    replace (vx (line_start line) + 1 * (vx (line_end line) - vx (line_start line)))
      with (vx (line_end line)) by ring.
    replace (vy (line_start line) + 1 * (vy (line_end line) - vy (line_start line)))
      with (vy (line_end line)) by ring.
    reflexivity. }
  assert (I : forall X Y, (forall u v, spans box u v X <-> spans box u v Y) ->
                          in_interior box X <-> in_interior box Y).
  { intros X Y HXY. unfold in_interior.
    split; intros (Harea & u & v & Huv & Hs); (split; [exact Harea|]);
      exists u, v; (split; [exact Huv|]); apply HXY; exact Hs. }
  assert (B : forall X Y, (forall u v, spans box u v X <-> spans box u v Y) ->
                          in_box box X <-> in_box box Y).
  { intros X Y HXY. unfold in_box.
    split; intros (u & v & Huv & Hs);
      exists u, v; (split; [exact Huv|]); apply HXY; exact Hs. }
  split; [apply I; exact H0|]. split; [apply I; exact H1|].
  split; [apply B; exact H1|apply B; exact H0].
Qed.

(** With a point of the interior at [t0], the line meets the borders at
    most once on each side of [t0]. *)
Lemma hits_same_side t0 i j X Y t t' :
  in_interior box (point_at line t0) ->
  line_intersect line (edge c a b C S i) = Some X ->
  line_intersect line (edge c a b C S j) = Some Y ->
  X = point_at line t -> Y = point_at line t' ->
  (t0 <= t /\ t0 <= t') \/ (t <= t0 /\ t' <= t0) ->
  d_alpha C S line <> 0 \/ d_beta C S line <> 0 ->
  X = Y.
Proof.
  intros Hin HX HY -> -> Hside Hd.
  destruct (interior_frame _ Hin) as (Ha & Hb & Hp0 & Hq0).
  destruct (hit_on_border _ _ Ha Hb HX) as (t1 & _ & E1 & Hp1 & Hq1 & Hon1).
  destruct (hit_on_border _ _ Ha Hb HY) as (t2 & _ & E2 & Hp2 & Hq2 & Hon2).
  apply (point_at_inj c C S line _ _ Hd) in E1, E2. subst t1 t2.
  destruct (Rtotal_order t t') as [Hlt | [-> | Hgt]]; [|reflexivity|]; exfalso.
  - destruct Hside as [[H1 H2] | [H1 H2]].
    + (* t0 <= t < t': the point at t is inside *)
      destruct (Req_dec_T t0 t) as [<-|Hne]; [lra|].
      pose proof (between_inside _ _ t0 t t' Hp0 Hp2 ltac:(lra)).
      pose proof (between_inside _ _ t0 t t' Hq0 Hq2 ltac:(lra)). lra.
    + destruct (Req_dec_T t0 t') as [<-|Hne]; [lra|].
      pose proof (between_inside _ _ t0 t' t Hp0 Hp1 ltac:(lra)).
      pose proof (between_inside _ _ t0 t' t Hq0 Hq1 ltac:(lra)). lra.
  - destruct Hside as [[H1 H2] | [H1 H2]].
    + destruct (Req_dec_T t0 t') as [<-|Hne]; [lra|].
      pose proof (between_inside _ _ t0 t' t Hp0 Hp1 ltac:(lra)).
      pose proof (between_inside _ _ t0 t' t Hq0 Hq1 ltac:(lra)). lra.
    + destruct (Req_dec_T t0 t) as [<-|Hne]; [lra|].
      pose proof (between_inside _ _ t0 t t' Hp0 Hp2 ltac:(lra)).
      pose proof (between_inside _ _ t0 t t' Hq0 Hq2 ltac:(lra)). lra.
Qed.

Lemma singleton_list (l : list Vector) P :
  NoDup l -> P ∈ l -> (forall X, X ∈ l -> X = P) -> l = [P].
Proof.
  intros Hnd HP Hall. destruct l as [|x [|y l]].
  - inversion HP.
  - f_equal. apply Hall. left.
  - exfalso. apply NoDup_cons in Hnd as [Hx _]. apply Hx.
    rewrite (Hall x) by left. rewrite (Hall y) by (right; left). left.
Qed.

Lemma intersect_frame_one_end :
  (in_interior box (line_start line) /\ ~ in_box box (line_end line)) \/
  (~ in_box box (line_start line) /\ in_interior box (line_end line)) ->
  exists P t,
    intersect box line = [P] /\ 0 <= t <= 1 /\ P = point_at line t.
Proof.
  destruct in_interior_ends as (Hi0 & Hi1 & Hb1 & Hb0).
  intros [[Hin Hout] | [Hout Hin]].
  - apply Hi0 in Hin. rewrite Hb1 in Hout.
    destruct (interior_frame _ Hin) as (Ha & Hb & Hp0 & Hq0).
    pose proof (not_in_box_frame c a b C S unit _ Ha Hb Hout) as Hout'.
    rewrite alpha_point_at, beta_point_at in Hout'.
    assert (E1 : (alpha c C S (line_start line) + 1 * d_alpha C S line) / a = p 1)
      by (field; exact Ha).
    assert (E2 : (beta c C S (line_start line) + 1 * d_beta C S line) / b = q 1)
      by (field; exact Hb).
    rewrite E1, E2 in Hout'.
    destruct (exit_forward _ _ _ _ 0 Hp0 Hq0 ltac:(lra) Hout') as (t & Ht & Hborder).
    destruct (on_border_hits c a b C S unit line t Ha Hb ltac:(lra) Hborder)
      as (Hd & i & Hi & Hhit).
    exists (point_at line t), t. split; [|split; [lra|reflexivity]].
    apply singleton_list; [apply intersect_NoDup| |].
    + apply intersect_elem_of. exists (edge c a b C S i). split; [|exact Hhit].
      apply border_lines_elem_of. eauto.
    + intros X HX. apply intersect_elem_of in HX as (e & He & HX).
      apply border_lines_elem_of in He as (j & _ & ->).
      destruct (edge_Some_in_box c a b C S unit line j X HX) as (t' & Ht' & EX & _).
      apply (hits_same_side 0 j i X (point_at line t) t' t Hin HX Hhit EX eq_refl);
        [left; lra|exact Hd].
  - apply Hi1 in Hin. rewrite Hb0 in Hout.
    destruct (interior_frame _ Hin) as (Ha & Hb & Hp1 & Hq1).
    pose proof (not_in_box_frame c a b C S unit _ Ha Hb Hout) as Hout'.
    rewrite alpha_point_at, beta_point_at in Hout'.
    assert (E1 : (alpha c C S (line_start line) + 0 * d_alpha C S line) / a
                 = alpha c C S (line_start line) / a) by (field; exact Ha).
    assert (E2 : (beta c C S (line_start line) + 0 * d_beta C S line) / b
                 = beta c C S (line_start line) / b) by (field; exact Hb).
    rewrite E1, E2 in Hout'.
    destruct (exit_backward _ _ _ _ 1 Hp1 Hq1 ltac:(lra) Hout') as (t & Ht & Hborder).
    destruct (on_border_hits c a b C S unit line t Ha Hb ltac:(lra) Hborder)
      as (Hd & i & Hi & Hhit).
    exists (point_at line t), t. split; [|split; [lra|reflexivity]].
    apply singleton_list; [apply intersect_NoDup| |].
    + apply intersect_elem_of. exists (edge c a b C S i). split; [|exact Hhit].
      apply border_lines_elem_of. eauto.
    + intros X HX. apply intersect_elem_of in HX as (e & He & HX).
      apply border_lines_elem_of in He as (j & _ & ->).
      destruct (edge_Some_in_box c a b C S unit line j X HX) as (t' & Ht' & EX & _).
      apply (hits_same_side 1 j i X (point_at line t) t' t Hin HX Hhit EX eq_refl);
        [right; lra|exact Hd].
Qed.

End FrameEnds.

(** X25. A line that has one end in the interior of a text box and the
    other end outside of the box meets the border in exactly one point:
    [TextBox.intersect] returns a list of one point, which lies on the
    line.  (The dimension line is then drawn in one piece.) *)
Theorem intersect_one_end_inside c w h angle g line :
  let tb := TextBox_init c w h angle g in
  (in_interior tb (line_start line) /\ ~ in_box tb (line_end line)) \/
  (~ in_box tb (line_start line) /\ in_interior tb (line_end line)) ->
  exists P t,
    intersect tb line = [P] /\ 0 <= t <= 1 /\ P = point_at line t.
Proof.
  intros tb. subst tb. rewrite TextBox_init_frame.
  apply intersect_frame_one_end. apply frame_unit.
Qed.

(** The line from the centre of the square to a point on the x axis
    outside of it. *)
Definition line_out : ConstructionLine :=
mkLine (mkVector 0 0 0) (mkVector 2 0 0).

Lemma intersect_one_end_inside_witness :
  exists P t,
    intersect square line_out = [P] /\ 0 <= t <= 1 /\ P = point_at line_out t.
Proof.
  apply (intersect_one_end_inside (mkVector 0 0 0) 2 2 0 0 line_out).
  left. unfold in_interior, in_box, has_area, spans, line_out.
  rewrite TextBox_init_0. cbn [corners line_start line_end vx vy]. split.
  - split; [unfold cross2, vsub; simpl; lra|].
    exists (1 / 2), (1 / 2). split; [lra|]. lra.
  - intros (u & v & Hu & Hx & Hy). lra.
Defined.




(** A dimension between two points above each other, with a horizontal
    dimension line: it measures zero and has the text "0 mm". *)
Lemma LinearDimension_init_zero_measurement_witness :
  exists s',
    Sample.LinearDimension_init
      (mkState (sample_dimension 0 "0 mm" default_style (mkVector 0 5 0)
                  (mkVector 0 0 0) (mkVector 0 3 0)) [])
    = (Raise ZeroDivisionError, s') /\
    block s' = [].
Proof.
  apply (LinearDimension_init_zero_measurement "Standard" (-2)%Z Sample.format_f
           (fun x _ => x) FormatText.suppress_zeros (fun s => s) Sample.drawing
           None None
           (mkState (sample_dimension 0 "0 mm" default_style (mkVector 0 5 0)
                       (mkVector 0 0 0) (mkVector 0 3 0)) [])
           "0 mm").
  - cbn. rewrite radians_0, sin_0. ring.
  - reflexivity.
  - reflexivity.
  - discriminate.
Defined.

Lemma foot_horizontal p q : foot p q 0 = mkVector (vx q) (vy p) 0.
Proof.
  unfold foot. rewrite radians_0, cos_0, sin_0.
  apply Vector_eq; simpl; ring.
Qed.

(** The sample dimension with its dimension line five units above the
    measurement points. *)
Definition raised (ds : DimStyle) : DimensionEntity :=
sample_dimension 0 "10 mm" ds (mkVector 0 5 0) (mkVector 0 0 0) (mkVector 10 0 0).

Lemma magnitude_raised :
  magnitude (vsub (mkVector 10 5 0) (mkVector 0 5 0)) = 10.
Proof.
  replace (vsub (mkVector 10 5 0) (mkVector 0 5 0)) with (mkVector 10 0 0)
    by (apply Vector_eq; simpl; ring).
  apply magnitude_x. lra.
Qed.

Lemma render_returns_when_witness :
  exists self s1 s',
    Sample.LinearDimension_init (mkState (raised default_style) []) = (Ok self, s1) /\
    suppress_ext1_line (base self) = false /\
    suppress_ext2_line (base self) = false /\
    sample_render self s1 = (Ok tt, s').
Proof.
  destruct (LinearDimension_init_Ok "Standard" (-2)%Z Sample.format_f
              (fun x _ => x) FormatText.suppress_zeros (fun s => s)
              Sample.drawing None None (mkState (raised default_style) [])
              "10 mm")
    as (self & s1 & Hinit & Ht & Hs & He & Hmeas & Hb & _ & _ & Hrest).
  - reflexivity.
  - reflexivity.
  - cbn [dimension raised sample_dimension dxf_defpoint dxf_defpoint2
         dxf_defpoint3 dxf_angle from_option]. unfold id.
    rewrite !foot_horizontal. cbn [vx vy]. rewrite magnitude_raised. lra.
  - reflexivity.
  - cbn [dimension raised sample_dimension dxf_defpoint dxf_defpoint2
         dxf_defpoint3 dxf_angle from_option] in Hs, He, Hmeas.
    unfold id in Hs, He, Hmeas.
    rewrite (foot_horizontal (mkVector 0 5 0) (mkVector 0 0 0)) in Hs, Hmeas.
    rewrite (foot_horizontal (mkVector 0 5 0) (mkVector 10 0 0)) in He, Hmeas.
    cbn [vx vy] in Hs, He, Hmeas.
    rewrite magnitude_raised in Hmeas.
    cbv zeta in Hrest. cbn [String.eqb Ascii.eqb Bool.eqb] in Hrest.
    destruct Hrest as (Hloc & Hbox & Hdim).
    pose proof Hinit as Hinv.
    apply LinearDimension_init_inv in Hinv
      as (_ & _ & _ & _ & He1 & He2 & _ & _ & _ & _ & Harrows & _).
    cbn [dimension raised sample_dimension dxf_defpoint2 dxf_defpoint3]
      in He1, He2.
    set (b := DimensionBase_attributes _ _ _ _ _ _) in *.
    assert (Hout : arrows_outside self = false).
    { rewrite Harrows, Hmeas. unfold Rgtb.
      destruct (Rgt_dec _ _) as [H|H]; [|reflexivity]. cbn in H. lra. }
    assert (Htick : Rgtb (tick_size (base self)) 0 = false)
      by (rewrite Hb; apply Rgtb_0_0).
    assert (Hsup1 : suppress_ext1_line (base self) = false)
      by (rewrite Hb; cbn; apply bool_of_R_0).
    assert (Hsup2 : suppress_ext2_line (base self) = false)
      by (rewrite Hb; cbn; apply bool_of_R_0).
    edestruct (render_returns_when (fun _ => None) (fun _ => true)
                 (fun _ => false) (fun _ => false) "OBLIQUE" (fun _ p _ _ => p)
                 Sample.drawing self s1 EmptyString EmptyString)
      as (s' & Hrun).
    + right. eauto.
    + right. rewrite Hs, He1.
      replace (vsub (mkVector 0 5 0) (mkVector 0 0 0)) with (mkVector 0 5 0)
        by (apply Vector_eq; simpl; ring).
      rewrite magnitude_y; lra.
    + right. rewrite He, He2.
      replace (vsub (mkVector 10 5 0) (mkVector 10 0 0)) with (mkVector 0 5 0)
        by (apply Vector_eq; simpl; ring).
      rewrite magnitude_y; lra.
    + right. rewrite Hb. cbn. rewrite Rgtb_0_0.
      repeat split; left; reflexivity.
    + rewrite Htick, Hout. cbn [orb fst snd]. rewrite Hs, He, magnitude_raised. lra.
    + rewrite Hdim. reflexivity.
    + exists self, s1, s'. repeat split; assumption.
Defined.


(** *** More witnesses *)

(** Extension lines that go [exe] beyond the dimension line and start
    [exo] after the measurement points. *)
Definition with_dimex (exe exo : R) (ds : DimStyle) : DimStyle :=
mkDimStyle (dimscale ds) (dimlfac ds) (dimtxsty ds) (dimtxt ds) (dimgap ds)
  (dimclrt ds) (dimjust ds) (dimtad ds) (dimtmove ds) (dimtih ds) (dimtoh ds)
  (dimtix ds) (dimtsz ds) (arrow_names ds) (dimasz ds) (dimclrd ds) (dimdle ds)
  (dimltype ds) (dimlwd ds) (dimsd1 ds) (dimsd2 ds) (dimclre ds) (dimltex1 ds)
  (dimltex2 ds) (dimlwe ds) (dimse1 ds) (dimse2 ds) (Some exe) (Some exo)
  (dimexfix ds) (dimexlen ds) (dimrnd ds) (dimdec ds) (dimzin ds) (dimdsep ds)
  (dimpost ds).

(** An extension line over ten units with [dimexe] 1.25 and [dimexo]
    0.625 is 10.625 long. *)
Lemma extension_line_offset_lengths_witness :
  let b := sample_base (scenario (with_dimex 1.25 0.625 default_style)) in
  exists start' end',
    extension_line_points b (mkVector 0 0 0) (mkVector 10 0 0)
      = Ok (start', end') /\
    magnitude (vsub start' (mkVector 0 0 0)) = Rabs 0.625 /\
    magnitude (vsub end' (mkVector 10 0 0)) = Rabs 1.25 /\
    magnitude (vsub end' start') = Rabs (10 + 1.25 - 0.625).
Proof.
  intros b.
  destruct (extension_line_offset_lengths b (mkVector 0 0 0) (mkVector 10 0 0)
              magnitude_10_ne bool_of_R_0)
    as (start' & end' & Hrun & _ & _ & _ & Hs & He & Hlen).
  exists start', end'. split; [exact Hrun|]. split; [exact Hs|].
  split; [exact He|]. rewrite magnitude_10 in Hlen. exact Hlen.
Defined.

(** The sample dimension, rendered without a UCS, keeps its measurement
    points. *)
Lemma linear_transforms_measurement_points_witness :
  exists s',
    sample_linear (mkState (labelled (with_dimse 1 1 default_style)) [])
      = (Ok tt, s') /\
    dxf_defpoint2 (dimension s') = mkVector 0 0 0 /\
    dxf_defpoint3 (dimension s') = mkVector 10 0 0.
Proof.
  destruct sample_linear_returns as (s' & Hrun).
  destruct (linear_transforms_measurement_points "Standard" (-2)%Z
              (fun _ => None) (fun _ => true) (fun _ => false)
              (fun _ => false) "OBLIQUE" (fun _ p _ _ => p) Sample.format_f
              (fun x _ => x) FormatText.suppress_zeros (fun s => s)
              Sample.drawing None None _ s' Hrun)
    as (_ & _ & Hnone).
  destruct (Hnone eq_refl) as [H2 H3].
  exists s'. split; [exact Hrun|]. split; [exact H2|exact H3].
Defined.

(** [dimjust] 3 on the sample dimension: the text is placed
    0.625 + 0.18 + 5 / 2 away from the stored point. *)
Lemma get_text_location_aligned_witness :
  let d := labelled (with_dimjust 3 default_style) in
  let b := sample_base d in
  exists stored loc,
    get_text_location b (mkVector 0 0 0) (mkVector 10 0 0) 5 false
      (mkState d []) =
    (Ok loc, mkState (set_text_midpoint stored d) []) /\
    magnitude (vsub loc stored) = Rabs (0.625 + 0.18 + 5 / 2).
Proof.
  intros d b.
  destruct (get_text_location_aligned b (mkVector 0 0 0) (mkVector 10 0 0) 5
              false (mkState d []) eq_refl (or_introl eq_refl) magnitude_10_ne)
    as (stored & loc & Hrun & _ & _ & Hdist & _).
  exists stored, loc. split; [exact Hrun|exact Hdist].
Defined.


(** *** The text location that is stored *)




(** *** The text that is to go outside *)

(** C3, on the code.  The constructor computes the two flags as the
    claim has them, and [add_arrows] acts on [arrows_outside]; but
    [get_text_location] never reads its argument [text_outside] (its
    documentation: "place text outside of extension lines"; its body:
    "todo: text location outside").  A text of ten characters over a
    measurement of 10 needs 10 + 2 * (0.18 + 0.625) = 11.61 units and is
    flagged outside, and is placed where a text that fits is placed: the
    middle (5, 0, 0) of the dimension line is stored as [text_midpoint],
    and the text is centred on it, between the extension lines at x = 0
    and x = 10. *)
Theorem text_outside_is_not_placed :
  let d := sample_dimension 0 "10.0000 mm" default_style
             (mkVector 0 0 0) (mkVector 0 0 0) (mkVector 10 0 0) in
  (forall self start end_ width s,
     get_text_location self start end_ width true s =
     get_text_location self start end_ width false s) /\
  exists self s',
    Sample.LinearDimension_init (mkState d []) = (Ok self, s') /\
    let b := base self in
    Dimension.text self = "10.0000 mm"%string /\
    measurement self = 10 /\
    Dimension.dim_line_start self = mkVector 0 0 0 /\
    Dimension.dim_line_end self = mkVector 10 0 0 /\
    force_text_inside b = false /\
    text_width b (Dimension.text self) + 2 * (arrow_size b + text_gap b)
      = 11.61 /\
    text_outside self = true /\
    arrows_outside self = false /\
    dxf_text_midpoint (dimension s') = Some (mkVector 5 0 0) /\
    text_location self = Some (mkVector 5 0 0).
Proof.
  intros d. split; [reflexivity|].
  destruct (x_axis_init_Ok "10.0000 mm" default_style "10.0000 mm"
              eq_refl eq_refl)
    as (self & s' & Hinit & Ht & Hs & He & Hm & Hb & _ & _ & Hdim).
  cbn [String.eqb Ascii.eqb Bool.eqb] in Hdim.
  exists self, s'. split; [exact Hinit|]. intros b.
  assert (Htext : Dimension.text self <> EmptyString)
    by (rewrite Ht; discriminate).
  destruct (placement_decisions "Standard" (-2)%Z Sample.format_f
              (fun x _ => x) FormatText.suppress_zeros (fun s => s)
              Sample.drawing None None _ self s' Hinit Htext)
    as (Hout & Harrows & _).
  fold b in Hout, Harrows.
  assert (Hh : text_height b = 1)
    by (unfold b; rewrite Hb; apply char_height_default; reflexivity).
  assert (Hw : text_width b (Dimension.text self) = 10).
  { unfold text_width. rewrite Hh, Ht. unfold b. rewrite Hb. cbn. lra. }
  assert (Ha : arrow_size b = 0.18) by (unfold b; rewrite Hb; cbn; lra).
  assert (Hg : text_gap b = 0.625) by (unfold b; rewrite Hb; cbn; lra).
  assert (Hf : force_text_inside b = false)
    by (unfold b; rewrite Hb; apply bool_of_R_0).
  split; [exact Ht|]. split; [exact Hm|]. split; [exact Hs|].
  split; [exact He|]. split; [exact Hf|].
  split; [rewrite Hw, Ha, Hg; lra|].
  split; [apply Hout; split; [rewrite Hw, Ha, Hg, Hm; lra|exact Hf]|].
  split.
  { destruct (arrows_outside self); [|reflexivity].
    pose proof (proj1 Harrows eq_refl) as H. rewrite Ha, Hg, Hm in H. lra. }
  split; [rewrite Hdim; reflexivity|].
  pose proof Hinit as Hinv.
  apply LinearDimension_init_inv in Hinv
    as (_ & _ & _ & _ & _ & _ & _ & _ & _ & _ & _ & Hrest).
  cbv zeta in Hrest. rewrite Ht in Hrest.
  cbn [String.eqb Ascii.eqb Bool.eqb] in Hrest.
  destruct Hrest as (_ & loc & Hloc & Hlocation & _).
  rewrite Hlocation. f_equal.
  rewrite Hs, He in Hloc. unfold get_text_location in Hloc.
  cbn [user_location_override DimensionBase_attributes dimension
       sample_dimension USER_LOCATION_OVERRIDE] in Hloc.
  change (text_halign _) with 0%Z in Hloc. cbn [Z.eqb orb] in Hloc.
  unfold mbind', ret, modify_dimension, lift in Hloc.
  rewrite normalize_Ok in Hloc
    by (rewrite magnitude_orthogonal; exact magnitude_10_ne).
  injection Hloc as <- _.
  rewrite magnitude_orthogonal, magnitude_10.
  unfold text_vertical_distance, vertical_factor.
  apply Vector_eq; cbn; lra.
Qed.

End DimensionProps.
